(** * file_ops.py: matching engine and bulk executor

    A shallow embedding of [src/file_ops.py]: the pattern-file parser
    ([parse_patterns_file]), the resolution of command-line flags and
    pattern-file rules done at the start of [main], the tree matcher
    ([find_matching_items] with its two closures [file_matches_criteria]
    and [file_matches_exclusion]) and the bulk executor ([process_items]).

    Conventions.
    - Python [str] values are [string]s of ASCII characters; [lower] and
      [strip] are the ASCII restrictions of [str.lower] and [str.strip].
    - An argument that may be [None] or a list is an [option (list string)];
      Python truthiness ([None] and [[]] are false) is [truthy].
    - [os.path] is POSIX ([posixpath]): separator [/], extension separator [.].
    - The directory tree holds regular files and directories only.
    - A pattern file is read in text mode: a line feed, a carriage return
      and a carriage return followed by a line feed each end a line.
    - The [logger] parameter of [process_items] is an [option Logger];
      [None] is its default, and a call on it raises. *)

From Stdlib Require Import String Ascii List Bool Arith ZArith Lia Setoid.
Import ListNotations.
Open Scope string_scope.
Open Scope list_scope.
Open Scope nat_scope.
Set Warnings "-register-all".

(** ** Python string primitives *)

Module Py.

Definition is_upper (c : ascii) : bool :=
    let n := nat_of_ascii c in (65 <=? n) && (n <=? 90).

Definition lower_char (c : ascii) : ascii :=
    if is_upper c then ascii_of_nat (nat_of_ascii c + 32) else c.

  (** [s.lower()] *)
Fixpoint lower (s : string) : string :=
    match s with
    | EmptyString => EmptyString
    | String c s' => String (lower_char c) (lower s')
    end.

  (** [c.isspace()] on ASCII: TAB, LF, VT, FF, CR, FS, GS, RS, US, SPACE. *)
Definition is_space (c : ascii) : bool :=
    let n := nat_of_ascii c in
    ((9 <=? n) && (n <=? 13)) || ((28 <=? n) && (n <=? 32)).

Definition is_empty (s : string) : bool :=
    match s with EmptyString => true | String _ _ => false end.

Fixpoint lstrip (s : string) : string :=
    match s with
    | EmptyString => EmptyString
    | String c s' => if is_space c then lstrip s' else s
    end.

Fixpoint rstrip (s : string) : string :=
    match s with
    | EmptyString => EmptyString
    | String c s' =>
        let r := rstrip s' in
        if is_space c && is_empty r then EmptyString else String c r
    end.

Fixpoint all_space (s : string) : bool :=
    match s with
    | EmptyString => true
    | String c s' => is_space c && all_space s'
    end.

Definition first_char (s : string) : option ascii :=
    match s with EmptyString => None | String c _ => Some c end.

Fixpoint last_char (s : string) : option ascii :=
    match s with
    | EmptyString => None
    | String c EmptyString => Some c
    | String _ s' => last_char s'
    end.

Definition is_space_opt (o : option ascii) : bool :=
    match o with Some c => is_space c | None => false end.

  (** [c in s] for a character. *)
Fixpoint has_char (c : ascii) (s : string) : bool :=
    match s with
    | EmptyString => false
    | String d s' => Ascii.eqb d c || has_char c s'
    end.

  (** [s.strip()] *)
Definition strip (s : string) : string := rstrip (lstrip s).

  (** [s.startswith(p)] *)
Definition startswith (s p : string) : bool := String.prefix p s.

  (** [s.endswith(p)] for a one-character [p]. *)
Fixpoint endswith_char (s : string) (c : ascii) : bool :=
    match s with
    | EmptyString => false
    | String d EmptyString => Ascii.eqb d c
    | String _ s' => endswith_char s' c
    end.

  (** [s.split(sep, 1)[0]] for a one-character [sep]: the part of [s]
      before the first occurrence of [sep], all of [s] when there is none. *)
Fixpoint split1_head (sep : ascii) (s : string) : string :=
    match s with
    | EmptyString => EmptyString
    | String c s' =>
        if Ascii.eqb c sep then EmptyString else String c (split1_head sep s')
    end.

  (** [s[1:]] *)
Definition drop_first (s : string) : string :=
    match s with EmptyString => EmptyString | String _ s' => s' end.

  (** [s[:-1]] *)
Fixpoint drop_last (s : string) : string :=
    match s with
    | EmptyString => EmptyString
    | String _ EmptyString => EmptyString
    | String c s' => String c (drop_last s')
    end.

  (** [p in s] on strings: substring test. *)
Fixpoint str_in (p s : string) : bool :=
    String.prefix p s ||
    match s with
    | EmptyString => false
    | String _ s' => str_in p s'
    end.

  (** What [p in s] decides: [p] occurs in [s]. *)
Definition occurs_in (p s : string) : Prop :=
    exists u v, s = (u ++ p ++ v)%string.

  (** [x in l] on a list of strings. *)
Definition mem (x : string) (l : list string) : bool :=
    existsb (String.eqb x) l.

  (** [s.rfind(c)] for a one-character [c]; [-1] when absent. *)
Fixpoint rfind (c : ascii) (s : string) : Z :=
    match s with
    | EmptyString => (-1)%Z
    | String d s' =>
        let r := rfind c s' in
        if (0 <=? r)%Z then (r + 1)%Z
        else if Ascii.eqb d c then 0%Z else (-1)%Z
    end.

  (** [s[:i]] and [s[i:]] for [0 <= i]. *)
Definition take (i : Z) (s : string) : string :=
    String.substring 0 (Z.to_nat i) s.

Definition drop (i : Z) (s : string) : string :=
    String.substring (Z.to_nat i) (String.length s - Z.to_nat i) s.

  (** An optional list: [None] or a list. *)
Definition olist := option (list string).

  (** Truthiness of [None] / list. *)
Definition truthy (o : olist) : bool :=
    match o with
    | Some (_ :: _) => true
    | _ => false
    end.

  (** [o or []] *)
Definition elems (o : olist) : list string :=
    match o with
    | Some l => l
    | None => []
    end.

  (** [o and x in o] *)
Definition omem (x : string) (o : olist) : bool :=
    truthy o && mem x (elems o).

End Py.

(** ** os.path (posixpath) *)

Module PosixPath.
Import Py.

Definition sep : ascii := "/"%char.
Definition extsep : ascii := "."%char.

  (** The [while filenameIndex < dotIndex] loop of [genericpath._splitext]:
      [true] when some character in [[filenameIndex, filenameIndex + n)] is
      not the extension separator. *)
Fixpoint has_non_dot (p : string) (filenameIndex : nat) (n : nat) : bool :=
    match n with
    | O => false
    | S n' =>
        match String.get filenameIndex p with
        | Some c =>
            if Ascii.eqb c extsep then has_non_dot p (S filenameIndex) n'
            else true
        | None => true
        end
    end.

  (** [os.path.splitext(p)] *)
Definition splitext (p : string) : string * string :=
    let sepIndex := rfind sep p in
    let dotIndex := rfind extsep p in
    if (dotIndex >? sepIndex)%Z then
      let filenameIndex := (sepIndex + 1)%Z in
      if has_non_dot p (Z.to_nat filenameIndex)
                     (Z.to_nat (dotIndex - filenameIndex))
      then (take dotIndex p, drop dotIndex p)
      else (p, EmptyString)
    else (p, EmptyString).

  (** [os.path.join(a, b)] *)
Definition join (a b : string) : string :=
    if startswith b (String sep EmptyString) then b
    else if is_empty a || endswith_char a sep then (a ++ b)%string
    else (a ++ String sep b)%string.

Fixpoint all_sep (s : string) : bool :=
    match s with
    | EmptyString => true
    | String c s' => Ascii.eqb c sep && all_sep s'
    end.

Fixpoint rstrip_sep (s : string) : string :=
    match s with
    | EmptyString => EmptyString
    | String c s' =>
        let r := rstrip_sep s' in
        if Ascii.eqb c sep && is_empty r then EmptyString else String c r
    end.

  (** [os.path.basename(p)] *)
Definition basename (p : string) : string :=
    let i := (rfind sep p + 1)%Z in
    drop i p.

  (** [os.path.dirname(p)] *)
Definition dirname (p : string) : string :=
    let i := (rfind sep p + 1)%Z in
    let head := take i p in
    if negb (is_empty head) && negb (all_sep head) then rstrip_sep head
    else head.

End PosixPath.

(** ** PatternFileParser: [parse_patterns_file] *)

Module Parser.
Import Py.

  (** The [patterns] dictionary, one field per key. *)
Record patterns : Type := mk_patterns {
    extensions : list string;
    directories : list string;
    exact : list string;
    contains : list string
  }.

Definition empty_patterns : patterns := mk_patterns [] [] [] [].

Definition LF : ascii := "010"%char.
Definition CR : ascii := "013"%char.

  (** Iterating over a file opened with [open(file_path, 'r')]: newlines
      are universal, so a line ends at LF, at CR LF or at a lone CR, each
      of them read as one LF, which the line keeps. *)
Fixpoint readlines (content : string) : list string :=
    match content with
    | EmptyString => []
    | String c rest =>
        if Ascii.eqb c LF then String LF EmptyString :: readlines rest
        else if Ascii.eqb c CR then
          String LF EmptyString
            :: match rest with
               | String d rest' =>
                   if Ascii.eqb d LF then readlines rest' else readlines rest
               | EmptyString => []
               end
        else match readlines rest with
             | [] => [String c EmptyString]
             | l :: ls => String c l :: ls
             end
    end.

  (** [line.split('#', 1)[0].strip()] *)
Definition clean (line : string) : string :=
    strip (split1_head "#"%char line).

  (** One iteration of the [for line in f] loop. *)
Definition parse_line (pats : patterns) (line : string) : patterns :=
    let line := clean line in
    if is_empty line then pats
    else if startswith line "." then
      let ext := lower line in
      mk_patterns (extensions pats ++ [ext]) (directories pats)
                  (exact pats) (contains pats)
    else if endswith_char line "/"%char then
      let dir_name := drop_last line in
      mk_patterns (extensions pats) (directories pats ++ [dir_name])
                  (exact pats) (contains pats)
    else if startswith line "*" then
      let pattern := drop_first line in
      mk_patterns (extensions pats) (directories pats)
                  (exact pats) (contains pats ++ [pattern])
    else
      mk_patterns (extensions pats) (directories pats)
                  (exact pats ++ [line]) (contains pats).

Definition parse_lines (lines : list string) : patterns :=
    fold_left parse_line lines empty_patterns.

  (** [parse_patterns_file(file_path)]: the file is given by its content,
      [None] when the path does not exist (the function then returns
      [None]). *)
Definition parse_patterns_file (file : option string) : option patterns :=
    match file with
    | None => None
    | Some content => Some (parse_lines (readlines content))
    end.

  (** The four categories in the words of the format description. *)
Definition is_extension_line (l : string) : bool := startswith l ".".
Definition is_directory_line (l : string) : bool :=
    negb (startswith l ".") && endswith_char l "/"%char.
Definition is_contains_line (l : string) : bool :=
    negb (startswith l ".") && negb (endswith_char l "/"%char)
    && startswith l "*".
Definition is_exact_line (l : string) : bool :=
    negb (startswith l ".") && negb (endswith_char l "/"%char)
    && negb (startswith l "*").

  (** The file of the scenario: [.bak], [logs/], [*draft], [notes.txt]. *)
Definition sample_file : string :=
    (".bak" ++ String LF ("logs/" ++ String LF ("*draft" ++ String LF
       ("notes.txt" ++ String LF EmptyString))))%string.

  (** The lines that survive comment removal and trimming, in file order. *)
Definition pattern_lines (lines : list string) : list string :=
    filter (fun l => negb (is_empty l)) (map clean lines).

End Parser.

(** ** TreeMatcher: [find_matching_items] *)

Module Matcher.
Import Py PosixPath.

  (** A directory tree: a regular file, or a directory with its entries in
      the order in which the operating system enumerates them. *)
Inductive node : Type :=
  | File : node
  | Dir : list (string * node) -> node.

Definition is_dir (e : string * node) : bool :=
    match snd e with Dir _ => true | File => false end.

Definition is_file (e : string * node) : bool :=
    match snd e with File => true | Dir _ => false end.

Definition dirnames (entries : list (string * node)) : list string :=
    map fst (filter is_dir entries).

Definition filenames (entries : list (string * node)) : list string :=
    map fst (filter is_file entries).

  (** [os.walk(top)], top-down: the triple [(root, dirs, files)] of [top],
      then the triples of each sub-directory in turn.  Walking something
      that is not a directory yields nothing. *)
Fixpoint walk (top : string) (n : node)
    : list (string * list string * list string) :=
    match n with
    | File => []
    | Dir entries =>
        (top, dirnames entries, filenames entries)
          :: flat_map (fun e => walk (join top (fst e)) (snd e)) entries
    end.

  (** The keyword arguments of [find_matching_items] ([source_dir] and
      [logger] apart). *)
Record config : Type := mk_config {
    extensions : olist;
    include_dirs : bool;
    target_dirs : olist;
    recursive : bool;
    contains_extension : bool;
    exact_match : olist;
    exclude_extensions : olist;
    exclude_exact : olist;
    exclude_contains : olist;
    exclude_dirs : olist;
    exclude_all_but : bool;
    include_all_files : bool;
    include_all_dirs : bool
  }.

  (** [ext.lower() if ext.startswith('.') else '.' + ext.lower()] *)
Definition normalize_ext (ext : string) : string :=
    if startswith ext "." then lower ext else ("." ++ lower ext)%string.

  (** [if extensions: extensions = [... for ext in extensions]] *)
Definition normalize (exts : olist) : olist :=
    if truthy exts then Some (map normalize_ext (elems exts)) else exts.

Definition has_inclusion_criteria (c : config) : bool :=
    truthy (extensions c) || truthy (exact_match c) || include_all_files c
    || (include_dirs c && truthy (target_dirs c)).

Definition has_exclusion_criteria (c : config) : bool :=
    truthy (exclude_extensions c) || truthy (exclude_exact c)
    || truthy (exclude_contains c) || truthy (exclude_dirs c).

  (** The two early [return [], []] tests: [true] when neither fires. *)
Definition criteria_valid (c : config) : bool :=
    negb (negb (has_inclusion_criteria c) && negb (has_exclusion_criteria c)
          && negb (exclude_all_but c))
    && negb (exclude_all_but c && negb (has_inclusion_criteria c)).

  (** The two closures, over the locals of [find_matching_items] they
      capture; [exts] and [excl_exts] are the normalized lists. *)
Section Closures.
Variable c : config.
Variables exts excl_exts : olist.

Definition file_matches_criteria (filename : string) : bool :=
      if include_all_files c then true
      else if omem filename (exact_match c) then true
      else if truthy exts then
        let file_ext := lower (snd (splitext filename)) in
        if mem file_ext (elems exts) then true
        else if contains_extension c then
          let filename_lower := lower filename in
          existsb (fun ext => str_in ext filename_lower) (elems exts)
        else false
      else false.

Definition file_matches_exclusion (filename : string) : bool :=
      if omem filename (exclude_exact c) then true
      else if truthy excl_exts
              && mem (lower (snd (splitext filename))) (elems excl_exts)
      then true
      else if truthy (exclude_contains c) then
        let filename_lower := lower filename in
        existsb (fun pattern => str_in (lower pattern) filename_lower)
                (elems (exclude_contains c))
      else false.

    (** The decision taken for one file in either walk. *)
Definition file_selected (file : string) : bool :=
      let matches_criteria := file_matches_criteria file in
      let matches_exclusion := file_matches_exclusion file in
      if exclude_all_but c then
        negb matches_criteria && negb matches_exclusion
      else
        (matches_criteria || negb (truthy exts || truthy (exact_match c))
         || include_all_files c)
        && negb matches_exclusion.

    (** The decision taken for one directory that is not skipped. *)
Definition dir_included (dir_name : string) : bool :=
      include_all_dirs c
      || (include_dirs c && truthy (target_dirs c)
          && mem dir_name (elems (target_dirs c))).

    (** [for file in files] of the recursive walk. *)
Definition process_files (root : string) (files : list string)
               (matched_files : list string) : list string :=
      fold_left
        (fun matched_files file =>
           if file_selected file
           then matched_files ++ [join root file]
           else matched_files)
        files matched_files.

    (** [for dir_name in dirs] of the recursive walk. *)
Definition process_dirs (root : string) (dirs : list string)
               (matched_dirs : list string) : list string :=
      fold_left
        (fun matched_dirs dir_name =>
           if omem dir_name (exclude_dirs c) then matched_dirs
           else if dir_included dir_name
                then matched_dirs ++ [join root dir_name]
                else matched_dirs)
        dirs matched_dirs.

    (** [for root, dirs, files in os.walk(source_dir)] *)
Definition walk_loop (triples : list (string * list string * list string))
      : list string * list string :=
      fold_left
        (fun '(matched_files, matched_dirs) '(root, dirs, files) =>
           (process_files root files matched_files,
            process_dirs root dirs matched_dirs))
        triples ([], []).

    (** [for item in os.listdir(source_dir)] *)
Definition listdir_loop (source_dir : string)
               (entries : list (string * node)) : list string * list string :=
      fold_left
        (fun '(matched_files, matched_dirs) e =>
           let item := fst e in
           let item_path := join source_dir item in
           match snd e with
           | File =>
               if file_selected item
               then (matched_files ++ [item_path], matched_dirs)
               else (matched_files, matched_dirs)
           | Dir _ =>
               let dir_name := basename item_path in
               if omem dir_name (exclude_dirs c)
               then (matched_files, matched_dirs)
               else if dir_included dir_name
                    then (matched_files, matched_dirs ++ [item_path])
                    else (matched_files, matched_dirs)
           end)
        entries ([], []).
End Closures.

  (** [find_matching_items(source_dir, ...)], where [entries] is the content
      of the directory [source_dir]. *)
Definition find_matching_items (source_dir : string)
             (entries : list (string * node)) (c : config)
    : list string * list string :=
    if negb (has_inclusion_criteria c) && negb (has_exclusion_criteria c)
       && negb (exclude_all_but c)
    then ([], [])
    else if exclude_all_but c && negb (has_inclusion_criteria c)
    then ([], [])
    else
      let exts := normalize (extensions c) in
      let excl_exts := normalize (exclude_extensions c) in
      if recursive c
      then walk_loop c exts excl_exts (walk source_dir (Dir entries))
      else listdir_loop c exts excl_exts source_dir entries.

  (** The directories of the tree below [top], with the path the walk gives
      each of them: [reaches top n root es] when the directory at path [root]
      with entries [es] is [n] itself or lies beneath it. *)
Inductive reaches : string -> node -> string -> list (string * node) -> Prop :=
  | reaches_top top es : reaches top (Dir es) top es
  | reaches_sub top es d sub root es' :
      In (d, sub) es ->
      reaches (join top d) sub root es' ->
      reaches top (Dir es) root es'.

  (** The directories whose entries a run looks at: all those of the tree
      in a recursive run, the source directory alone otherwise. *)
Definition listed (c : config) (source_dir : string)
             (entries : list (string * node))
             (root : string) (es : list (string * node)) : Prop :=
    if recursive c then reaches source_dir (Dir entries) root es
    else root = source_dir /\ es = entries.

  (** Entry names as a file system gives them: no separator inside. *)
Definition plain_names (entries : list (string * node)) : Prop :=
    Forall (fun e => has_char sep (fst e) = false) entries.

End Matcher.

(** ** MatchConfig resolution: the head of [main] *)

Module Cli.
Import Py.

  (** The [argparse] namespace, restricted to the options that reach the
      matcher. *)
Record Args : Type := mk_Args {
    operation : string;
    dest_dir : option string;
    extensions : olist;
    contains_extension : bool;
    exact_match : olist;
    include_dirs : bool;
    target_dirs : olist;
    patterns_file : option string;
    patterns_exclude : bool;
    patterns_excludeFiles : bool;
    patterns_excludeDirs : bool;
    patterns_override : bool;
    exclude_extensions : olist;
    exclude_exact : olist;
    exclude_contains : olist;
    exclude_all_but : bool;
    no_recursive : bool
  }.

  (** Assignments [args.<field> = v]. *)
Definition set_extensions (a : Args) (v : olist) : Args :=
    mk_Args (operation a) (dest_dir a) v (contains_extension a)
            (exact_match a) (include_dirs a) (target_dirs a)
            (patterns_file a) (patterns_exclude a) (patterns_excludeFiles a)
            (patterns_excludeDirs a) (patterns_override a)
            (exclude_extensions a) (exclude_exact a) (exclude_contains a)
            (exclude_all_but a) (no_recursive a).

Definition set_exact_match (a : Args) (v : olist) : Args :=
    mk_Args (operation a) (dest_dir a) (extensions a) (contains_extension a)
            v (include_dirs a) (target_dirs a)
            (patterns_file a) (patterns_exclude a) (patterns_excludeFiles a)
            (patterns_excludeDirs a) (patterns_override a)
            (exclude_extensions a) (exclude_exact a) (exclude_contains a)
            (exclude_all_but a) (no_recursive a).

Definition set_include_dirs (a : Args) (v : bool) : Args :=
    mk_Args (operation a) (dest_dir a) (extensions a) (contains_extension a)
            (exact_match a) v (target_dirs a)
            (patterns_file a) (patterns_exclude a) (patterns_excludeFiles a)
            (patterns_excludeDirs a) (patterns_override a)
            (exclude_extensions a) (exclude_exact a) (exclude_contains a)
            (exclude_all_but a) (no_recursive a).

Definition set_target_dirs (a : Args) (v : olist) : Args :=
    mk_Args (operation a) (dest_dir a) (extensions a) (contains_extension a)
            (exact_match a) (include_dirs a) v
            (patterns_file a) (patterns_exclude a) (patterns_excludeFiles a)
            (patterns_excludeDirs a) (patterns_override a)
            (exclude_extensions a) (exclude_exact a) (exclude_contains a)
            (exclude_all_but a) (no_recursive a).

Definition set_exclude_extensions (a : Args) (v : olist) : Args :=
    mk_Args (operation a) (dest_dir a) (extensions a) (contains_extension a)
            (exact_match a) (include_dirs a) (target_dirs a)
            (patterns_file a) (patterns_exclude a) (patterns_excludeFiles a)
            (patterns_excludeDirs a) (patterns_override a)
            v (exclude_exact a) (exclude_contains a)
            (exclude_all_but a) (no_recursive a).

Definition set_exclude_exact (a : Args) (v : olist) : Args :=
    mk_Args (operation a) (dest_dir a) (extensions a) (contains_extension a)
            (exact_match a) (include_dirs a) (target_dirs a)
            (patterns_file a) (patterns_exclude a) (patterns_excludeFiles a)
            (patterns_excludeDirs a) (patterns_override a)
            (exclude_extensions a) v (exclude_contains a)
            (exclude_all_but a) (no_recursive a).

Definition set_exclude_contains (a : Args) (v : olist) : Args :=
    mk_Args (operation a) (dest_dir a) (extensions a) (contains_extension a)
            (exact_match a) (include_dirs a) (target_dirs a)
            (patterns_file a) (patterns_exclude a) (patterns_excludeFiles a)
            (patterns_excludeDirs a) (patterns_override a)
            (exclude_extensions a) (exclude_exact a) v
            (exclude_all_but a) (no_recursive a).

  (** The local variables of [main] that the resolution reads and writes.
      [include_all_dirs] is [None] while the name is unbound. *)
Record locals : Type := mk_locals {
    args : Args;
    exclude_dirs : olist;
    include_all_files : bool;
    include_all_dirs : option bool;
    has_inclusion_criteria : bool;
    has_exclusion_criteria : bool
  }.

Definition on_args (f : Args -> Args) (l : locals) : locals :=
    mk_locals (f (args l)) (exclude_dirs l) (include_all_files l)
              (include_all_dirs l) (has_inclusion_criteria l)
              (has_exclusion_criteria l).

Definition set_exclude_dirs (v : olist) (l : locals) : locals :=
    mk_locals (args l) v (include_all_files l) (include_all_dirs l)
              (has_inclusion_criteria l) (has_exclusion_criteria l).

Definition set_include_all_files (v : bool) (l : locals) : locals :=
    mk_locals (args l) (exclude_dirs l) v (include_all_dirs l)
              (has_inclusion_criteria l) (has_exclusion_criteria l).

Definition set_include_all_dirs (v : bool) (l : locals) : locals :=
    mk_locals (args l) (exclude_dirs l) (include_all_files l) (Some v)
              (has_inclusion_criteria l) (has_exclusion_criteria l).

Definition set_has_inclusion_criteria (v : bool) (l : locals) : locals :=
    mk_locals (args l) (exclude_dirs l) (include_all_files l)
              (include_all_dirs l) v (has_exclusion_criteria l).

Definition set_has_exclusion_criteria (v : bool) (l : locals) : locals :=
    mk_locals (args l) (exclude_dirs l) (include_all_files l)
              (include_all_dirs l) (has_inclusion_criteria l) v.

  (** [if cond: body] as a state transformer. *)
Definition when (cond : bool) (body : locals -> locals) (l : locals)
    : locals := if cond then body l else l.

  (** [file_patterns.get(key)] is true for a non-empty list. *)
Definition nonempty (l : list string) : bool :=
    match l with [] => false | _ :: _ => true end.

  (** Truthiness of an optional string. *)
Definition truthy_str (o : option string) : bool :=
    match o with
    | Some s => negb (is_empty s)
    | None => false
    end.

  (** The locals just before the pattern file is looked at. *)
Definition initial_locals (a : Args) : locals :=
    mk_locals a None false None
      (truthy (extensions a) || truthy (exact_match a)
       || (include_dirs a && truthy (target_dirs a)))
      (truthy (exclude_extensions a) || truthy (exclude_exact a)
       || truthy (exclude_contains a)).

  (** [if args.patterns_exclude:] branch. *)
Definition resolve_exclude (fp : Parser.patterns) (l : locals) : locals :=
    let l := set_include_all_files true l in
    let l := set_include_all_dirs true l in
    let l := set_has_inclusion_criteria true l in
    let l := when (nonempty (Parser.extensions fp))
               (fun l => on_args (fun a => set_exclude_extensions a
                  (Some (Parser.extensions fp ++ elems (exclude_extensions a)))) l) l in
    let l := when (nonempty (Parser.exact fp))
               (fun l => on_args (fun a => set_exclude_exact a
                  (Some (Parser.exact fp ++ elems (exclude_exact a)))) l) l in
    let l := when (nonempty (Parser.contains fp))
               (fun l => on_args (fun a => set_exclude_contains a
                  (Some (Parser.contains fp ++ elems (exclude_contains a)))) l) l in
    when (nonempty (Parser.directories fp))
         (set_exclude_dirs (Some (Parser.directories fp))) l.

  (** [elif args.patterns_excludeFiles:] branch. *)
Definition resolve_excludeFiles (fp : Parser.patterns) (l : locals)
    : locals :=
    let l := when (nonempty (Parser.extensions fp))
               (fun l => set_has_exclusion_criteria true
                  (on_args (fun a => set_exclude_extensions a
                     (Some (Parser.extensions fp ++ elems (exclude_extensions a)))) l)) l in
    let l := when (nonempty (Parser.exact fp))
               (fun l => set_has_exclusion_criteria true
                  (on_args (fun a => set_exclude_exact a
                     (Some (Parser.exact fp ++ elems (exclude_exact a)))) l)) l in
    let l := when (nonempty (Parser.contains fp))
               (fun l => set_has_exclusion_criteria true
                  (on_args (fun a => set_exclude_contains a
                     (Some (Parser.contains fp ++ elems (exclude_contains a)))) l)) l in
    when (nonempty (Parser.directories fp))
         (fun l => set_has_inclusion_criteria true
            (on_args (fun a => set_target_dirs (set_include_dirs a true)
               (Some (Parser.directories fp ++ elems (target_dirs a)))) l)) l.

  (** [elif args.patterns_excludeDirs:] branch. *)
Definition resolve_excludeDirs (fp : Parser.patterns) (l : locals)
    : locals :=
    let l := set_include_all_files true l in
    let l := set_include_all_dirs true l in
    let l := set_has_inclusion_criteria true l in
    let l := when (nonempty (Parser.extensions fp))
               (fun l => on_args (fun a => set_extensions a
                  (Some (Parser.extensions fp ++ elems (extensions a)))) l) l in
    let l := when (nonempty (Parser.exact fp))
               (fun l => on_args (fun a => set_exact_match a
                  (Some (Parser.exact fp ++ elems (exact_match a)))) l) l in
    when (nonempty (Parser.directories fp))
         (set_exclude_dirs (Some (Parser.directories fp))) l.

  (** [else:] branch, the normal inclusion mode. *)
Definition resolve_normal (fp : Parser.patterns) (l : locals) : locals :=
    let l := when (nonempty (Parser.extensions fp)
                   && (patterns_override (args l)
                       || negb (truthy (extensions (args l)))))
               (fun l => set_has_inclusion_criteria true
                  (on_args (fun a => set_extensions a
                     (Some (Parser.extensions fp
                            ++ (if patterns_override a then []
                                else elems (extensions a))))) l)) l in
    let l := when (nonempty (Parser.exact fp)
                   && (patterns_override (args l)
                       || negb (truthy (exact_match (args l)))))
               (fun l => set_has_inclusion_criteria true
                  (on_args (fun a => set_exact_match a
                     (Some (Parser.exact fp
                            ++ (if patterns_override a then []
                                else elems (exact_match a))))) l)) l in
    let l := when (nonempty (Parser.contains fp))
               (fun l => set_has_exclusion_criteria true
                  (on_args (fun a => set_exclude_contains a
                     (Some (Parser.contains fp ++ elems (exclude_contains a)))) l)) l in
    when (nonempty (Parser.directories fp))
         (fun l => set_has_inclusion_criteria true
            (on_args (fun a => set_target_dirs (set_include_dirs a true)
               (Some (Parser.directories fp
                      ++ (if patterns_override a then []
                          else elems (target_dirs a))))) l)) l.

  (** What [if new: old = new + (old or [])] leaves in [old]. *)
Definition prepend (new : list string) (old : olist) : olist :=
    if nonempty new then Some (new ++ elems old) else old.

  (** The dispatch on the pattern-exclusion flags. *)
Definition resolve (fp : Parser.patterns) (l : locals) : locals :=
    if patterns_exclude (args l) then resolve_exclude fp l
    else if patterns_excludeFiles (args l) then resolve_excludeFiles fp l
    else if patterns_excludeDirs (args l) then resolve_excludeDirs fp l
    else resolve_normal fp l.

  (** How the head of [main] ends: [parser.error], an early [return], or
      it goes on with a value. *)
Inductive outcome (A : Type) : Type :=
  | ParserError : string -> outcome A
  | Return : nat -> outcome A
  | Continue : A -> outcome A.
Arguments ParserError {A} _.
Arguments Return {A} _.
Arguments Continue {A} _.

Definition pattern_exclusion_flags (a : Args) : nat :=
    (if patterns_exclude a then 1 else 0)
    + (if patterns_excludeFiles a then 1 else 0)
    + (if patterns_excludeDirs a then 1 else 0).

  (** The keyword arguments of the call to [find_matching_items]. *)
Definition to_config (l : locals) : Matcher.config :=
    let a := args l in
    Matcher.mk_config
      (extensions a) (include_dirs a) (target_dirs a) (negb (no_recursive a))
      (contains_extension a) (exact_match a)
      (exclude_extensions a) (exclude_exact a) (exclude_contains a)
      (exclude_dirs l) (exclude_all_but a) (include_all_files l)
      (match include_all_dirs l with Some b => b | None => false end).

  (** The checks that follow the resolution, in order. *)
Definition validate (l : locals) : outcome locals :=
    let a := args l in
    if negb (include_all_files l) && negb (exclude_all_but a)
       && negb (has_inclusion_criteria l) && negb (has_exclusion_criteria l)
    then ParserError "You must specify either inclusion criteria or exclusion criteria or use a patterns file"
    else if exclude_all_but a && negb (has_inclusion_criteria l)
    then ParserError "When using --exclude-all-but, you must specify which files to keep with --extensions or --exact-match"
    else if include_dirs a && negb (truthy (target_dirs a))
    then ParserError "When --include-dirs is specified, you must provide directory names with --target_dirs"
    else if contains_extension a && negb (truthy (extensions a))
    then ParserError "The --contains-extension option requires --extensions to be specified"
    else Continue l.

  (** [main] from the parsed arguments to the arguments of
      [find_matching_items].  [pfile] is the content of the file named by
      [args.patterns_file], [None] when there is no such file.  The steps
      between the checks and the call (source directory test, destination
      prompt, backup) assign none of the variables involved. *)
Definition main_config (a : Args) (pfile : option string)
    : outcome Matcher.config :=
    if (String.eqb (operation a) "copy" || String.eqb (operation a) "move")
       && negb (truthy_str (dest_dir a))
    then ParserError "The operation requires a destination directory (--dest_dir)"
    else if 1 <? pattern_exclusion_flags a
    then ParserError "Only one of --patterns-exclude, --patterns-excludeFiles, or --patterns-excludeDirs can be used at a time"
    else
      let l := initial_locals a in
      let resolved :=
        if truthy_str (patterns_file a) then
          match Parser.parse_patterns_file pfile with
          | None => Return 1
          | Some file_patterns => Continue (resolve file_patterns l)
          end
        else Continue l in
      match resolved with
      | ParserError m => ParserError m
      | Return n => Return n
      | Continue l =>
          match validate l with
          | ParserError m => ParserError m
          | Return n => Return n
          | Continue l => Continue (to_config l)
          end
      end.

End Cli.

(** ** BulkExecutor: [process_items] *)

Module Executor.
Import Py PosixPath.

  (** What a call gives back: a value, or a raised [Exception] with its
      [str(e)]. *)
Inductive res (A : Type) : Type :=
  | Ok : A -> res A
  | Raise : string -> res A.
Arguments Ok {A} _.
Arguments Raise {A} _.

  (** A [logging.Logger], as [setup_logging] returns it.  What it writes to
      the console is not part of the file system and is left out. *)
Inductive Logger : Type := console_logger.

Section World.
    (** The state of the file system. *)
Variable FS : Type.

    (** A computation that may change the file system and may raise; the
        changes made before an exception was raised persist. *)
Definition M (A : Type) : Type := FS -> FS * res A.

Definition ret {A} (a : A) : M A := fun fs => (fs, Ok a).

Definition bind {A B} (m : M A) (k : A -> M B) : M B :=
      fun fs =>
        match m fs with
        | (fs', Ok a) => k a fs'
        | (fs', Raise e) => (fs', Raise e)
        end.

    (** A call that reads the file system and does not change it. *)
Definition reading {A} (f : FS -> res A) : M A := fun fs => (fs, f fs).

    (** A pure call that may raise. *)
Definition pure_res {A} (r : res A) : M A := fun fs => (fs, r).

Notation "x <- m ;; k" := (bind m (fun x => k))
      (at level 61, m at next level, right associativity).
Notation "m ;;; k" := (bind m (fun _ => k))
      (at level 61, right associativity).

    (** The library calls of [process_items].  [relative path start] is
        what [os.path.relpath(path, start)] returns for a path that is not
        empty; it depends on the current directory. *)
Record os_api : Type := mk_os_api {
      relative : string -> string -> FS -> string;
      path_exists : string -> FS -> bool;
      makedirs : string -> M unit;
      rmtree : string -> M unit;
      remove : string -> M unit;
      copytree : string -> string -> M unit;
      copy2 : string -> string -> M unit;
      move : string -> string -> M unit
    }.

Variable os : os_api.

    (** [os.path.relpath(path, start)]: a [ValueError] for the empty
        path. *)
Definition relpath (path start : string) (fs : FS) : res string :=
      if is_empty path then Raise "no path specified"
      else Ok (relative os path start fs).

    (** [logger.info(...)] and [logger.debug(...)]: with a logger the call
        writes to the console and returns; with [None], the default of the
        parameter, the attribute lookup raises an [AttributeError]. *)
Definition log_call (logger : option Logger) (method : string) : M unit :=
      fun fs =>
        match logger with
        | Some _ => (fs, Ok tt)
        | None =>
            (fs, Raise ("'NoneType' object has no attribute '"
                        ++ method ++ "'")%string)
        end.

    (** [os.path.join(dest_dir, rel_path)]: a [TypeError] when [dest_dir]
        is [None]. *)
Definition join_dest (dest_dir : option string) (rel_path : string)
      : res string :=
      match dest_dir with
      | Some d => Ok (join d rel_path)
      | None =>
          Raise "expected str, bytes or os.PathLike object, not NoneType"
      end.

    (** [if not os.path.exists(dest_parent_dir): os.makedirs(dest_parent_dir)] *)
Definition ensure_dir (dest_parent_dir : string) : M unit :=
      fun fs =>
        if negb (path_exists os dest_parent_dir fs)
        then makedirs os dest_parent_dir fs
        else (fs, Ok tt).

    (** The body of the [try] for one item. *)
Definition try_item (operation : string) (source_dir : string)
               (dest_dir : option string) (is_dirs dry_run : bool)
               (logger : option Logger) (item_path : string) : M unit :=
      rel_path <- reading (relpath item_path source_dir) ;;
      if dry_run then
        if String.eqb operation "delete" then log_call logger "info"
        else
          dest_item_path <- pure_res (join_dest dest_dir rel_path) ;;
          log_call logger "info"
      else if String.eqb operation "delete" then
        (if is_dirs then rmtree os item_path else remove os item_path) ;;;
        log_call logger "debug"
      else if String.eqb operation "copy" then
        dest_item_path <- pure_res (join_dest dest_dir rel_path) ;;
        let dest_parent_dir := dirname dest_item_path in
        ensure_dir dest_parent_dir ;;;
        (if is_dirs then copytree os item_path dest_item_path
         else copy2 os item_path dest_item_path) ;;;
        log_call logger "debug"
      else if String.eqb operation "move" then
        dest_item_path <- pure_res (join_dest dest_dir rel_path) ;;
        let dest_parent_dir := dirname dest_item_path in
        ensure_dir dest_parent_dir ;;;
        move os item_path dest_item_path ;;;
        log_call logger "debug"
      else ret tt.

    (** The [for item_path in items] loop from given values of
        [processed_count] and [errors].  An exception of the [try] body is
        caught and recorded; one raised in the handler itself (its
        [logger.debug]) leaves the loop and the function. *)
Fixpoint process_loop (operation : string) (source_dir : string)
             (dest_dir : option string) (is_dirs dry_run : bool)
             (logger : option Logger) (items : list string) (fs : FS)
             (processed_count : nat) (errors : list (string * string))
      : FS * res (nat * list (string * string)) :=
      match items with
      | [] => (fs, Ok (processed_count, errors))
      | item_path :: rest =>
          match try_item operation source_dir dest_dir is_dirs dry_run
                         logger item_path fs with
          | (fs', Ok _) =>
              process_loop operation source_dir dest_dir is_dirs dry_run
                           logger rest fs' (processed_count + 1) errors
          | (fs', Raise e) =>
              let errors := errors ++ [(item_path, e)] in
              match log_call logger "debug" fs' with
              | (fs'', Ok _) =>
                  process_loop operation source_dir dest_dir is_dirs dry_run
                               logger rest fs'' processed_count errors
              | (fs'', Raise e') => (fs'', Raise e')
              end
          end
      end.

    (** [process_items(operation, items, source_dir, dest_dir, is_dirs,
        dry_run, logger)] run in the file system [fs]: the file system it
        leaves, then [(processed_count, errors)], or the exception that
        left the function. *)
Definition process_items (operation : string) (items : list string)
               (source_dir : string) (dest_dir : option string)
               (is_dirs dry_run : bool) (logger : option Logger) (fs : FS)
      : FS * res (nat * list (string * string)) :=
      process_loop operation source_dir dest_dir is_dirs dry_run logger
                   items fs 0 [].

    (** The items one after the other when a logger is passed, each tried
        in the file system its predecessors left, whatever became of them:
        every item with the result of its own attempt. *)
Fixpoint attempts (operation : string) (items : list string)
             (source_dir : string) (dest_dir : option string)
             (is_dirs dry_run : bool) (lg : Logger) (fs : FS)
      : list (string * res unit) :=
      match items with
      | [] => []
      | item_path :: rest =>
          let '(fs', r) := try_item operation source_dir dest_dir is_dirs
                                    dry_run (Some lg) item_path fs in
          (item_path, r)
            :: attempts operation rest source_dir dest_dir is_dirs dry_run
                        lg fs'
      end.

Definition succeeded (a : string * res unit) : bool :=
      match snd a with Ok _ => true | Raise _ => false end.

Definition failure (a : string * res unit) : list (string * string) :=
      match snd a with Ok _ => [] | Raise e => [(fst a, e)] end.

End World.

Arguments Ok {A} _.
Arguments Raise {A} _.

  (** A small file system to run the executor in: the paths that exist,
      each with a flag telling whether it may be removed. *)
Definition toy_fs : Type := list (string * bool).

Definition toy_lookup (p : string) (fs : toy_fs) : option bool :=
    match find (fun e => String.eqb (fst e) p) fs with
    | Some e => Some (snd e)
    | None => None
    end.

Definition toy_delete (p : string) : M toy_fs unit :=
    fun fs =>
      match toy_lookup p fs with
      | None => (fs, Raise "[Errno 2] No such file or directory")
      | Some false => (fs, Raise "[Errno 13] Permission denied")
      | Some true =>
          (filter (fun e => negb (String.eqb (fst e) p)) fs, Ok tt)
      end.

Definition toy_create (src dst : string) : M toy_fs unit :=
    fun fs =>
      match toy_lookup src fs with
      | None => (fs, Raise "[Errno 2] No such file or directory")
      | Some _ => (fs ++ [(dst, true)], Ok tt)
      end.

Definition toy_os : os_api toy_fs :=
    mk_os_api toy_fs
      (fun path start fs => path)
      (fun p fs => match toy_lookup p fs with Some _ => true | None => false end)
      (fun p fs => (fs ++ [(p, true)], Ok tt))
      toy_delete
      toy_delete
      toy_create
      toy_create
      (fun src dst => bind toy_fs (toy_create src dst) (fun _ => toy_delete src)).

End Executor.

(** ** Concrete inputs *)

Module Samples.
Import Py Matcher.

  (** A source directory: three files, and a directory [sub] holding a file
      and a directory [deep] with one file. *)
Definition tree : list (string * node) :=
    [("a.tmp", File); ("b.TMP", File); ("c.txt", File);
     ("sub", Dir [("x.tmp", File);
                  ("deep", Dir [("report.msg.1", File)])])].

  (** [--extensions tmp --exclude-all-but] *)
Definition keep_tmp : config :=
    mk_config (Some ["tmp"]) false None true false None
              None None None None true false false.

  (** All directories but [sub], all files but [.txt] ones. *)
Definition all_but_sub : config :=
    mk_config None false None true false None
              (Some [".txt"]) None None (Some ["sub"]) false true true.

  (** [--include-dirs --target_dirs deep --exclude-extensions tmp] *)
Definition only_dirs : config :=
    mk_config None true (Some ["deep"]) true false None
              (Some ["tmp"]) None None None false false false.

  (** An exclusion by the empty contains pattern. *)
Definition exclude_empty : config :=
    mk_config (Some ["tmp"]) false None true false None
              None None (Some [""]) None false false false.

  (** [delete --patterns-file p --patterns-exclude], alone or with
      [--exclude-all-but] added. *)
Definition args_exclude (all_but : bool) : Cli.Args :=
    Cli.mk_Args "delete" None None false None false None (Some "p")
                true false false false None None None all_but false.

  (** [delete --extensions tmp --patterns-file p] *)
Definition args_normal : Cli.Args :=
    Cli.mk_Args "delete" None (Some ["tmp"]) false None false None (Some "p")
                false false false false None None None false false.

  (** What [args_exclude false] and a pattern file [.bak] resolve to. *)
Definition excluded : config :=
    mk_config None false None true false None
              (Some [".bak"]) None None None false true true.

  (** What [args_exclude true] and a pattern file [.bak] resolve to. *)
Definition excluded_all_but : config :=
    mk_config None false None true false None
              (Some [".bak"]) None None None true true true.

  (** What [args_normal] and a pattern file [.bak] resolve to. *)
Definition normal_tmp : config :=
    mk_config (Some ["tmp"]) false None true false None
              None None None None false false false.

  (** [--extensions msg --contains-extension] *)
Definition msg_anywhere : config :=
  mk_config (Some ["msg"]) false None true true None
            None None None None false false false.

End Samples.

(** ** The whole program: [create_backup] and [main] *)

Module Program.
Import Py PosixPath.

  (** The options of the command line that [Cli.Args] leaves out. *)
Record Run : Type := mk_Run {
  args : Cli.Args;
  source_dir : string;
  dry_run : bool;
  backup : bool;
  no_confirm : bool
}.

  (** How [main] ends: [parser.error] (exit status 2), [return code], or an
      exception nobody catches ([input] at the end of the input). *)
Inductive exit : Type :=
| ParserExit : string -> exit
| Returned : nat -> exit
| Uncaught : string -> exit.

Section World.
Variable FS : Type.
Variable os : Executor.os_api FS.

  (** What the program reads of the file system besides [os.path.exists]:
      [os.path.isdir], the entries of a directory as [os.walk] and
      [os.listdir] give them, and the text of a file ([None] when the file
      is missing or cannot be read). *)
Record fs_view : Type := mk_fs_view {
  isdir : string -> FS -> bool;
  listing : string -> FS -> list (string * Matcher.node);
  read_text : string -> FS -> option string
}.

Variable view : fs_view.

  (** [create_backup(source_dir, dest_dir, logger)], [now] being
      [datetime.now().strftime("%Y%m%d_%H%M%S")]: the file system it leaves
      and the boolean it returns. *)
Definition create_backup (source_dir now : string) (fs : FS) : FS * bool :=
  let backup_dir := (source_dir ++ "_backup_" ++ now)%string in
  match Executor.copytree FS os source_dir backup_dir fs with
  | (fs', Executor.Ok _) => (fs', true)
  | (fs', Executor.Raise _) => (fs', false)
  end.

  (** [input(prompt).lower() == 'y'] on the lines still to be typed:
      [None] when there is none left ([EOFError]). *)
Definition ask (answers : list string) : option (bool * list string) :=
  match answers with
  | [] => None
  | answer :: rest => Some (String.eqb (lower answer) "y", rest)
  end.

  (** The block that creates a missing destination directory: it stops
      [main] with an exit, or goes on with the answers left. *)
Definition prepare_dest (r : Run) (answers : list string) (fs : FS)
  : FS * (exit + list string) :=
  match Cli.dest_dir (args r) with
  | Some dest =>
      if negb (is_empty dest) && negb (Executor.path_exists FS os dest fs)
         && negb (dry_run r)
      then match ask answers with
           | None => (fs, inl (Uncaught "EOFError"))
           | Some (true, rest) =>
               match Executor.makedirs FS os dest fs with
               | (fs', Executor.Ok _) => (fs', inr rest)
               | (fs', Executor.Raise _) => (fs', inl (Returned 1))
               end
           | Some (false, rest) => (fs, inl (Returned 1))
           end
      else (fs, inr answers)
  | None => (fs, inr answers)
  end.

  (** The block that makes the backup. *)
Definition prepare_backup (r : Run) (answers : list string) (now : string)
           (fs : FS) : FS * (exit + list string) :=
  if backup r && negb (dry_run r) then
    match create_backup (source_dir r) now fs with
    | (fs', true) => (fs', inr answers)
    | (fs', false) =>
        match ask answers with
        | None => (fs', inl (Uncaught "EOFError"))
        | Some (true, rest) => (fs', inr rest)
        | Some (false, rest) => (fs', inl (Returned 1))
        end
    end
  else (fs, inr answers).

  (** The logger that [main] gets from [setup_logging] and passes on. *)
Definition logger : option Executor.Logger := Some Executor.console_logger.

  (** The end of [main], from the matched items on: the file system it
      leaves, the exit, and [(total_processed, all_errors)] when the
      operation was carried out. *)
Definition finish (r : Run) (answers : list string)
           (matched_files matched_dirs : list string) (fs : FS)
  : FS * exit * option (nat * list (string * string)) :=
  let total_matched := length matched_files + length matched_dirs in
  if total_matched =? 0 then (fs, Returned 0, None)
  else
    let confirmed :=
      if dry_run r then Some true
      else if negb (no_confirm r)
           then option_map fst (ask answers)
           else Some true in
    match confirmed with
    | None => (fs, Uncaught "EOFError", None)
    | Some false => (fs, Returned 0, None)
    | Some true =>
        let a := args r in
        match Executor.process_items FS os (Cli.operation a) matched_files
                (source_dir r) (Cli.dest_dir a) false (dry_run r) logger fs
        with
        | (fs1, Executor.Raise e) => (fs1, Uncaught e, None)
        | (fs1, Executor.Ok (files_processed, file_errors)) =>
            match Executor.process_items FS os (Cli.operation a) matched_dirs
                    (source_dir r) (Cli.dest_dir a) true (dry_run r) logger
                    fs1
            with
            | (fs2, Executor.Raise e) => (fs2, Uncaught e, None)
            | (fs2, Executor.Ok (dirs_processed, dir_errors)) =>
                let total_processed := files_processed + dirs_processed in
                let all_errors := file_errors ++ dir_errors in
                (fs2,
                 Returned (if length all_errors =? 0 then 0 else 1),
                 Some (total_processed, all_errors))
            end
        end
    end.

  (** [main()] for the parsed command line [r], the lines [answers] typed at
      the prompts and the time stamp [now], in the file system [fs]. *)
Definition main (r : Run) (answers : list string) (now : string) (fs : FS)
  : FS * exit * option (nat * list (string * string)) :=
  let a := args r in
  let pfile :=
    match Cli.patterns_file a with
    | Some path => read_text view path fs
    | None => None
    end in
  match Cli.main_config a pfile with
  | Cli.ParserError m => (fs, ParserExit m, None)
  | Cli.Return n => (fs, Returned n, None)
  | Cli.Continue c =>
      if negb (isdir view (source_dir r) fs) then (fs, Returned 1, None)
      else
        match prepare_dest r answers fs with
        | (fs1, inl e) => (fs1, e, None)
        | (fs1, inr answers1) =>
            match prepare_backup r answers1 now fs1 with
            | (fs2, inl e) => (fs2, e, None)
            | (fs2, inr answers2) =>
                let '(matched_files, matched_dirs) :=
                  Matcher.find_matching_items
                    (source_dir r) (listing view (source_dir r) fs2) c in
                finish r answers2 matched_files matched_dirs fs2
            end
        end
  end.

End World.

  (** The view of the small file system of [Executor]: every path is a
      directory with the entries of [Samples.tree], and the only file with
      text is [p]. *)
Definition toy_view : fs_view Executor.toy_fs :=
  mk_fs_view Executor.toy_fs
    (fun _ _ => true)
    (fun _ _ => Samples.tree)
    (fun path _ => if String.eqb path "p" then Some ".bak" else None).

  (** [delete --extensions tmp], with or without [--dry-run]. *)
Definition delete_tmp (dry : bool) : Run :=
  mk_Run (Cli.mk_Args "delete" None (Some ["tmp"]) false None false None None
                      false false false false None None None false false)
         "." dry false false.

End Program.

(** ** Configurations that differ in one argument *)

Module Variants.
Import Py PosixPath Matcher.

  (** The same call with another [exclude_all_but]. *)
Definition set_exclude_all_but (c : config) (v : bool) : config :=
  mk_config (extensions c) (include_dirs c) (target_dirs c) (recursive c)
            (contains_extension c) (exact_match c) (exclude_extensions c)
            (exclude_exact c) (exclude_contains c) (exclude_dirs c)
            v (include_all_files c) (include_all_dirs c).

  (** The same call with another [recursive]. *)
Definition set_recursive (c : config) (v : bool) : config :=
  mk_config (extensions c) (include_dirs c) (target_dirs c) v
            (contains_extension c) (exact_match c) (exclude_extensions c)
            (exclude_exact c) (exclude_contains c) (exclude_dirs c)
            (exclude_all_but c) (include_all_files c) (include_all_dirs c).

  (** The same call with other [extensions] and [exclude_extensions]. *)
Definition with_extensions (c : config) (exts excl_exts : olist) : config :=
  mk_config exts (include_dirs c) (target_dirs c) (recursive c)
            (contains_extension c) (exact_match c) excl_exts
            (exclude_exact c) (exclude_contains c) (exclude_dirs c)
            (exclude_all_but c) (include_all_files c) (include_all_dirs c).

  (** A tree all of whose entry names are plain, at every depth. *)
Inductive well_named : node -> Prop :=
| well_named_file : well_named File
| well_named_dir es :
    plain_names es ->
    (forall d sub, In (d, sub) es -> well_named sub) ->
    well_named (Dir es).

  (** The same, as a test. *)
Fixpoint well_namedb (n : node) : bool :=
  match n with
  | File => true
  | Dir es =>
      forallb (fun e => negb (has_char sep (fst e)) && well_namedb (snd e)) es
  end.

End Variants.

(** * Properties *)

Import Py PosixPath.

(** ** Strings and optional lists *)

Lemma prefix_spec (p s : string) :
  String.prefix p s = true <-> exists v, s = (p ++ v)%string.
Proof.
  revert s. induction p as [|a p IH]; intros s; simpl.
  - split; [intros _; now exists s | intros _; destruct s; reflexivity].
  - destruct s as [|b s]; simpl.
    + split; [discriminate | intros [v Hv]; discriminate].
    + destruct (Ascii.ascii_dec a b) as [->|Hab].
      * split.
        -- intros H. apply IH in H. destruct H as [v Hv]. exists v. congruence.
        -- intros [v Hv]. apply IH. exists v. congruence.
      * split; [discriminate | intros [v Hv]; congruence].
Qed.

Lemma str_in_nil (p : string) :
  str_in p EmptyString = String.prefix p EmptyString || false.
Proof. reflexivity. Qed.

Lemma str_in_cons (p : string) (a : ascii) (s : string) :
  str_in p (String a s) = String.prefix p (String a s) || str_in p s.
Proof. reflexivity. Qed.

Lemma str_in_spec (p s : string) : str_in p s = true <-> occurs_in p s.
Proof.
  unfold occurs_in. induction s as [|a s IH].
  - rewrite str_in_nil, orb_false_r, prefix_spec. split.
    + intros [v Hv]. now exists EmptyString, v.
    + intros [u [v Huv]]. destruct u; simpl in Huv.
      * now exists v.
      * discriminate.
  - rewrite str_in_cons, orb_true_iff, IH, prefix_spec. split.
    + intros [[v Hv] | [u [v Hv]]].
      * now exists EmptyString, v.
      * exists (String a u), v. simpl. now rewrite Hv.
    + intros [u [v Huv]]. destruct u as [|b u]; simpl in Huv.
      * left. now exists v.
      * right. exists u, v. congruence.
Qed.

Lemma str_in_empty (s : string) : str_in EmptyString s = true.
Proof. destruct s; reflexivity. Qed.

Lemma mem_In (x : string) (l : list string) : mem x l = true <-> In x l.
Proof.
  unfold mem. rewrite existsb_exists. split.
  - intros [y [Hy Heq]]. apply String.eqb_eq in Heq. now subst.
  - intros H. exists x. split; [assumption | apply String.eqb_refl].
Qed.

Lemma truthy_false_elems (o : olist) : truthy o = false -> elems o = [].
Proof. destruct o as [[|]|]; simpl; congruence. Qed.

Lemma truthy_elems (o : olist) : truthy o = true <-> elems o <> [].
Proof. destruct o as [[|]|]; simpl; split; congruence. Qed.

Lemma omem_In (x : string) (o : olist) : omem x o = true <-> In x (elems o).
Proof.
  unfold omem. rewrite andb_true_iff, mem_In. split.
  - tauto.
  - intros H. split; [|assumption].
    apply truthy_elems. intros E. rewrite E in H. destruct H.
Qed.

Lemma omem_false (x : string) (o : olist) :
  omem x o = false <-> ~ In x (elems o).
Proof.
  rewrite <- omem_In. destruct (omem x o); split; congruence.
Qed.

Lemma truthy_normalize (o : olist) :
  truthy (Matcher.normalize o) = truthy o.
Proof. destruct o as [[|]|]; reflexivity. Qed.

Lemma elems_normalize (o : olist) :
  elems (Matcher.normalize o) = map Matcher.normalize_ext (elems o).
Proof. destruct o as [[|]|]; reflexivity. Qed.

Lemma lower_char_idem (c : ascii) : lower_char (lower_char c) = lower_char c.
Proof.
  destruct c as [[] [] [] [] [] [] [] []]; reflexivity.
Qed.

Lemma lower_idem (s : string) : lower (lower s) = lower s.
Proof.
  induction s as [|c s IH]; simpl; [reflexivity|].
  now rewrite lower_char_idem, IH.
Qed.

Lemma startswith_char (s : string) (c : ascii) :
  startswith s (String c EmptyString) = true <-> exists t, s = String c t.
Proof. unfold startswith. rewrite prefix_spec. reflexivity. Qed.

(** The invariant of the data model: a normalized extension is lower-case
    and starts with a dot. *)
Lemma normalize_ext_shape (ext : string) :
  startswith (Matcher.normalize_ext ext) "." = true
  /\ lower (Matcher.normalize_ext ext) = Matcher.normalize_ext ext.
Proof.
  unfold Matcher.normalize_ext.
  destruct (startswith ext ".") eqn:E.
  - split; [|apply lower_idem].
    apply startswith_char in E. destruct E as [t ->].
    apply startswith_char. now exists (lower t).
  - split.
    + apply startswith_char. now exists (lower ext).
    + simpl. now rewrite lower_idem.
Qed.

(** [os.path.splitext] on the names the properties below use: the
    extension starts at the last dot, and leading dots start none. *)
Lemma splitext_examples :
  splitext "b.TMP" = ("b", ".TMP")
  /\ splitext "report.msg.1" = ("report.msg", ".1")
  /\ splitext "archive.tar.gz" = ("archive.tar", ".gz")
  /\ splitext "notes" = ("notes", EmptyString)
  /\ splitext ".bashrc" = (".bashrc", EmptyString)
  /\ splitext "dir.d/file" = ("dir.d/file", EmptyString).
Proof. repeat split. Qed.

(** ** The inclusion test *)

(** C1. For every file name [f], the closure [file_matches_criteria] of
    [find_matching_items] returns true exactly when [include_all_files] is
    set, or [f] is in [exact_match], or the lower-cased extension of [f]
    ([os.path.splitext]) is in the normalized [extensions], or
    [contains_extension] is set and some normalized extension occurs in the
    lower-cased [f].  The comparison ignores case: with extensions [tmp],
    [a.tmp] and [b.TMP] match and [c.txt] does not; with extensions [msg],
    [report.msg.1] matches when [contains_extension] is set and only then. *)
Theorem C1_file_matches_criteria_iff :
  (forall (c : Matcher.config) (f : string),
      Matcher.file_matches_criteria c (Matcher.normalize (Matcher.extensions c)) f = true
      <->
      (Matcher.include_all_files c = true
       \/ In f (elems (Matcher.exact_match c))
       \/ In (lower (snd (splitext f)))
             (elems (Matcher.normalize (Matcher.extensions c)))
       \/ (Matcher.contains_extension c = true
           /\ exists e, In e (elems (Matcher.normalize (Matcher.extensions c)))
                        /\ occurs_in e (lower f))))
  /\ (forall ce,
         let c := Matcher.mk_config (Some ["tmp"]) false None true ce None
                                    None None None None false false false in
         let m := Matcher.file_matches_criteria
                    c (Matcher.normalize (Matcher.extensions c)) in
         m "a.tmp" = true /\ m "b.TMP" = true /\ m "c.txt" = false)
  /\ (forall ce,
         let c := Matcher.mk_config (Some [".msg"]) false None true ce None
                                    None None None None false false false in
         Matcher.file_matches_criteria
           c (Matcher.normalize (Matcher.extensions c)) "report.msg.1" = ce).
Proof.
  split; [|split].
  - intros c f. unfold Matcher.file_matches_criteria.
    set (exts := Matcher.normalize (Matcher.extensions c)).
    destruct (Matcher.include_all_files c); [tauto|].
    destruct (omem f (Matcher.exact_match c)) eqn:Hex.
    { apply omem_In in Hex. tauto. }
    apply omem_false in Hex.
    destruct (truthy exts) eqn:Ht.
    + destruct (mem (lower (snd (splitext f))) (elems exts)) eqn:Hm.
      { apply mem_In in Hm. tauto. }
      assert (Hn : ~ In (lower (snd (splitext f))) (elems exts)).
      { intros H. apply mem_In in H. congruence. }
      destruct (Matcher.contains_extension c).
      * rewrite existsb_exists. split.
        -- intros [e [He Hs]]. apply str_in_spec in Hs. right; right; right.
           split; [reflexivity|]. now exists e.
        -- intros [H|[H|[H|[_ [e [He Hs]]]]]]; try discriminate; try tauto.
           exists e. split; [assumption|]. now apply str_in_spec.
      * split; [discriminate|].
        intros [H|[H|[H|[H _]]]]; try discriminate; tauto.
    + apply truthy_false_elems in Ht. rewrite Ht. simpl. split; [discriminate|].
      intros [H|[H|[H|[_ [e [[] _]]]]]]; try discriminate; tauto.
  - intros [|]; repeat split; reflexivity.
  - intros [|]; reflexivity.
Qed.

(** ** The pattern file *)

Lemma split1_head_spec (sep : ascii) (s : string) :
  has_char sep (split1_head sep s) = false
  /\ exists rest, s = (split1_head sep s ++ rest)%string
                  /\ (rest = EmptyString \/ first_char rest = Some sep).
Proof.
  induction s as [|c s [IH1 [rest [IH2 IH3]]]]; simpl.
  - split; [reflexivity|]. exists EmptyString. auto.
  - destruct (Ascii.eqb c sep) eqn:E; simpl.
    + split; [reflexivity|]. exists (String c s). split; [reflexivity|].
      right. apply Ascii.eqb_eq in E. now subst.
    + rewrite E, IH1. split; [reflexivity|]. exists rest.
      split; [now rewrite <- IH2 | assumption].
Qed.

Lemma lstrip_spec (s : string) :
  is_space_opt (first_char (lstrip s)) = false
  /\ exists pre, all_space pre = true /\ s = (pre ++ lstrip s)%string.
Proof.
  induction s as [|c s [IH1 [pre [IH2 IH3]]]]; simpl.
  - split; [reflexivity|]. now exists EmptyString.
  - destruct (is_space c) eqn:E.
    + split; [assumption|]. exists (String c pre). simpl.
      rewrite E, IH2. split; [reflexivity | now rewrite <- IH3].
    + simpl. split; [assumption|]. now exists EmptyString.
Qed.

Lemma rstrip_spec (s : string) :
  is_space_opt (last_char (rstrip s)) = false
  /\ first_char (rstrip s)
     = (if is_space_opt (first_char s) then first_char (rstrip s)
        else first_char s)
  /\ exists post, all_space post = true /\ s = (rstrip s ++ post)%string.
Proof.
  induction s as [|c s [IH1 [IH2 [post [IH3 IH4]]]]]; simpl.
  - repeat split. now exists EmptyString.
  - destruct (is_space c) eqn:E; simpl.
    + destruct (rstrip s) as [|d r] eqn:R; simpl.
      * repeat split. exists (String c post). simpl.
        rewrite E, IH3. split; [reflexivity|]. simpl in IH4. now rewrite IH4.
      * split; [exact IH1|]. split; [reflexivity|].
        exists post. split; [assumption|]. simpl. now rewrite IH4.
    + destruct (rstrip s) as [|d r] eqn:R; simpl.
      * rewrite E. repeat split. exists post. split; [assumption|].
        simpl in IH4. now rewrite IH4.
      * split; [exact IH1|]. split; [reflexivity|].
        exists post. split; [assumption|]. simpl. now rewrite IH4.
Qed.

(** [strip] removes white space at both ends and nothing else. *)
Lemma strip_spec (s : string) :
  is_space_opt (first_char (strip s)) = false
  /\ is_space_opt (last_char (strip s)) = false
  /\ exists pre post, all_space pre = true /\ all_space post = true
                      /\ s = (pre ++ strip s ++ post)%string.
Proof.
  unfold strip.
  destruct (lstrip_spec s) as [L1 [pre [L2 L3]]].
  destruct (rstrip_spec (lstrip s)) as [R1 [R2 [post [R3 R4]]]].
  split; [|split].
  - rewrite R2. destruct (is_space_opt (first_char (lstrip s))) eqn:E.
    + congruence.
    + assumption.
  - assumption.
  - exists pre, post. repeat split; try assumption.
    now rewrite <- R4.
Qed.

(** One line changes the four lists as its category says. *)
Lemma parse_line_spec (pats : Parser.patterns) (line : string) :
  let l := Parser.clean line in
  let keep (test : string -> bool) (store : string -> string) :=
    if negb (is_empty l) && test l then [store l] else [] in
  Parser.parse_line pats line =
  Parser.mk_patterns
    (Parser.extensions pats ++ keep Parser.is_extension_line lower)
    (Parser.directories pats ++ keep Parser.is_directory_line drop_last)
    (Parser.exact pats ++ keep Parser.is_exact_line (fun x => x))
    (Parser.contains pats ++ keep Parser.is_contains_line drop_first).
Proof.
  cbv zeta. unfold Parser.parse_line, Parser.is_extension_line,
    Parser.is_directory_line, Parser.is_exact_line, Parser.is_contains_line.
  destruct pats as [e d x k]; simpl.
  destruct (is_empty (Parser.clean line)); simpl.
  { now rewrite !app_nil_r. }
  destruct (startswith (Parser.clean line) "."); simpl.
  { now rewrite !app_nil_r. }
  destruct (endswith_char (Parser.clean line) "/"); simpl.
  { now rewrite !app_nil_r. }
  destruct (startswith (Parser.clean line) "*"); simpl;
    now rewrite !app_nil_r.
Qed.

Lemma parse_lines_from (lines : list string) (pats : Parser.patterns) :
  let ls := Parser.pattern_lines lines in
  fold_left Parser.parse_line lines pats =
  Parser.mk_patterns
    (Parser.extensions pats ++ map lower (filter Parser.is_extension_line ls))
    (Parser.directories pats
       ++ map drop_last (filter Parser.is_directory_line ls))
    (Parser.exact pats ++ filter Parser.is_exact_line ls)
    (Parser.contains pats
       ++ map drop_first (filter Parser.is_contains_line ls)).
Proof.
  cbv zeta. revert pats.
  induction lines as [|line lines IH]; intros pats.
  - destruct pats; simpl. now rewrite !app_nil_r.
  - simpl fold_left. rewrite IH, parse_line_spec. cbv zeta. simpl.
    unfold Parser.pattern_lines. simpl.
    destruct (is_empty (Parser.clean line)); simpl.
    + now rewrite !app_nil_r.
    + destruct (Parser.is_extension_line (Parser.clean line)),
               (Parser.is_directory_line (Parser.clean line)),
               (Parser.is_exact_line (Parser.clean line)),
               (Parser.is_contains_line (Parser.clean line));
        simpl; rewrite <- ?app_assoc; reflexivity.
Qed.

(** The four categories are a partition. *)
Lemma one_category (l : string) :
  (if Parser.is_extension_line l then 1 else 0)
  + (if Parser.is_directory_line l then 1 else 0)
  + (if Parser.is_contains_line l then 1 else 0)
  + (if Parser.is_exact_line l then 1 else 0) = 1.
Proof.
  unfold Parser.is_extension_line, Parser.is_directory_line,
    Parser.is_contains_line, Parser.is_exact_line.
  destruct (startswith l "."), (endswith_char l "/"), (startswith l "*");
    reflexivity.
Qed.

(** C7. [parse_patterns_file] cuts each line at its first [#], trims white
    space, drops the lines that are then empty and files every other line
    under exactly one key: a leading dot gives an extension, stored
    lower-cased; otherwise a trailing slash gives a directory, stored
    without the slash; otherwise a leading asterisk gives a contains
    pattern, stored without the asterisk; anything else is an exact name,
    stored as it is.  The file with the lines [.bak], [logs/], [*draft],
    [notes.txt] gives extensions [.bak], directories [logs], contains
    [draft] and exact [notes.txt]. *)
Theorem C7_parse_patterns_file_classifies :
  (forall line,
      has_char "#" (Parser.clean line) = false
      /\ is_space_opt (first_char (Parser.clean line)) = false
      /\ is_space_opt (last_char (Parser.clean line)) = false
      /\ exists pre post rest,
           all_space pre = true /\ all_space post = true
           /\ has_char "#" (pre ++ Parser.clean line ++ post)%string = false
           /\ (rest = EmptyString \/ first_char rest = Some "#"%char)
           /\ line = ((pre ++ Parser.clean line ++ post) ++ rest)%string)
  /\ (forall content,
         let ls := Parser.pattern_lines (Parser.readlines content) in
         Parser.parse_patterns_file (Some content) =
         Some (Parser.mk_patterns
                 (map lower (filter Parser.is_extension_line ls))
                 (map drop_last (filter Parser.is_directory_line ls))
                 (filter Parser.is_exact_line ls)
                 (map drop_first (filter Parser.is_contains_line ls))))
  /\ (forall l,
         Parser.is_extension_line l = startswith l "."
         /\ Parser.is_directory_line l
            = negb (startswith l ".") && endswith_char l "/"
         /\ Parser.is_contains_line l
            = negb (startswith l ".") && negb (endswith_char l "/")
              && startswith l "*"
         /\ (if Parser.is_extension_line l then 1 else 0)
            + (if Parser.is_directory_line l then 1 else 0)
            + (if Parser.is_contains_line l then 1 else 0)
            + (if Parser.is_exact_line l then 1 else 0) = 1)
  /\ Parser.parse_patterns_file (Some Parser.sample_file)
     = Some (Parser.mk_patterns [".bak"] ["logs"] ["notes.txt"] ["draft"]).
Proof.
  split; [|split; [|split]].
  - intros line. unfold Parser.clean.
    destruct (split1_head_spec "#" line) as [H1 [rest [H2 H3]]].
    destruct (strip_spec (split1_head "#" line))
      as [S1 [S2 [pre [post [P1 [P2 P3]]]]]].
    assert (Hno : has_char "#" (pre ++ strip (split1_head "#" line) ++ post)%string
                  = false) by (now rewrite <- P3).
    split; [|split; [|split]]; try assumption.
    + clear - Hno. induction pre as [|c pre IH]; simpl in Hno.
      * revert Hno. generalize (strip (split1_head "#" line)).
        intros s. induction s as [|d s IHs]; simpl; [reflexivity|].
        intros H. apply orb_false_iff in H. destruct H as [Hd Hs].
        rewrite Hd. simpl. now apply IHs.
      * apply orb_false_iff in Hno. now apply IH.
    + exists pre, post, rest. repeat split; try assumption.
      now rewrite <- P3.
  - intros content. cbv zeta. unfold Parser.parse_patterns_file, Parser.parse_lines.
    now rewrite parse_lines_from.
  - intros l. repeat split. apply one_category.
  - reflexivity.
Qed.

(** ** The walk *)

Lemma node_nested_ind (P : Matcher.node -> Prop) :
  P Matcher.File ->
  (forall es, Forall (fun e => P (snd e)) es -> P (Matcher.Dir es)) ->
  forall n, P n.
Proof.
  intros HF HD. fix IH 1. intros [|es].
  - exact HF.
  - apply HD. induction es as [|[name n] es IHes].
    + constructor.
    + constructor; [apply IH | exact IHes].
Qed.

Lemma in_filenames (f : string) (es : list (string * Matcher.node)) :
  In f (Matcher.filenames es) <-> In (f, Matcher.File) es.
Proof.
  unfold Matcher.filenames. rewrite in_map_iff. split.
  - intros [[g n] [Hg Hin]]. apply filter_In in Hin. destruct Hin as [Hin Hf].
    simpl in Hg. subst g. destruct n; [assumption | discriminate].
  - intros H. exists (f, Matcher.File). split; [reflexivity|].
    apply filter_In. now split.
Qed.

Lemma in_dirnames (d : string) (es : list (string * Matcher.node)) :
  In d (Matcher.dirnames es) <-> exists sub, In (d, Matcher.Dir sub) es.
Proof.
  unfold Matcher.dirnames. rewrite in_map_iff. split.
  - intros [[g n] [Hg Hin]]. apply filter_In in Hin. destruct Hin as [Hin Hf].
    simpl in Hg. subst g. destruct n as [|sub]; [discriminate|]. now exists sub.
  - intros [sub H]. exists (d, Matcher.Dir sub). split; [reflexivity|].
    apply filter_In. now split.
Qed.

(** The triples of the walk are the directories of the tree. *)
Lemma in_walk (n : Matcher.node) :
  forall top root dirs files,
    In (root, dirs, files) (Matcher.walk top n) <->
    exists es, Matcher.reaches top n root es
               /\ dirs = Matcher.dirnames es /\ files = Matcher.filenames es.
Proof.
  induction n as [|es IH] using node_nested_ind; intros top root dirs files.
  - simpl. split; [tauto|]. intros [es [H _]]. inversion H.
  - simpl. split.
    + intros [H|H].
      * inversion H; subst. exists es. repeat split. constructor.
      * apply in_flat_map in H. destruct H as [[d sub] [Hin Hw]].
        rewrite Forall_forall in IH. apply (IH _ Hin) in Hw.
        destruct Hw as [es' [Hr [Hd Hf]]]. exists es'. repeat split; try assumption.
        eapply Matcher.reaches_sub; eassumption.
    + intros [es' [Hr [Hd Hf]]]. inversion Hr; subst.
      * now left.
      * right. apply in_flat_map. exists (d, sub). split; [assumption|].
        rewrite Forall_forall in IH.
        match goal with
        | Hin : In (d, sub) es |- _ => apply (IH _ Hin)
        end.
        now exists es'.
Qed.

Section Loops.
Variable c : Matcher.config.
Variables exts excl_exts : olist.

Let selected := Matcher.file_selected c exts excl_exts.
Let kept (d : string) : bool :=
    negb (omem d (Matcher.exclude_dirs c)) && Matcher.dir_included c d.

Lemma process_files_spec root files acc :
    Matcher.process_files c exts excl_exts root files acc
    = acc ++ map (join root) (filter selected files).
  Proof.
    unfold Matcher.process_files. revert acc.
    induction files as [|f files IH]; intros acc; simpl.
    - now rewrite app_nil_r.
    - rewrite IH. unfold selected.
      destruct (Matcher.file_selected c exts excl_exts f); simpl.
      + now rewrite <- app_assoc.
      + reflexivity.
  Qed.

Lemma process_dirs_spec root dirs acc :
    Matcher.process_dirs c root dirs acc
    = acc ++ map (join root) (filter kept dirs).
  Proof.
    unfold Matcher.process_dirs. revert acc.
    induction dirs as [|d dirs IH]; intros acc; simpl.
    - now rewrite app_nil_r.
    - rewrite IH. unfold kept.
      destruct (omem d (Matcher.exclude_dirs c)); simpl; [reflexivity|].
      destruct (Matcher.dir_included c d); simpl.
      + now rewrite <- app_assoc.
      + reflexivity.
  Qed.

Lemma walk_loop_from triples accf accd :
    fold_left
      (fun '(matched_files, matched_dirs) '(root, dirs, files) =>
         (Matcher.process_files c exts excl_exts root files matched_files,
          Matcher.process_dirs c root dirs matched_dirs))
      triples (accf, accd)
    = (accf ++ flat_map (fun '(root, _, files) =>
                           map (join root) (filter selected files)) triples,
       accd ++ flat_map (fun '(root, dirs, _) =>
                           map (join root) (filter kept dirs)) triples).
  Proof.
    revert accf accd.
    induction triples as [|[[root dirs] files] triples IH]; intros accf accd.
    - simpl. now rewrite !app_nil_r.
    - simpl fold_left. rewrite IH, process_files_spec, process_dirs_spec.
      simpl. now rewrite <- !app_assoc.
  Qed.

Lemma listdir_loop_from source_dir entries accf accd :
    fold_left
      (fun '(matched_files, matched_dirs) e =>
         let item := fst e in
         let item_path := join source_dir item in
         match snd e with
         | Matcher.File =>
             if Matcher.file_selected c exts excl_exts item
             then (matched_files ++ [item_path], matched_dirs)
             else (matched_files, matched_dirs)
         | Matcher.Dir _ =>
             let dir_name := basename item_path in
             if omem dir_name (Matcher.exclude_dirs c)
             then (matched_files, matched_dirs)
             else if Matcher.dir_included c dir_name
                  then (matched_files, matched_dirs ++ [item_path])
                  else (matched_files, matched_dirs)
         end)
      entries (accf, accd)
    = (accf ++ map (join source_dir)
                   (filter selected (Matcher.filenames entries)),
       accd ++ map (join source_dir)
                   (filter (fun d => kept (basename (join source_dir d)))
                           (Matcher.dirnames entries))).
  Proof.
    revert accf accd.
    induction entries as [|[name n] entries IH]; intros accf accd.
    - simpl. now rewrite !app_nil_r.
    - cbn [fold_left fst snd]. unfold Matcher.filenames, Matcher.dirnames in *.
      destruct n as [|sub]; cbn [filter Matcher.is_file Matcher.is_dir snd fst map].
      + fold selected. destruct (selected name) eqn:E; rewrite IH.
        * cbn [map]. now rewrite <- app_assoc.
        * reflexivity.
      + unfold kept in *.
        destruct (omem (basename (join source_dir name)) (Matcher.exclude_dirs c));
          cbn [negb andb]; [apply IH|].
        destruct (Matcher.dir_included c (basename (join source_dir name)));
          rewrite IH.
        * cbn [map]. now rewrite <- app_assoc.
        * reflexivity.
  Qed.
End Loops.

(** ** [os.path.basename] undoes [os.path.join] on an entry name *)

Lemma has_char_rfind (c : ascii) (s : string) :
  has_char c s = false -> rfind c s = (-1)%Z.
Proof.
  induction s as [|d s IH]; simpl; [reflexivity|].
  intros H. apply orb_false_iff in H. destruct H as [Hd Hs].
  rewrite (IH Hs). simpl. now rewrite Hd.
Qed.

Lemma rfind_app_last (c : ascii) (a b : string) :
  has_char c b = false ->
  rfind c (a ++ String c b)%string = Z.of_nat (String.length a).
Proof.
  intros Hb. induction a as [|d a IH].
  - simpl. rewrite (has_char_rfind _ _ Hb). simpl.
    now rewrite Ascii.eqb_refl.
  - cbn [append rfind String.length]. rewrite IH.
    destruct (0 <=? Z.of_nat (String.length a))%Z eqn:E; [lia|].
    apply Z.leb_gt in E. lia.
Qed.

Lemma substring_all (s : string) : String.substring 0 (String.length s) s = s.
Proof. induction s as [|c s IH]; simpl; [reflexivity | now rewrite IH]. Qed.

Lemma substring_skip (u v : string) (n : nat) :
  String.substring (String.length u) n (u ++ v)%string = String.substring 0 n v.
Proof. induction u as [|c u IH]; simpl; [reflexivity | apply IH]. Qed.

Lemma length_append (u v : string) :
  String.length (u ++ v)%string = String.length u + String.length v.
Proof. induction u as [|c u IH]; simpl; [reflexivity | now rewrite IH]. Qed.

Lemma drop_app (u v : string) :
  drop (Z.of_nat (String.length u)) (u ++ v)%string = v.
Proof.
  unfold drop. rewrite Nat2Z.id, substring_skip, length_append.
  replace (String.length u + String.length v - String.length u)
    with (String.length v) by lia.
  apply substring_all.
Qed.

Lemma endswith_char_split (a : string) (c : ascii) :
  endswith_char a c = true -> exists a', a = (a' ++ String c EmptyString)%string.
Proof.
  induction a as [|d a IH]; [discriminate|].
  destruct a as [|e a].
  - simpl. intros H. apply Ascii.eqb_eq in H. subst. now exists EmptyString.
  - intros H. destruct (IH H) as [a' Ha']. exists (String d a').
    simpl. now rewrite <- Ha'.
Qed.

Lemma append_assoc (u v w : string) :
  ((u ++ v) ++ w)%string = (u ++ (v ++ w))%string.
Proof. induction u as [|c u IH]; simpl; [reflexivity | now rewrite IH]. Qed.

Lemma basename_join (a b : string) :
  has_char sep b = false -> basename (join a b) = b.
Proof.
  intros Hb. unfold join.
  assert (Hs : startswith b (String sep EmptyString) = false).
  { destruct (startswith b (String sep EmptyString)) eqn:E; [|reflexivity].
    apply startswith_char in E. destruct E as [t ->].
    cbn [has_char] in Hb. rewrite Ascii.eqb_refl in Hb. discriminate. }
  rewrite Hs. unfold basename.
  destruct a as [|d a].
  - simpl. rewrite (has_char_rfind _ _ Hb). simpl. unfold drop. simpl.
    rewrite Nat.sub_0_r. apply substring_all.
  - cbn [is_empty orb]. destruct (endswith_char (String d a) sep) eqn:E.
    + apply endswith_char_split in E. destruct E as [a' ->].
      rewrite append_assoc. cbn [append].
      rewrite (rfind_app_last _ _ _ Hb).
      change (String sep b) with (String sep EmptyString ++ b)%string.
      rewrite <- append_assoc.
      replace (Z.of_nat (String.length a') + 1)%Z
        with (Z.of_nat (String.length (a' ++ String sep EmptyString)%string)).
      * apply drop_app.
      * rewrite length_append. simpl. lia.
    + rewrite (rfind_app_last _ _ _ Hb).
      change (String sep b) with (String sep EmptyString ++ b)%string.
      rewrite <- append_assoc.
      replace (Z.of_nat (String.length (String d a)) + 1)%Z
        with (Z.of_nat (String.length (String d a ++ String sep EmptyString)%string)).
      * apply drop_app.
      * rewrite length_append. simpl. lia.
Qed.

(** ** What [find_matching_items] returns *)

Lemma omem_mem (x : string) (o : olist) : omem x o = mem x (elems o).
Proof.
  unfold omem. destruct (truthy o) eqn:E; [reflexivity|].
  now rewrite (truthy_false_elems _ E).
Qed.

Lemma find_valid source_dir entries c :
  Matcher.criteria_valid c = true ->
  Matcher.find_matching_items source_dir entries c
  = if Matcher.recursive c
    then Matcher.walk_loop c (Matcher.normalize (Matcher.extensions c))
           (Matcher.normalize (Matcher.exclude_extensions c))
           (Matcher.walk source_dir (Matcher.Dir entries))
    else Matcher.listdir_loop c (Matcher.normalize (Matcher.extensions c))
           (Matcher.normalize (Matcher.exclude_extensions c))
           source_dir entries.
Proof.
  unfold Matcher.criteria_valid, Matcher.find_matching_items.
  destruct (negb (Matcher.has_inclusion_criteria c)
            && negb (Matcher.has_exclusion_criteria c)
            && negb (Matcher.exclude_all_but c)); [discriminate|].
  destruct (Matcher.exclude_all_but c
            && negb (Matcher.has_inclusion_criteria c)); [discriminate|].
  reflexivity.
Qed.

Lemma find_invalid source_dir entries c :
  Matcher.criteria_valid c = false ->
  Matcher.find_matching_items source_dir entries c = ([], []).
Proof.
  unfold Matcher.criteria_valid, Matcher.find_matching_items.
  destruct (negb (Matcher.has_inclusion_criteria c)
            && negb (Matcher.has_exclusion_criteria c)
            && negb (Matcher.exclude_all_but c)); [reflexivity|].
  destruct (Matcher.exclude_all_but c
            && negb (Matcher.has_inclusion_criteria c)); [reflexivity|].
  discriminate.
Qed.

(** The matched files, entry by entry. *)
Lemma find_files source_dir entries c p :
  Matcher.criteria_valid c = true ->
  (In p (fst (Matcher.find_matching_items source_dir entries c)) <->
   exists root es f,
     Matcher.listed c source_dir entries root es
     /\ In (f, Matcher.File) es
     /\ p = join root f
     /\ Matcher.file_selected c (Matcher.normalize (Matcher.extensions c))
          (Matcher.normalize (Matcher.exclude_extensions c)) f = true).
Proof.
  intros Hv. rewrite (find_valid _ _ _ Hv). unfold Matcher.listed.
  destruct (Matcher.recursive c).
  - unfold Matcher.walk_loop. rewrite walk_loop_from. cbn [fst snd app].
    rewrite in_flat_map. split.
    + intros [[[root dirs] files] [Hw Hin]].
      apply in_walk in Hw. destruct Hw as [es [Hr [_ ->]]].
      apply in_map_iff in Hin. destruct Hin as [f [<- Hf]].
      apply filter_In in Hf. destruct Hf as [Hf Hs].
      exists root, es, f. repeat split; try assumption.
      now apply in_filenames.
    + intros [root [es [f [Hr [Hf [-> Hs]]]]]].
      exists (root, Matcher.dirnames es, Matcher.filenames es). split.
      * apply in_walk. now exists es.
      * apply in_map. apply filter_In. split; [|assumption].
        now apply in_filenames.
  - unfold Matcher.listdir_loop. rewrite listdir_loop_from. cbn [fst snd app].
    rewrite in_map_iff. split.
    + intros [f [<- Hf]]. apply filter_In in Hf. destruct Hf as [Hf Hs].
      exists source_dir, entries, f. repeat split; try assumption.
      now apply in_filenames.
    + intros [root [es [f [[-> ->] [Hf [-> Hs]]]]]].
      exists f. split; [reflexivity|]. apply filter_In. split; [|assumption].
      now apply in_filenames.
Qed.

(** The matched directories, entry by entry. *)
Lemma find_dirs source_dir entries c p :
  Matcher.criteria_valid c = true ->
  (Matcher.recursive c = false -> Matcher.plain_names entries) ->
  (In p (snd (Matcher.find_matching_items source_dir entries c)) <->
   exists root es d sub,
     Matcher.listed c source_dir entries root es
     /\ In (d, Matcher.Dir sub) es
     /\ p = join root d
     /\ ~ In d (elems (Matcher.exclude_dirs c))
     /\ Matcher.dir_included c d = true).
Proof.
  intros Hv Hnames. rewrite (find_valid _ _ _ Hv). unfold Matcher.listed.
  destruct (Matcher.recursive c).
  - unfold Matcher.walk_loop. rewrite walk_loop_from. cbn [fst snd app].
    rewrite in_flat_map. split.
    + intros [[[root dirs] files] [Hw Hin]].
      apply in_walk in Hw. destruct Hw as [es [Hr [-> _]]].
      apply in_map_iff in Hin. destruct Hin as [d [<- Hd]].
      apply filter_In in Hd. destruct Hd as [Hd Hk].
      apply andb_true_iff in Hk. destruct Hk as [Hx Hi].
      apply negb_true_iff, omem_false in Hx.
      apply in_dirnames in Hd. destruct Hd as [sub Hd].
      exists root, es, d, sub. repeat split; assumption.
    + intros [root [es [d [sub [Hr [Hd [-> [Hx Hi]]]]]]]].
      exists (root, Matcher.dirnames es, Matcher.filenames es). split.
      * apply in_walk. now exists es.
      * apply in_map. apply filter_In. split.
        -- apply in_dirnames. now exists sub.
        -- apply andb_true_iff. split; [|assumption].
           now apply negb_true_iff, omem_false.
  - specialize (Hnames eq_refl). unfold Matcher.plain_names in Hnames.
    rewrite Forall_forall in Hnames.
    unfold Matcher.listdir_loop. rewrite listdir_loop_from. cbn [fst snd app].
    rewrite in_map_iff. split.
    + intros [d [<- Hd]]. apply filter_In in Hd. destruct Hd as [Hd Hk].
      apply in_dirnames in Hd. destruct Hd as [sub Hd].
      rewrite (basename_join _ _ (Hnames _ Hd)) in Hk.
      apply andb_true_iff in Hk. destruct Hk as [Hx Hi].
      apply negb_true_iff, omem_false in Hx.
      exists source_dir, entries, d, sub. repeat split; assumption.
    + intros [root [es [d [sub [[-> ->] [Hd [-> [Hx Hi]]]]]]]].
      exists d. split; [reflexivity|]. apply filter_In. split.
      * apply in_dirnames. now exists sub.
      * rewrite (basename_join _ _ (Hnames _ Hd)).
        apply andb_true_iff. split; [|assumption].
        now apply negb_true_iff, omem_false.
Qed.

Lemma dir_included_iff c d :
  Matcher.dir_included c d = true <->
  Matcher.include_all_dirs c = true
  \/ (Matcher.include_dirs c = true /\ In d (elems (Matcher.target_dirs c))).
Proof.
  unfold Matcher.dir_included.
  rewrite orb_true_iff, !andb_true_iff, mem_In. split.
  - intros [H|[[H1 H2] H3]]; tauto.
  - intros [H|[H1 H2]]; [tauto|]. right. repeat split; try assumption.
    apply truthy_elems. intros E. rewrite E in H2. destruct H2.
Qed.

(** ** Selection of files and directories *)

(** C2. With [exclude_all_but] set and some inclusion criterion given,
    [find_matching_items] returns a file exactly when the file matches
    neither the inclusion test nor the exclusion test; this holds in the
    recursive walk and in the single-level one ([listed] ranges over the
    directories the run looks at in either case). *)
Theorem C2_exclude_all_but_inverts :
  forall (source_dir : string) (entries : list (string * Matcher.node))
         (c : Matcher.config) (p : string),
    Matcher.exclude_all_but c = true ->
    Matcher.has_inclusion_criteria c = true ->
    (In p (fst (Matcher.find_matching_items source_dir entries c)) <->
     exists root es f,
       Matcher.listed c source_dir entries root es
       /\ In (f, Matcher.File) es
       /\ p = join root f
       /\ Matcher.file_matches_criteria
            c (Matcher.normalize (Matcher.extensions c)) f = false
       /\ Matcher.file_matches_exclusion
            c (Matcher.normalize (Matcher.exclude_extensions c)) f = false).
Proof.
  intros source_dir entries c p Hx Hi.
  assert (Hv : Matcher.criteria_valid c = true).
  { unfold Matcher.criteria_valid. now rewrite Hx, Hi. }
  rewrite (find_files _ _ _ _ Hv).
  unfold Matcher.file_selected. rewrite Hx.
  split; intros [root [es [f [Hl [Hf [Hp Hs]]]]]];
    exists root, es, f; repeat split; try assumption.
  - apply andb_true_iff in Hs. now apply negb_true_iff.
  - apply andb_true_iff in Hs. now apply negb_true_iff.
  - destruct Hs as [H1 H2]. now rewrite H1, H2.
Qed.

Lemma C2_witness :
  In "./c.txt" (fst (Matcher.find_matching_items "." Samples.tree Samples.keep_tmp))
  <->
  exists root es f,
    Matcher.listed Samples.keep_tmp "." Samples.tree root es
    /\ In (f, Matcher.File) es
    /\ "./c.txt" = join root f
    /\ Matcher.file_matches_criteria Samples.keep_tmp
         (Matcher.normalize (Matcher.extensions Samples.keep_tmp)) f = false
    /\ Matcher.file_matches_exclusion Samples.keep_tmp
         (Matcher.normalize (Matcher.exclude_extensions Samples.keep_tmp)) f
       = false.
Proof.
  apply (C2_exclude_all_but_inverts "." Samples.tree Samples.keep_tmp "./c.txt");
    reflexivity.
Defined.

(** C6. In a recursive walk that passed the criteria check, a directory
    whose name is in [exclude_dirs] is not added to the matched directories,
    whatever [include_all_dirs] says; any other directory is added exactly
    when [include_all_dirs] is set, or [include_dirs] is set and its name is
    in [target_dirs].  The walk goes on beneath an excluded directory: the
    matched files are the selected files of every directory of the tree,
    those inside excluded directories included. *)
Theorem C6_directories_in_recursive_walk :
  forall (source_dir : string) (entries : list (string * Matcher.node))
         (c : Matcher.config),
    Matcher.criteria_valid c = true ->
    Matcher.recursive c = true ->
    let selected :=
      Matcher.file_selected c (Matcher.normalize (Matcher.extensions c))
        (Matcher.normalize (Matcher.exclude_extensions c)) in
    let found := Matcher.find_matching_items source_dir entries c in
    snd found
    = flat_map
        (fun '(root, dirs, _) =>
           map (join root)
             (filter (fun d =>
                        negb (mem d (elems (Matcher.exclude_dirs c)))
                        && (Matcher.include_all_dirs c
                            || (Matcher.include_dirs c
                                && mem d (elems (Matcher.target_dirs c)))))
                     dirs))
        (Matcher.walk source_dir (Matcher.Dir entries))
    /\ (forall p,
           In p (snd found) <->
           exists root es d sub,
             Matcher.reaches source_dir (Matcher.Dir entries) root es
             /\ In (d, Matcher.Dir sub) es
             /\ p = join root d
             /\ ~ In d (elems (Matcher.exclude_dirs c))
             /\ (Matcher.include_all_dirs c = true
                 \/ (Matcher.include_dirs c = true
                     /\ In d (elems (Matcher.target_dirs c)))))
    /\ (forall p,
           In p (fst found) <->
           exists root es f,
             Matcher.reaches source_dir (Matcher.Dir entries) root es
             /\ In (f, Matcher.File) es
             /\ p = join root f
             /\ selected f = true)
    /\ (forall d sub f,
           In (d, Matcher.Dir sub) entries ->
           In d (elems (Matcher.exclude_dirs c)) ->
           In (f, Matcher.File) sub ->
           selected f = true ->
           In (join (join source_dir d) f) (fst found)).
Proof.
  intros source_dir entries c Hv Hr selected found.
  assert (Hfiles : forall p,
             In p (fst found) <->
             exists root es f,
               Matcher.reaches source_dir (Matcher.Dir entries) root es
               /\ In (f, Matcher.File) es
               /\ p = join root f
               /\ selected f = true).
  { intros p. unfold found. rewrite (find_files _ _ _ _ Hv).
    unfold Matcher.listed. rewrite Hr. reflexivity. }
  split; [|split; [|split]].
  - unfold found. rewrite (find_valid _ _ _ Hv), Hr.
    unfold Matcher.walk_loop. rewrite walk_loop_from. cbn [fst snd app].
    apply flat_map_ext. intros [[root dirs] files]. f_equal.
    apply filter_ext. intros d. rewrite omem_mem. f_equal.
    unfold Matcher.dir_included. f_equal.
    destruct (Matcher.include_dirs c); [|reflexivity]. simpl.
    destruct (truthy (Matcher.target_dirs c)) eqn:E; [reflexivity|].
    now rewrite (truthy_false_elems _ E).
  - intros p. unfold found. rewrite find_dirs; [|assumption|congruence].
    unfold Matcher.listed. rewrite Hr.
    split; intros [root [es [d [sub [H1 [H2 [H3 [H4 H5]]]]]]]];
      exists root, es, d, sub; repeat split; try assumption;
      now apply dir_included_iff.
  - exact Hfiles.
  - intros d sub f Hd _ Hf Hs. apply Hfiles.
    exists (join source_dir d), sub, f. repeat split; try assumption.
    eapply Matcher.reaches_sub; [eassumption | constructor].
Qed.

Lemma C6_witness :
  snd (Matcher.find_matching_items "." Samples.tree Samples.all_but_sub)
  = ["./sub/deep"]
  /\ In "./sub/x.tmp"
        (fst (Matcher.find_matching_items "." Samples.tree Samples.all_but_sub)).
Proof.
  pose proof (C6_directories_in_recursive_walk
                "." Samples.tree Samples.all_but_sub eq_refl eq_refl) as H.
  cbv zeta in H. destruct H as [Hd [_ [_ Hf]]]. split.
  - rewrite Hd. reflexivity.
  - apply (Hf "sub" [("x.tmp", Matcher.File);
                     ("deep", Matcher.Dir [("report.msg.1", Matcher.File)])]
              "x.tmp").
    + simpl. tauto.
    + simpl. tauto.
    + simpl. tauto.
    + reflexivity.
Defined.

(** C9. In normal mode, when [include_dirs] with [target_dirs] is the only
    inclusion criterion, [find_matching_items] passes its criteria check
    and returns every file that matches no exclusion criterion: the target
    directories do not restrict the files. *)
Theorem C9_directory_only_criteria_match_all_files :
  forall (source_dir : string) (entries : list (string * Matcher.node))
         (c : Matcher.config) (p : string),
    Matcher.exclude_all_but c = false ->
    Matcher.include_all_files c = false ->
    truthy (Matcher.extensions c) = false ->
    truthy (Matcher.exact_match c) = false ->
    Matcher.include_dirs c = true ->
    truthy (Matcher.target_dirs c) = true ->
    Matcher.criteria_valid c = true
    /\ (In p (fst (Matcher.find_matching_items source_dir entries c)) <->
        exists root es f,
          Matcher.listed c source_dir entries root es
          /\ In (f, Matcher.File) es
          /\ p = join root f
          /\ Matcher.file_matches_exclusion
               c (Matcher.normalize (Matcher.exclude_extensions c)) f = false).
Proof.
  intros source_dir entries c p Hx Ha He Hm Hd Ht.
  assert (Hv : Matcher.criteria_valid c = true).
  { unfold Matcher.criteria_valid, Matcher.has_inclusion_criteria.
    rewrite Hx, Ha, He, Hm, Hd, Ht. reflexivity. }
  split; [assumption|].
  rewrite (find_files _ _ _ _ Hv).
  unfold Matcher.file_selected. rewrite Hx, Ha, truthy_normalize, He, Hm.
  split; intros [root [es [f [Hl [Hf [Hp Hs]]]]]];
    exists root, es, f; repeat split; try assumption.
  - apply andb_true_iff in Hs. destruct Hs as [_ Hs].
    now apply negb_true_iff in Hs.
  - rewrite Hs. simpl. now rewrite orb_true_r.
Qed.

Lemma C9_witness :
  Matcher.criteria_valid Samples.only_dirs = true
  /\ (In "./c.txt"
         (fst (Matcher.find_matching_items "." Samples.tree Samples.only_dirs))
      <->
      exists root es f,
        Matcher.listed Samples.only_dirs "." Samples.tree root es
        /\ In (f, Matcher.File) es
        /\ "./c.txt" = join root f
        /\ Matcher.file_matches_exclusion Samples.only_dirs
             (Matcher.normalize (Matcher.exclude_extensions Samples.only_dirs))
             f = false).
Proof.
  apply (C9_directory_only_criteria_match_all_files
           "." Samples.tree Samples.only_dirs "./c.txt"); reflexivity.
Defined.

(** ** Resolution of the pattern file *)

Lemma elems_prepend (new : list string) (old : olist) :
  elems (Cli.prepend new old) = new ++ elems old.
Proof. destruct new; reflexivity. Qed.

(** What the [patterns_exclude] branch hands to the matcher. *)
Lemma resolve_exclude_config (fp : Parser.patterns) (a : Cli.Args) :
  Cli.to_config (Cli.resolve_exclude fp (Cli.initial_locals a))
  = Matcher.mk_config
      (Cli.extensions a) (Cli.include_dirs a) (Cli.target_dirs a)
      (negb (Cli.no_recursive a)) (Cli.contains_extension a)
      (Cli.exact_match a)
      (Cli.prepend (Parser.extensions fp) (Cli.exclude_extensions a))
      (Cli.prepend (Parser.exact fp) (Cli.exclude_exact a))
      (Cli.prepend (Parser.contains fp) (Cli.exclude_contains a))
      (Cli.prepend (Parser.directories fp) None)
      (Cli.exclude_all_but a) true true.
Proof.
  destruct fp as [[|e es] [|d ds] [|x xs] [|k ks]]; destruct a;
    cbn; rewrite ?app_nil_r; reflexivity.
Qed.

(** The contains patterns of the file reach [exclude_contains] in every
    mode but [patterns_excludeDirs]. *)
Lemma resolve_exclude_contains (fp : Parser.patterns) (a : Cli.Args) :
  Cli.patterns_exclude a || Cli.patterns_excludeFiles a
  || negb (Cli.patterns_excludeDirs a) = true ->
  elems (Matcher.exclude_contains
           (Cli.to_config (Cli.resolve fp (Cli.initial_locals a))))
  = Parser.contains fp ++ elems (Cli.exclude_contains a).
Proof.
  intros H. unfold Cli.resolve. cbn [Cli.initial_locals Cli.args].
  destruct (Cli.patterns_exclude a) eqn:E1.
  { rewrite resolve_exclude_config. cbn. apply elems_prepend. }
  destruct (Cli.patterns_excludeFiles a) eqn:E2.
  { destruct fp as [[|e es] [|d ds] [|x xs] [|k ks]]; destruct a; reflexivity. }
  destruct (Cli.patterns_excludeDirs a) eqn:E3; [discriminate|].
  unfold Cli.resolve_normal, Cli.when.
  destruct fp as [[|e es] [|d ds] [|x xs] [|k ks]]; destruct a;
    cbn in *;
    repeat match goal with
      | |- context [if ?b then _ else _] => destruct b; cbn
      end; reflexivity.
Qed.

(** When [main] gets as far as the call with a pattern file, the
    configuration is the resolved one. *)
Lemma main_config_continue (a : Cli.Args) (pfile : option string)
      (c : Matcher.config) :
  Cli.truthy_str (Cli.patterns_file a) = true ->
  Cli.main_config a pfile = Cli.Continue c ->
  exists content,
    pfile = Some content
    /\ c = Cli.to_config
             (Cli.resolve (Parser.parse_lines (Parser.readlines content))
                          (Cli.initial_locals a)).
Proof.
  intros Hp. unfold Cli.main_config. rewrite Hp.
  destruct (_ && negb (Cli.truthy_str (Cli.dest_dir a))); [discriminate|].
  destruct (1 <? Cli.pattern_exclusion_flags a); [discriminate|].
  destruct pfile as [content|]; [|discriminate]. cbn [Parser.parse_patterns_file].
  unfold Cli.validate.
  repeat match goal with
    | |- context [if ?b then Cli.ParserError _ else _] => destruct b
    end; try discriminate.
  intros H. inversion H. now exists content.
Qed.

(** C10. A pattern-file line made of a lone asterisk parses to the empty
    string under [contains].  With the empty string in [exclude_contains],
    [file_matches_exclusion] is true of every file name, so
    [find_matching_items] returns no file at all; and the contains patterns
    of the file do reach [exclude_contains] in every mode but
    [patterns_excludeDirs]. *)
Theorem C10_lone_asterisk_excludes_every_file :
  Parser.parse_patterns_file (Some "*")
  = Some (Parser.mk_patterns [] [] [] [EmptyString])
  /\ (forall (c : Matcher.config) (excl_exts : olist) (f : string),
         In EmptyString (elems (Matcher.exclude_contains c)) ->
         Matcher.file_matches_exclusion c excl_exts f = true)
  /\ (forall (source_dir : string) (entries : list (string * Matcher.node))
             (c : Matcher.config),
         In EmptyString (elems (Matcher.exclude_contains c)) ->
         fst (Matcher.find_matching_items source_dir entries c) = [])
  /\ (forall (a : Cli.Args) (content : string) (c : Matcher.config)
             (source_dir : string) (entries : list (string * Matcher.node)),
         Cli.truthy_str (Cli.patterns_file a) = true ->
         Cli.patterns_exclude a || Cli.patterns_excludeFiles a
         || negb (Cli.patterns_excludeDirs a) = true ->
         In EmptyString
            (Parser.contains (Parser.parse_lines (Parser.readlines content))) ->
         Cli.main_config a (Some content) = Cli.Continue c ->
         fst (Matcher.find_matching_items source_dir entries c) = []).
Proof.
  assert (Hexcl : forall c excl_exts f,
             In EmptyString (elems (Matcher.exclude_contains c)) ->
             Matcher.file_matches_exclusion c excl_exts f = true).
  { intros c excl_exts f Hin. unfold Matcher.file_matches_exclusion.
    destruct (omem f (Matcher.exclude_exact c)); [reflexivity|].
    destruct (truthy excl_exts && _); [reflexivity|].
    destruct (truthy (Matcher.exclude_contains c)) eqn:Ht.
    - apply existsb_exists. exists EmptyString. split; [assumption|].
      apply str_in_empty.
    - rewrite (truthy_false_elems _ Ht) in Hin. destruct Hin. }
  assert (Hnone : forall source_dir entries c,
             In EmptyString (elems (Matcher.exclude_contains c)) ->
             fst (Matcher.find_matching_items source_dir entries c) = []).
  { intros source_dir entries c Hin.
    destruct (Matcher.criteria_valid c) eqn:Hv.
    - destruct (fst (Matcher.find_matching_items source_dir entries c))
        as [|p ps] eqn:E; [reflexivity|].
      assert (Hp : In p (fst (Matcher.find_matching_items source_dir entries c)))
        by (rewrite E; now left).
      apply (find_files _ _ _ _ Hv) in Hp.
      destruct Hp as [root [es [f [_ [_ [_ Hs]]]]]].
      unfold Matcher.file_selected in Hs.
      rewrite (Hexcl c _ f Hin) in Hs.
      destruct (Matcher.exclude_all_but c);
        rewrite andb_false_r in Hs; discriminate.
    - now rewrite (find_invalid _ _ _ Hv). }
  split; [reflexivity|]. split; [exact Hexcl|]. split; [exact Hnone|].
  intros a content c source_dir entries Hp Hmode Hin Hmain.
  destruct (main_config_continue _ _ _ Hp Hmain) as [content' [Hc ->]].
  inversion Hc; subst content'. apply Hnone.
  rewrite (resolve_exclude_contains _ _ Hmode). apply in_or_app. now left.
Qed.

Lemma C10_witness :
  fst (Matcher.find_matching_items "." Samples.tree Samples.exclude_empty) = []
  /\ fst (Matcher.find_matching_items "." Samples.tree Samples.normal_tmp)
     = ["./a.tmp"; "./b.TMP"; "./sub/x.tmp"].
Proof.
  split.
  - apply (proj1 (proj2 (proj2 C10_lone_asterisk_excludes_every_file))).
    simpl. tauto.
  - reflexivity.
Defined.

(** C8, as the code has it.  With [patterns_exclude], every category of the
    pattern file becomes an exclusion (extensions, exact names and contains
    patterns ahead of those of the command line, directories as
    [exclude_dirs]) and [include_all_files] and [include_all_dirs] are set.
    When [exclude_all_but] is not set as well, the match that follows
    returns exactly the files that match no exclusion criterion and the
    directories whose name is not an excluded one. *)
Theorem C8_exclude_mode_without_exclude_all_but :
  forall (a : Cli.Args) (content : string) (c : Matcher.config)
         (source_dir : string) (entries : list (string * Matcher.node)),
    Cli.truthy_str (Cli.patterns_file a) = true ->
    Cli.patterns_exclude a = true ->
    Cli.main_config a (Some content) = Cli.Continue c ->
    let fp := Parser.parse_lines (Parser.readlines content) in
    (elems (Matcher.exclude_extensions c)
     = Parser.extensions fp ++ elems (Cli.exclude_extensions a)
     /\ elems (Matcher.exclude_exact c)
        = Parser.exact fp ++ elems (Cli.exclude_exact a)
     /\ elems (Matcher.exclude_contains c)
        = Parser.contains fp ++ elems (Cli.exclude_contains a)
     /\ elems (Matcher.exclude_dirs c) = Parser.directories fp
     /\ Matcher.include_all_files c = true
     /\ Matcher.include_all_dirs c = true)
    /\ (Cli.exclude_all_but a = false ->
        (Matcher.recursive c = false -> Matcher.plain_names entries) ->
        (forall p,
            In p (fst (Matcher.find_matching_items source_dir entries c)) <->
            exists root es f,
              Matcher.listed c source_dir entries root es
              /\ In (f, Matcher.File) es
              /\ p = join root f
              /\ Matcher.file_matches_exclusion
                   c (Matcher.normalize (Matcher.exclude_extensions c)) f
                 = false)
        /\ (forall p,
               In p (snd (Matcher.find_matching_items source_dir entries c)) <->
               exists root es d sub,
                 Matcher.listed c source_dir entries root es
                 /\ In (d, Matcher.Dir sub) es
                 /\ p = join root d
                 /\ ~ In d (Parser.directories fp))).
Proof.
  intros a content c source_dir entries Hp Hmode Hmain fp.
  destruct (main_config_continue _ _ _ Hp Hmain) as [content' [Hc Hcfg]].
  inversion Hc; subst content'. fold fp in Hcfg.
  unfold Cli.resolve in Hcfg. cbn [Cli.initial_locals Cli.args] in Hcfg.
  rewrite Hmode, resolve_exclude_config in Hcfg.
  assert (Hdirs : elems (Matcher.exclude_dirs c) = Parser.directories fp).
  { rewrite Hcfg. cbn. rewrite elems_prepend. apply app_nil_r. }
  split.
  - rewrite Hcfg. cbn. rewrite !elems_prepend. repeat split.
    apply app_nil_r.
  - intros Hx Hnames.
    assert (Hall : Matcher.include_all_files c = true) by (now rewrite Hcfg).
    assert (Halld : Matcher.include_all_dirs c = true) by (now rewrite Hcfg).
    assert (Hnot : Matcher.exclude_all_but c = false) by (now rewrite Hcfg).
    assert (Hv : Matcher.criteria_valid c = true).
    { unfold Matcher.criteria_valid, Matcher.has_inclusion_criteria.
      rewrite Hall, Hnot, !orb_true_r. reflexivity. }
    split; intros p.
    + rewrite (find_files _ _ _ _ Hv).
      unfold Matcher.file_selected, Matcher.file_matches_criteria.
      rewrite Hall, Hnot. cbn [orb andb].
      split; intros [root [es [f [Hl [Hf [Hq Hs]]]]]];
        exists root, es, f; repeat split; try assumption.
      * now apply negb_true_iff.
      * now apply negb_true_iff.
    + rewrite (find_dirs _ _ _ _ Hv Hnames). rewrite Hdirs.
      unfold Matcher.dir_included. rewrite Halld. cbn [orb].
      split; intros [root [es [d [sub H]]]]; exists root, es, d, sub; tauto.
Qed.

Lemma C8_witness :
  In "./c.txt" (fst (Matcher.find_matching_items "." Samples.tree Samples.excluded))
  /\ In "./sub" (snd (Matcher.find_matching_items "." Samples.tree Samples.excluded)).
Proof.
  pose proof (C8_exclude_mode_without_exclude_all_but
                (Samples.args_exclude false) ".bak" Samples.excluded
                "." Samples.tree eq_refl eq_refl eq_refl) as H.
  cbv zeta in H. destruct H as [_ H].
  specialize (H eq_refl (fun E => match Bool.diff_true_false E with end)).
  destruct H as [Hf Hd]. split.
  - apply Hf. exists ".", Samples.tree, "c.txt".
    split; [constructor|]. split; [simpl; tauto|]. split; reflexivity.
  - apply Hd. exists ".", Samples.tree, "sub",
      [("x.tmp", Matcher.File);
       ("deep", Matcher.Dir [("report.msg.1", Matcher.File)])].
    split; [constructor|]. split; [simpl; tauto|]. split; [reflexivity|].
    simpl. tauto.
Defined.

(** The claim C8 as stated fails when [exclude_all_but] is set too:
    [delete --patterns-file p --patterns-exclude --exclude-all-but] with a
    pattern file [.bak] passes every check of [main], the file [c.txt] of
    the source directory matches no exclusion criterion, and it is not
    returned. *)
Lemma C8_counterexample :
  Cli.main_config (Samples.args_exclude true) (Some ".bak")
  = Cli.Continue Samples.excluded_all_but
  /\ In ("c.txt", Matcher.File) Samples.tree
  /\ Matcher.file_matches_exclusion Samples.excluded_all_but
       (Matcher.normalize (Matcher.exclude_extensions Samples.excluded_all_but))
       "c.txt" = false
  /\ ~ In "./c.txt"
         (fst (Matcher.find_matching_items "." Samples.tree
                                           Samples.excluded_all_but))
  /\ fst (Matcher.find_matching_items "." Samples.tree Samples.excluded_all_but)
     = [].
Proof.
  split; [reflexivity|]. split; [simpl; tauto|]. split; [reflexivity|].
  split; [|reflexivity].
  intros H. vm_compute in H. exact H.
Qed.

(** C3 at the failing input.  [delete --extensions tmp --patterns-file p]
    with a pattern file [.bak], no exclusion flag and no override: the
    extension of the file is not added to the one of the command line, and
    a file [old.bak] is not matched. *)
Theorem C3_pattern_extensions_dropped_beside_cli_extensions :
  Cli.main_config Samples.args_normal (Some ".bak")
  = Cli.Continue Samples.normal_tmp
  /\ Matcher.extensions Samples.normal_tmp = Some ["tmp"]
  /\ Matcher.find_matching_items
       "." [("old.bak", Matcher.File); ("new.tmp", Matcher.File)]
       Samples.normal_tmp
     = (["./new.tmp"], []).
Proof. repeat split. Qed.

(** In normal mode without override, extensions given on the command line
    keep the extensions of the pattern file out, whatever they are. *)
Lemma normal_mode_cli_extensions_win (a : Cli.Args) (fp : Parser.patterns) :
  Cli.patterns_exclude a = false ->
  Cli.patterns_excludeFiles a = false ->
  Cli.patterns_excludeDirs a = false ->
  Cli.patterns_override a = false ->
  truthy (Cli.extensions a) = true ->
  Matcher.extensions (Cli.to_config (Cli.resolve fp (Cli.initial_locals a)))
  = Cli.extensions a.
Proof.
  intros H1 H2 H3 H4 H5. unfold Cli.resolve.
  cbn [Cli.initial_locals Cli.args]. rewrite H1, H2, H3.
  unfold Cli.resolve_normal, Cli.when.
  destruct fp as [[|e es] [|d ds] [|x xs] [|k ks]]; destruct a;
    cbn in *; subst; rewrite ?H5; cbn;
    repeat match goal with
      | |- context [if ?b then _ else _] => destruct b; cbn
      end; reflexivity.
Qed.

(** The directories of the pattern file, in the same mode, are added to
    the target directories of the command line, or replace them under
    override, and the contains patterns go to [exclude_contains]. *)
Lemma normal_mode_directories_and_contains (a : Cli.Args)
      (fp : Parser.patterns) :
  Cli.patterns_exclude a = false ->
  Cli.patterns_excludeFiles a = false ->
  Cli.patterns_excludeDirs a = false ->
  Parser.directories fp <> [] ->
  let c := Cli.to_config (Cli.resolve fp (Cli.initial_locals a)) in
  Matcher.include_dirs c = true
  /\ elems (Matcher.target_dirs c)
     = Parser.directories fp
       ++ (if Cli.patterns_override a then [] else elems (Cli.target_dirs a))
  /\ elems (Matcher.exclude_contains c)
     = Parser.contains fp ++ elems (Cli.exclude_contains a).
Proof.
  intros H1 H2 H3 Hd. cbv zeta. split; [|split].
  - unfold Cli.resolve. cbn [Cli.initial_locals Cli.args]. rewrite H1, H2, H3.
    unfold Cli.resolve_normal, Cli.when.
    destruct (Cli.patterns_override a) eqn:Ho;
      destruct fp as [[|e es] [|d ds] [|x xs] [|k ks]]; destruct a;
      cbn in *; try congruence; subst; cbn;
      repeat match goal with
        | |- context [negb (truthy ?o)] => destruct (truthy o); cbn
        end; reflexivity.
  - unfold Cli.resolve. cbn [Cli.initial_locals Cli.args]. rewrite H1, H2, H3.
    unfold Cli.resolve_normal, Cli.when.
    destruct (Cli.patterns_override a) eqn:Ho;
      destruct fp as [[|e es] [|d ds] [|x xs] [|k ks]]; destruct a;
      cbn in *; try congruence; subst; cbn;
      repeat match goal with
        | |- context [negb (truthy ?o)] => destruct (truthy o); cbn
        end; reflexivity.
  - apply resolve_exclude_contains. now rewrite H1, H2, H3.
Qed.

(** ** The bulk executor *)

Section ExecutorFacts.
Variable FS : Type.
Variable os : Executor.os_api FS.
Variables (operation source_dir : string) (dest_dir : option string).
Variables is_dirs dry_run : bool.
Variable lg : Executor.Logger.

Let try_item :=
  Executor.try_item FS os operation source_dir dest_dir is_dirs dry_run
                    (Some lg).
Let attempts items fs :=
  Executor.attempts FS os operation items source_dir dest_dir is_dirs
                    dry_run lg fs.

(** With a logger the loop runs to its end. *)
Lemma process_loop_logged items fs count errors :
  snd (Executor.process_loop FS os operation source_dir dest_dir is_dirs
         dry_run (Some lg) items fs count errors)
  = Executor.Ok
      (count + length (filter Executor.succeeded (attempts items fs)),
       errors ++ flat_map Executor.failure (attempts items fs)).
Proof.
  revert fs count errors.
  induction items as [|item items IH]; intros fs count errors.
  - cbn. now rewrite Nat.add_0_r, app_nil_r.
  - cbn [Executor.process_loop]. unfold attempts in *.
    cbn [Executor.attempts]. fold try_item.
    destruct (try_item item fs) as [fs' [u|e]].
    + rewrite IH. cbn. f_equal. f_equal. lia.
    + cbn [Executor.log_call]. rewrite IH. cbn. now rewrite <- app_assoc.
Qed.

Lemma attempts_items items fs : map fst (attempts items fs) = items.
Proof.
  revert fs. induction items as [|item items IH]; intros fs.
  - reflexivity.
  - unfold attempts in *. cbn [Executor.attempts]. fold try_item.
    destruct (try_item item fs) as [fs' r]. cbn. now rewrite IH.
Qed.

Lemma partition_length (tr : list (string * Executor.res unit)) :
  length (filter Executor.succeeded tr)
  + length (flat_map Executor.failure tr) = length tr.
Proof.
  induction tr as [|[p [u|e]] tr IH]; cbn; [reflexivity| |];
    cbn in IH; lia.
Qed.

Lemma failures_length (tr : list (string * Executor.res unit)) :
  length (flat_map Executor.failure tr)
  = length (filter (fun a => negb (Executor.succeeded a)) tr).
Proof.
  induction tr as [|[p [u|e]] tr IH]; cbn; [reflexivity| |]; cbn in IH; lia.
Qed.
End ExecutorFacts.

(** C4. Called with a logger, as [main] calls it, [process_items] tries
    every item, in order and each in the file system its predecessors left;
    an item whose attempt raises is recorded in the error list as its path
    with the message and the loop goes on; [processed_count] is the number
    of items whose attempt did not raise.  So a batch of three with one
    failing item gives a count of two and one error, and no failure ends
    the batch. *)
Theorem C4_process_items_records_failures_and_goes_on :
  forall (FS : Type) (os : Executor.os_api FS) (operation : string)
         (items : list string) (source_dir : string)
         (dest_dir : option string) (is_dirs dry_run : bool)
         (lg : Executor.Logger) (fs : FS),
    let tried :=
      Executor.attempts FS os operation items source_dir dest_dir
                        is_dirs dry_run lg fs in
    exists processed_count errors,
      snd (Executor.process_items FS os operation items source_dir dest_dir
                                  is_dirs dry_run (Some lg) fs)
      = Executor.Ok (processed_count, errors)
      /\ map fst tried = items
      /\ processed_count = length (filter Executor.succeeded tried)
      /\ errors = flat_map Executor.failure tried
      /\ (forall p e, In (p, e) errors <-> In (p, Executor.Raise e) tried)
      /\ processed_count + length errors = length items
      /\ (length items = 3 ->
          length (filter (fun a => negb (Executor.succeeded a)) tried) = 1 ->
          processed_count = 2 /\ length errors = 1).
Proof.
  intros FS os operation items source_dir dest_dir is_dirs dry_run lg fs
         tried.
  exists (length (filter Executor.succeeded tried)),
         (flat_map Executor.failure tried).
  assert (Hi : map fst tried = items) by apply attempts_items.
  assert (Hl : length tried = length items).
  { rewrite <- Hi. now rewrite length_map. }
  split.
  { unfold Executor.process_items. now rewrite process_loop_logged. }
  split; [assumption|]. split; [reflexivity|]. split; [reflexivity|].
  split; [|split].
  - intros p e. rewrite in_flat_map. split.
    + intros [[q [u|e']] [Hin Hf]]; cbn in Hf; [destruct Hf|].
      destruct Hf as [Hf|[]]. cbn in Hf. injection Hf as <- <-. exact Hin.
    + intros Hin. exists (p, Executor.Raise e). split; [assumption|].
      now left.
  - rewrite partition_length. assumption.
  - intros H3 H1. pose proof (partition_length tried) as Hp.
    pose proof (failures_length tried) as Hf. lia.
Qed.

Lemma C4_witness :
  Executor.process_items Executor.toy_fs Executor.toy_os "delete"
    ["a"; "b"; "c"] "." None false false (Some Executor.console_logger)
    [("a", true); ("b", false); ("c", true)]
  = ([("b", false)],
     Executor.Ok (2, [("b", "[Errno 13] Permission denied")]))
  /\ exists processed_count errors,
       snd (Executor.process_items Executor.toy_fs Executor.toy_os "delete"
              ["a"; "b"; "c"] "." None false false
              (Some Executor.console_logger)
              [("a", true); ("b", false); ("c", true)])
       = Executor.Ok (processed_count, errors)
       /\ processed_count = 2 /\ length errors = 1.
Proof.
  split; [reflexivity|].
  destruct (C4_process_items_records_failures_and_goes_on
              Executor.toy_fs Executor.toy_os "delete" ["a"; "b"; "c"] "."
              None false false Executor.console_logger
              [("a", true); ("b", false); ("c", true)])
    as [n [e [H1 [_ [_ [_ [_ [_ H7]]]]]]]].
  exists n, e. split; [exact H1|]. apply H7; reflexivity.
Defined.

Section DryRun.
Variable FS : Type.
Variable os : Executor.os_api FS.
Variables (operation source_dir : string) (dest_dir : option string).
Variable is_dirs : bool.

Lemma dry_try_item_fs logger item fs :
  fst (Executor.try_item FS os operation source_dir dest_dir is_dirs true
                         logger item fs) = fs.
Proof.
  unfold Executor.try_item, Executor.bind, Executor.reading,
    Executor.pure_res, Executor.ret, Executor.relpath, Executor.log_call.
  destruct (is_empty item); [reflexivity|].
  destruct (String.eqb operation "delete").
  - destruct logger; reflexivity.
  - destruct (Executor.join_dest dest_dir _); [|reflexivity].
    destruct logger; reflexivity.
Qed.


Lemma dry_process_loop_fs logger items fs count errors :
  fst (Executor.process_loop FS os operation source_dir dest_dir is_dirs
         true logger items fs count errors) = fs.
Proof.
  revert count errors.
  induction items as [|item items IH]; intros count errors.
  - reflexivity.
  - cbn [Executor.process_loop].
    pose proof (dry_try_item_fs logger item fs) as Hfs.
    destruct (Executor.try_item FS os operation source_dir dest_dir is_dirs
                true logger item fs) as [fs' [u|e]]; cbn in Hfs; subst fs'.
    + apply IH.
    + destruct logger; cbn [Executor.log_call]; [apply IH | reflexivity].
Qed.

End DryRun.



(** * Further properties *)

(** ** The exclusion test *)

(** X1. [file_matches_exclusion] is true of a file name exactly when the
    name is in [exclude_exact], or its lower-cased extension is in the
    normalized [exclude_extensions], or some pattern of [exclude_contains],
    lower-cased, occurs in the lower-cased name. *)
Theorem X1_file_matches_exclusion_iff :
  forall (c : Matcher.config) (f : string),
    Matcher.file_matches_exclusion
      c (Matcher.normalize (Matcher.exclude_extensions c)) f = true
    <->
    (In f (elems (Matcher.exclude_exact c))
     \/ In (lower (snd (splitext f)))
           (elems (Matcher.normalize (Matcher.exclude_extensions c)))
     \/ exists pat, In pat (elems (Matcher.exclude_contains c))
                    /\ occurs_in (lower pat) (lower f)).
Proof.
  intros c f. unfold Matcher.file_matches_exclusion.
  set (xs := Matcher.normalize (Matcher.exclude_extensions c)).
  destruct (omem f (Matcher.exclude_exact c)) eqn:Hex.
  { apply omem_In in Hex. tauto. }
  apply omem_false in Hex.
  assert (Hext : truthy xs && mem (lower (snd (splitext f))) (elems xs) = true
                 <-> In (lower (snd (splitext f))) (elems xs)).
  { fold (omem (lower (snd (splitext f))) xs). apply omem_In. }
  destruct (truthy xs && mem (lower (snd (splitext f))) (elems xs)).
  { split; [|reflexivity]. intros _. right; left. now apply Hext. }
  assert (Hn : ~ In (lower (snd (splitext f))) (elems xs)).
  { intros H. apply Hext in H. discriminate. }
  destruct (truthy (Matcher.exclude_contains c)) eqn:Ht.
  - rewrite existsb_exists. split.
    + intros [pat [Hp Hs]]. right; right. exists pat. split; [assumption|].
      now apply str_in_spec.
    + intros [H|[H|[pat [Hp Hs]]]]; try tauto.
      exists pat. split; [assumption|]. now apply str_in_spec.
  - rewrite (truthy_false_elems _ Ht). split; [discriminate|].
    intros [H|[H|[pat [[] _]]]]; tauto.
Qed.

(** X2. Whatever the mode, a file that [find_matching_items] returns does
    not match the exclusion test: exclusions are never overridden. *)
Theorem X2_excluded_files_are_never_returned :
  forall (source_dir : string) (entries : list (string * Matcher.node))
         (c : Matcher.config) (p : string),
    In p (fst (Matcher.find_matching_items source_dir entries c)) ->
    exists root es f,
      Matcher.listed c source_dir entries root es
      /\ In (f, Matcher.File) es
      /\ p = join root f
      /\ Matcher.file_matches_exclusion
           c (Matcher.normalize (Matcher.exclude_extensions c)) f = false.
Proof.
  intros source_dir entries c p Hin.
  destruct (Matcher.criteria_valid c) eqn:Hv.
  - apply (find_files _ _ _ _ Hv) in Hin.
    destruct Hin as [root [es [f [Hl [Hf [Hp Hs]]]]]].
    exists root, es, f. repeat split; try assumption.
    unfold Matcher.file_selected in Hs.
    destruct (Matcher.exclude_all_but c);
      apply andb_true_iff in Hs; destruct Hs as [_ Hs];
      now apply negb_true_iff in Hs.
  - rewrite (find_invalid _ _ _ Hv) in Hin. destruct Hin.
Qed.

Lemma X2_witness :
  exists root es f,
    Matcher.listed Samples.all_but_sub "." Samples.tree root es
    /\ In (f, Matcher.File) es
    /\ "./a.tmp" = join root f
    /\ Matcher.file_matches_exclusion Samples.all_but_sub
         (Matcher.normalize (Matcher.exclude_extensions Samples.all_but_sub))
         f = false.
Proof.
  apply (X2_excluded_files_are_never_returned
           "." Samples.tree Samples.all_but_sub "./a.tmp").
  simpl. tauto.
Defined.

(** ** Modes of selection *)

Lemma valid_of_inclusion (c : Matcher.config) :
  Matcher.has_inclusion_criteria c = true -> Matcher.criteria_valid c = true.
Proof.
  intros H. unfold Matcher.criteria_valid. rewrite H. cbn.
  now rewrite andb_false_r.
Qed.

(** X3. When extensions or exact names are given and [include_all_files] is
    not set, [exclude_all_but] selects the exact complement of normal mode
    among the files that match no exclusion: such a file is selected in one
    of the two modes and not in the other, and the two runs together return
    precisely the files that match no exclusion. *)
Theorem X3_exclude_all_but_is_the_complement :
  forall (source_dir : string) (entries : list (string * Matcher.node))
         (c : Matcher.config),
    truthy (Matcher.extensions c) || truthy (Matcher.exact_match c) = true ->
    Matcher.include_all_files c = false ->
    let normal := Variants.set_exclude_all_but c false in
    let inverted := Variants.set_exclude_all_but c true in
    let exts := Matcher.normalize (Matcher.extensions c) in
    let excl := Matcher.normalize (Matcher.exclude_extensions c) in
    (forall f,
        Matcher.file_matches_exclusion c excl f = false ->
        Matcher.file_selected inverted exts excl f
        = negb (Matcher.file_selected normal exts excl f))
    /\ (forall p,
           In p (fst (Matcher.find_matching_items source_dir entries normal))
           \/ In p (fst (Matcher.find_matching_items source_dir entries inverted))
           <->
           exists root es f,
             Matcher.listed c source_dir entries root es
             /\ In (f, Matcher.File) es
             /\ p = join root f
             /\ Matcher.file_matches_exclusion c excl f = false).
Proof.
  intros source_dir entries c Hcrit Hall normal inverted exts excl.
  assert (Hsel : forall f,
             Matcher.file_matches_exclusion c excl f = false ->
             Matcher.file_selected inverted exts excl f
             = negb (Matcher.file_selected normal exts excl f)).
  { intros f Hx. unfold Matcher.file_selected. cbn.
    change (Matcher.file_matches_exclusion inverted excl f)
      with (Matcher.file_matches_exclusion c excl f).
    change (Matcher.file_matches_exclusion normal excl f)
      with (Matcher.file_matches_exclusion c excl f).
    change (Matcher.file_matches_criteria inverted exts f)
      with (Matcher.file_matches_criteria c exts f).
    change (Matcher.file_matches_criteria normal exts f)
      with (Matcher.file_matches_criteria c exts f).
    rewrite Hx, Hall. unfold exts. rewrite truthy_normalize, Hcrit.
    cbn. now rewrite !andb_true_r, !orb_false_r. }
  split; [exact Hsel|].
  assert (Hi : forall v, Matcher.has_inclusion_criteria
                           (Variants.set_exclude_all_but c v) = true).
  { intros v. unfold Matcher.has_inclusion_criteria. cbn.
    rewrite Hcrit. reflexivity. }
  intros p.
  rewrite (find_files _ _ normal _ (valid_of_inclusion _ (Hi false))).
  rewrite (find_files _ _ inverted _ (valid_of_inclusion _ (Hi true))).
  change (Matcher.normalize (Matcher.extensions normal)) with exts.
  change (Matcher.normalize (Matcher.extensions inverted)) with exts.
  change (Matcher.normalize (Matcher.exclude_extensions normal)) with excl.
  change (Matcher.normalize (Matcher.exclude_extensions inverted)) with excl.
  change (Matcher.listed normal) with (Matcher.listed c).
  change (Matcher.listed inverted) with (Matcher.listed c).
  assert (Hexcl : forall v f,
             Matcher.file_selected (Variants.set_exclude_all_but c v)
                                   exts excl f = true ->
             Matcher.file_matches_exclusion c excl f = false).
  { intros v f Hs. unfold Matcher.file_selected in Hs. cbn in Hs.
    change (Matcher.file_matches_exclusion
              (Variants.set_exclude_all_but c v) excl f)
      with (Matcher.file_matches_exclusion c excl f) in Hs.
    destruct v; apply andb_true_iff in Hs; destruct Hs as [_ Hs];
      now apply negb_true_iff in Hs. }
  split.
  - intros [[root [es [f [Hl [Hf [Hp Hs]]]]]] | [root [es [f [Hl [Hf [Hp Hs]]]]]]];
      exists root, es, f; repeat split; try assumption;
      eapply Hexcl; eassumption.
  - intros [root [es [f [Hl [Hf [Hp Hx]]]]]].
    specialize (Hsel f Hx).
    destruct (Matcher.file_selected normal exts excl f) eqn:En.
    + left. exists root, es, f. now repeat split.
    + right. exists root, es, f. repeat split; assumption.
Qed.

Lemma X3_witness :
  Matcher.file_selected (Variants.set_exclude_all_but Samples.normal_tmp true)
    (Matcher.normalize (Matcher.extensions Samples.normal_tmp))
    (Matcher.normalize (Matcher.exclude_extensions Samples.normal_tmp)) "c.txt"
  = negb (Matcher.file_selected
            (Variants.set_exclude_all_but Samples.normal_tmp false)
            (Matcher.normalize (Matcher.extensions Samples.normal_tmp))
            (Matcher.normalize (Matcher.exclude_extensions Samples.normal_tmp))
            "c.txt").
Proof.
  apply (proj1 (X3_exclude_all_but_is_the_complement
                  "." Samples.tree Samples.normal_tmp eq_refl eq_refl)).
  reflexivity.
Defined.

Lemma find_dirs_list source_dir entries c :
  Matcher.criteria_valid c = true ->
  snd (Matcher.find_matching_items source_dir entries c)
  = if Matcher.recursive c
    then flat_map
           (fun '(root, dirs, _) =>
              map (join root)
                (filter (fun d => negb (omem d (Matcher.exclude_dirs c))
                                  && Matcher.dir_included c d) dirs))
           (Matcher.walk source_dir (Matcher.Dir entries))
    else map (join source_dir)
           (filter (fun d =>
                      negb (omem (basename (join source_dir d))
                                 (Matcher.exclude_dirs c))
                      && Matcher.dir_included c (basename (join source_dir d)))
                   (Matcher.dirnames entries)).
Proof.
  intros Hv. rewrite (find_valid _ _ _ Hv).
  destruct (Matcher.recursive c).
  - unfold Matcher.walk_loop. now rewrite walk_loop_from.
  - unfold Matcher.listdir_loop. now rewrite listdir_loop_from.
Qed.

Lemma find_files_list source_dir entries c :
  Matcher.criteria_valid c = true ->
  fst (Matcher.find_matching_items source_dir entries c)
  = if Matcher.recursive c
    then flat_map
           (fun '(root, _, files) =>
              map (join root)
                (filter (Matcher.file_selected c
                           (Matcher.normalize (Matcher.extensions c))
                           (Matcher.normalize (Matcher.exclude_extensions c)))
                        files))
           (Matcher.walk source_dir (Matcher.Dir entries))
    else map (join source_dir)
           (filter (Matcher.file_selected c
                      (Matcher.normalize (Matcher.extensions c))
                      (Matcher.normalize (Matcher.exclude_extensions c)))
                   (Matcher.filenames entries)).
Proof.
  intros Hv. rewrite (find_valid _ _ _ Hv).
  destruct (Matcher.recursive c).
  - unfold Matcher.walk_loop. now rewrite walk_loop_from.
  - unfold Matcher.listdir_loop. now rewrite listdir_loop_from.
Qed.

(** X4. [exclude_all_but] inverts the choice of files only: as long as the
    criteria check passes either way, the matched directories are the same
    list with the flag set or not. *)
Theorem X4_exclude_all_but_leaves_directories :
  forall (source_dir : string) (entries : list (string * Matcher.node))
         (c : Matcher.config),
    Matcher.criteria_valid (Variants.set_exclude_all_but c false) = true ->
    Matcher.criteria_valid (Variants.set_exclude_all_but c true) = true ->
    snd (Matcher.find_matching_items source_dir entries
           (Variants.set_exclude_all_but c true))
    = snd (Matcher.find_matching_items source_dir entries
             (Variants.set_exclude_all_but c false)).
Proof.
  intros source_dir entries c Hn Hi.
  rewrite (find_dirs_list _ _ _ Hn), (find_dirs_list _ _ _ Hi). reflexivity.
Qed.

Lemma X4_witness :
  snd (Matcher.find_matching_items "." Samples.tree
         (Variants.set_exclude_all_but Samples.all_but_sub true))
  = snd (Matcher.find_matching_items "." Samples.tree
           (Variants.set_exclude_all_but Samples.all_but_sub false)).
Proof.
  apply (X4_exclude_all_but_leaves_directories
           "." Samples.tree Samples.all_but_sub); reflexivity.
Defined.

(** X5. [exclude_all_but] together with [include_all_files] returns no file:
    every file matches the inclusion test, and the inverted test keeps only
    files that do not. *)
Theorem X5_exclude_all_but_with_include_all_files :
  forall (source_dir : string) (entries : list (string * Matcher.node))
         (c : Matcher.config),
    Matcher.exclude_all_but c = true ->
    Matcher.include_all_files c = true ->
    fst (Matcher.find_matching_items source_dir entries c) = [].
Proof.
  intros source_dir entries c Hx Ha.
  destruct (fst (Matcher.find_matching_items source_dir entries c))
    as [|p ps] eqn:E; [reflexivity|].
  assert (Hp : In p (fst (Matcher.find_matching_items source_dir entries c)))
    by (rewrite E; now left).
  assert (Hv : Matcher.criteria_valid c = true).
  { apply valid_of_inclusion. unfold Matcher.has_inclusion_criteria.
    rewrite Ha. now rewrite !orb_true_r. }
  apply (find_files _ _ _ _ Hv) in Hp.
  destruct Hp as [root [es [f [_ [_ [_ Hs]]]]]].
  unfold Matcher.file_selected, Matcher.file_matches_criteria in Hs.
  rewrite Hx, Ha in Hs. discriminate.
Qed.

Lemma X5_witness :
  fst (Matcher.find_matching_items "." Samples.tree Samples.excluded_all_but)
  = [].
Proof.
  apply (X5_exclude_all_but_with_include_all_files
           "." Samples.tree Samples.excluded_all_but); reflexivity.
Defined.

(** ** Paths of the results *)

Lemma prefix_trans (a b c : string) :
  String.prefix a b = true -> String.prefix b c = true ->
  String.prefix a c = true.
Proof.
  rewrite !prefix_spec. intros [v ->] [w ->]. exists (v ++ w)%string.
  apply append_assoc.
Qed.

Lemma prefix_refl (a : string) : String.prefix a a = true.
Proof.
  apply prefix_spec. exists EmptyString.
  induction a as [|c a IH]; simpl; [reflexivity | now rewrite <- IH].
Qed.

Lemma join_prefix (a b : string) :
  has_char sep b = false -> String.prefix a (join a b) = true.
Proof.
  intros Hb. unfold join.
  assert (Hs : startswith b (String sep EmptyString) = false).
  { destruct (startswith b (String sep EmptyString)) eqn:E; [|reflexivity].
    apply startswith_char in E. destruct E as [t ->].
    cbn [has_char] in Hb. rewrite Ascii.eqb_refl in Hb. discriminate. }
  rewrite Hs. apply prefix_spec.
  destruct (is_empty a || endswith_char a sep); eexists; reflexivity.
Qed.

Lemma plain_name_of (es : list (string * Matcher.node)) (name : string)
      (n : Matcher.node) :
  Matcher.plain_names es -> In (name, n) es -> has_char sep name = false.
Proof.
  unfold Matcher.plain_names. rewrite Forall_forall. intros H Hin.
  exact (H _ Hin).
Qed.

Lemma reaches_under top n root es :
  Matcher.reaches top n root es ->
  Variants.well_named n ->
  String.prefix top root = true /\ Matcher.plain_names es.
Proof.
  induction 1 as [top es | top es d sub root es' Hin Hr IH]; intros Hw.
  - split; [apply prefix_refl|]. now inversion Hw.
  - inversion Hw as [|es0 Hplain Hsub]; subst.
    destruct (IH (Hsub _ _ Hin)) as [Hp Hn]. split; [|assumption].
    eapply prefix_trans; [|exact Hp].
    apply join_prefix. exact (plain_name_of _ _ _ Hplain Hin).
Qed.

Lemma listed_reaches c source_dir entries root es :
  Matcher.listed c source_dir entries root es ->
  Matcher.reaches source_dir (Matcher.Dir entries) root es.
Proof.
  unfold Matcher.listed. destruct (Matcher.recursive c).
  - auto.
  - intros [-> ->]. constructor.
Qed.

(** X7. In a tree whose entry names are plain, every path that
    [find_matching_items] returns, file or directory, starts with
    [source_dir]: nothing outside the source tree is ever returned. *)
Theorem X7_results_lie_under_source_dir :
  forall (source_dir : string) (entries : list (string * Matcher.node))
         (c : Matcher.config) (p : string),
    Variants.well_named (Matcher.Dir entries) ->
    In p (fst (Matcher.find_matching_items source_dir entries c))
    \/ In p (snd (Matcher.find_matching_items source_dir entries c)) ->
    String.prefix source_dir p = true.
Proof.
  intros source_dir entries c p Hw Hin.
  destruct (Matcher.criteria_valid c) eqn:Hv.
  - destruct Hin as [Hin|Hin].
    + apply (find_files _ _ _ _ Hv) in Hin.
      destruct Hin as [root [es [f [Hl [Hf [-> _]]]]]].
      destruct (reaches_under _ _ _ _ (listed_reaches _ _ _ _ _ Hl) Hw)
        as [Hp Hn].
      eapply prefix_trans; [exact Hp|].
      apply join_prefix. exact (plain_name_of _ _ _ Hn Hf).
    + apply find_dirs in Hin; [|assumption|].
      * destruct Hin as [root [es [d [sub [Hl [Hd [-> _]]]]]]].
        destruct (reaches_under _ _ _ _ (listed_reaches _ _ _ _ _ Hl) Hw)
          as [Hp Hn].
        eapply prefix_trans; [exact Hp|].
        apply join_prefix. exact (plain_name_of _ _ _ Hn Hd).
      * intros _. now inversion Hw.
  - rewrite (find_invalid _ _ _ Hv) in Hin. destruct Hin as [[]|[]].
Qed.

Lemma well_namedb_sound (n : Matcher.node) :
  Variants.well_namedb n = true -> Variants.well_named n.
Proof.
  induction n as [|es IH] using node_nested_ind; intros H.
  - constructor.
  - cbn [Variants.well_namedb] in H. rewrite forallb_forall in H.
    rewrite Forall_forall in IH. constructor.
    + unfold Matcher.plain_names. apply Forall_forall. intros e He.
      specialize (H e He). apply andb_true_iff in H.
      destruct H as [H _]. now apply negb_true_iff in H.
    + intros d sub Hin. apply (IH _ Hin).
      specialize (H _ Hin). apply andb_true_iff in H. now destruct H.
Qed.

Lemma X7_witness : String.prefix "." "./sub/x.tmp" = true.
Proof.
  apply (X7_results_lie_under_source_dir
           "." Samples.tree Samples.all_but_sub "./sub/x.tmp").
  - apply well_namedb_sound. reflexivity.
  - left. simpl. tauto.
Defined.

(** X8. The results keep the order of the walk, the source directory
    first: the list of files of the recursive search starts with the list
    the single-level search returns, and so does (entry names being plain)
    the list of directories. *)
Theorem X8_recursive_results_start_with_single_level_ones :
  forall (source_dir : string) (entries : list (string * Matcher.node))
         (c : Matcher.config),
    (exists deeper,
        fst (Matcher.find_matching_items source_dir entries
               (Variants.set_recursive c true))
        = fst (Matcher.find_matching_items source_dir entries
                 (Variants.set_recursive c false)) ++ deeper)
    /\ (Matcher.plain_names entries ->
        exists deeper,
          snd (Matcher.find_matching_items source_dir entries
                 (Variants.set_recursive c true))
          = snd (Matcher.find_matching_items source_dir entries
                   (Variants.set_recursive c false)) ++ deeper).
Proof.
  intros source_dir entries c.
  destruct (Matcher.criteria_valid (Variants.set_recursive c false)) eqn:Hv.
  - assert (Hv' : Matcher.criteria_valid (Variants.set_recursive c true) = true)
      by exact Hv.
    split.
    + rewrite (find_files_list _ _ _ Hv), (find_files_list _ _ _ Hv').
      cbn [Variants.set_recursive Matcher.recursive Matcher.walk flat_map].
      eexists. reflexivity.
    + intros Hn.
      rewrite (find_dirs_list _ _ _ Hv), (find_dirs_list _ _ _ Hv').
      cbn [Variants.set_recursive Matcher.recursive Matcher.walk flat_map].
      eexists. f_equal. f_equal. apply filter_ext_in. intros d Hd.
      apply in_dirnames in Hd. destruct Hd as [sub Hd].
      now rewrite (basename_join _ _ (plain_name_of _ _ _ Hn Hd)).
  - rewrite (find_invalid _ _ _ Hv).
    assert (Hv' : Matcher.criteria_valid (Variants.set_recursive c true) = false)
      by exact Hv.
    rewrite (find_invalid _ _ _ Hv'). split; [|intros _]; now exists [].
Qed.

Lemma X8_witness :
  exists deeper,
    snd (Matcher.find_matching_items "." Samples.tree
           (Variants.set_recursive Samples.all_but_sub true))
    = snd (Matcher.find_matching_items "." Samples.tree
             (Variants.set_recursive Samples.all_but_sub false)) ++ deeper.
Proof.
  apply (proj2 (X8_recursive_results_start_with_single_level_ones
                  "." Samples.tree Samples.all_but_sub)).
  unfold Matcher.plain_names. repeat (constructor; [reflexivity|]).
  constructor.
Defined.

(** ** Writing of extensions and of names *)

(** X9. Extensions may be written with or without the dot and in any case:
    two calls whose [extensions] and [exclude_extensions] normalize to the
    same lists return the same result.  So [tmp], [.tmp] and [.TMP] are
    interchangeable. *)
Theorem X9_extension_spelling_is_irrelevant :
  (forall (source_dir : string) (entries : list (string * Matcher.node))
          (c : Matcher.config) (exts excl_exts : olist),
      Matcher.normalize exts = Matcher.normalize (Matcher.extensions c) ->
      Matcher.normalize excl_exts
      = Matcher.normalize (Matcher.exclude_extensions c) ->
      Matcher.find_matching_items source_dir entries
        (Variants.with_extensions c exts excl_exts)
      = Matcher.find_matching_items source_dir entries c)
  /\ Matcher.normalize (Some ["tmp"]) = Matcher.normalize (Some [".tmp"])
  /\ Matcher.normalize (Some [".TMP"]) = Matcher.normalize (Some [".tmp"]).
Proof.
  split; [|split; reflexivity].
  intros source_dir entries c exts excl_exts He Hx.
  assert (Hte : truthy exts = truthy (Matcher.extensions c)).
  { rewrite <- (truthy_normalize exts), He. apply truthy_normalize. }
  assert (Htx : truthy excl_exts = truthy (Matcher.exclude_extensions c)).
  { rewrite <- (truthy_normalize excl_exts), Hx. apply truthy_normalize. }
  unfold Matcher.find_matching_items, Matcher.has_inclusion_criteria,
    Matcher.has_exclusion_criteria.
  cbn [Variants.with_extensions Matcher.extensions Matcher.exclude_extensions
       Matcher.exact_match Matcher.include_all_files Matcher.include_dirs
       Matcher.target_dirs Matcher.exclude_exact Matcher.exclude_contains
       Matcher.exclude_dirs Matcher.exclude_all_but Matcher.recursive].
  rewrite Hte, Htx, He, Hx. reflexivity.
Qed.

Lemma X9_witness :
  Matcher.find_matching_items "." Samples.tree
    (Variants.with_extensions Samples.normal_tmp (Some [".TMP"]) None)
  = Matcher.find_matching_items "." Samples.tree Samples.normal_tmp.
Proof.
  apply (proj1 X9_extension_spelling_is_irrelevant
               "." Samples.tree Samples.normal_tmp (Some [".TMP"]) None);
    reflexivity.
Defined.

Lemma eqb_lower_sep (d : ascii) :
  Ascii.eqb (lower_char d) sep = Ascii.eqb d sep.
Proof. destruct d as [[] [] [] [] [] [] [] []]; reflexivity. Qed.

Lemma eqb_lower_extsep (d : ascii) :
  Ascii.eqb (lower_char d) extsep = Ascii.eqb d extsep.
Proof. destruct d as [[] [] [] [] [] [] [] []]; reflexivity. Qed.

Lemma rfind_lower (c : ascii) (s : string) :
  (forall d, Ascii.eqb (lower_char d) c = Ascii.eqb d c) ->
  rfind c (lower s) = rfind c s.
Proof.
  intros Hc. induction s as [|d s IH]; simpl; [reflexivity|].
  now rewrite IH, Hc.
Qed.

Lemma get_lower (n : nat) (s : string) :
  String.get n (lower s) = option_map lower_char (String.get n s).
Proof.
  revert n. induction s as [|d s IH]; intros [|n]; simpl; try reflexivity.
  apply IH.
Qed.

Lemma has_non_dot_lower (p : string) (i n : nat) :
  has_non_dot (lower p) i n = has_non_dot p i n.
Proof.
  revert i. induction n as [|n IH]; intros i; simpl; [reflexivity|].
  rewrite get_lower. destruct (String.get i p) as [d|]; simpl; [|reflexivity].
  rewrite eqb_lower_extsep, IH. reflexivity.
Qed.

Lemma substring_lower (n m : nat) (s : string) :
  String.substring n m (lower s) = lower (String.substring n m s).
Proof.
  revert n m. induction s as [|d s IH]; intros [|n] [|m]; simpl;
    try reflexivity.
  - now rewrite IH.
  - apply IH.
  - apply IH.
Qed.

Lemma length_lower (s : string) : String.length (lower s) = String.length s.
Proof. induction s as [|d s IH]; simpl; [reflexivity | now rewrite IH]. Qed.

(** [os.path.splitext] commutes with lower-casing. *)
Lemma splitext_lower (p : string) :
  splitext (lower p) = (lower (fst (splitext p)), lower (snd (splitext p))).
Proof.
  unfold splitext.
  rewrite (rfind_lower sep p eqb_lower_sep),
          (rfind_lower extsep p eqb_lower_extsep), has_non_dot_lower.
  destruct (rfind extsep p >? rfind sep p)%Z; [|reflexivity].
  destruct (has_non_dot p _ _); [|reflexivity].
  unfold take, drop. now rewrite !substring_lower, length_lower.
Qed.

(** X10. File names are compared without regard to case, exact names
    apart: when neither [exact_match] nor [exclude_exact] is given, two
    names that differ only in case are both selected or both not. *)
Theorem X10_names_differing_in_case_are_treated_alike :
  forall (c : Matcher.config) (f g : string),
    truthy (Matcher.exact_match c) = false ->
    truthy (Matcher.exclude_exact c) = false ->
    lower f = lower g ->
    Matcher.file_selected c (Matcher.normalize (Matcher.extensions c))
      (Matcher.normalize (Matcher.exclude_extensions c)) f
    = Matcher.file_selected c (Matcher.normalize (Matcher.extensions c))
        (Matcher.normalize (Matcher.exclude_extensions c)) g.
Proof.
  intros c f g Hm Hx Hfg.
  assert (Hext : lower (snd (splitext f)) = lower (snd (splitext g))).
  { transitivity (snd (splitext (lower f))).
    - now rewrite splitext_lower.
    - rewrite Hfg. now rewrite splitext_lower. }
  unfold Matcher.file_selected, Matcher.file_matches_criteria,
    Matcher.file_matches_exclusion, omem.
  rewrite Hm, Hx, Hext, Hfg. reflexivity.
Qed.

Lemma X10_witness :
  Matcher.file_selected Samples.normal_tmp
    (Matcher.normalize (Matcher.extensions Samples.normal_tmp))
    (Matcher.normalize (Matcher.exclude_extensions Samples.normal_tmp))
    "b.TMP"
  = Matcher.file_selected Samples.normal_tmp
      (Matcher.normalize (Matcher.extensions Samples.normal_tmp))
      (Matcher.normalize (Matcher.exclude_extensions Samples.normal_tmp))
      "B.tmp".
Proof.
  apply (X10_names_differing_in_case_are_treated_alike
           Samples.normal_tmp "b.TMP" "B.tmp"); reflexivity.
Defined.

Lemma substring_split (n : nat) (s : string) :
  (String.substring 0 n s ++ String.substring n (String.length s - n) s)%string
  = s.
Proof.
  revert n. induction s as [|c s IH]; intros [|n]; simpl; try reflexivity.
  - now rewrite substring_all.
  - now rewrite IH.
Qed.

(** [root + ext == path] *)
Lemma splitext_concat (p : string) :
  (fst (splitext p) ++ snd (splitext p))%string = p.
Proof.
  unfold splitext.
  assert (Hnil : (p ++ EmptyString)%string = p).
  { induction p as [|c p IH]; simpl; [reflexivity | now rewrite IH]. }
  destruct (rfind extsep p >? rfind sep p)%Z; [|exact Hnil].
  destruct (has_non_dot p _ _); [|exact Hnil].
  apply substring_split.
Qed.

Lemma lower_append (u v : string) :
  lower (u ++ v) = (lower u ++ lower v)%string.
Proof. induction u as [|c u IH]; simpl; [reflexivity | now rewrite IH]. Qed.

Lemma criteria_with_contains (c : Matcher.config) (exts : olist)
      (f : string) :
  Matcher.contains_extension c = true ->
  Matcher.file_matches_criteria c exts f
  = Matcher.include_all_files c
    || omem f (Matcher.exact_match c)
    || mem (lower (snd (splitext f))) (elems exts)
    || existsb (fun ext => str_in ext (lower f)) (elems exts).
Proof.
  intros Hce. unfold Matcher.file_matches_criteria. rewrite Hce.
  destruct (Matcher.include_all_files c); [reflexivity|].
  destruct (omem f (Matcher.exact_match c)); [reflexivity|].
  destruct (truthy exts) eqn:Ht.
  - destruct (mem _ (elems exts)); reflexivity.
  - now rewrite (truthy_false_elems _ Ht).
Qed.

(** X11. With [contains_extension] the test of the extension proper adds
    nothing: a file matches the inclusion test exactly when
    [include_all_files] is set, or it is an exact name, or some normalized
    extension occurs somewhere in its lower-cased name.  In particular
    every file matched without [contains_extension] is matched with it. *)
Theorem X11_contains_extension_widens_the_match :
  forall (c : Matcher.config) (f : string),
    Matcher.contains_extension c = true ->
    (Matcher.file_matches_criteria
       c (Matcher.normalize (Matcher.extensions c)) f = true
     <->
     (Matcher.include_all_files c = true
      \/ In f (elems (Matcher.exact_match c))
      \/ exists e, In e (elems (Matcher.normalize (Matcher.extensions c)))
                   /\ occurs_in e (lower f)))
    /\ (forall c',
           Matcher.include_all_files c' = Matcher.include_all_files c ->
           Matcher.exact_match c' = Matcher.exact_match c ->
           Matcher.file_matches_criteria
             c' (Matcher.normalize (Matcher.extensions c)) f = true ->
           Matcher.file_matches_criteria
             c (Matcher.normalize (Matcher.extensions c)) f = true).
Proof.
  intros c f Hce.
  set (exts := Matcher.normalize (Matcher.extensions c)).
  assert (Hsub : In (lower (snd (splitext f))) (elems exts) ->
                 exists e, In e (elems exts) /\ occurs_in e (lower f)).
  { intros Hin. exists (lower (snd (splitext f))). split; [assumption|].
    exists (lower (fst (splitext f))), EmptyString.
    rewrite <- (splitext_concat f) at 1. rewrite lower_append. f_equal.
    generalize (lower (snd (splitext f))). intros s.
    induction s as [|a s IH]; simpl; [reflexivity | now rewrite <- IH]. }
  split.
  - rewrite (criteria_with_contains _ _ _ Hce).
    rewrite !orb_true_iff, omem_In, mem_In, existsb_exists. split.
    + intros [[[H|H]|H]|[e [He Hs]]]; auto.
      right; right. exists e. split; [assumption|]. now apply str_in_spec.
    + intros [H|[H|[e [He Hs]]]]; auto.
      right. exists e. split; [assumption|]. now apply str_in_spec.
  - intros c' Ha Hm. rewrite (criteria_with_contains _ _ _ Hce).
    unfold Matcher.file_matches_criteria. rewrite Ha, Hm.
    destruct (Matcher.include_all_files c); [reflexivity|].
    destruct (omem f (Matcher.exact_match c)); [reflexivity|].
    destruct (truthy exts); [|discriminate].
    destruct (mem (lower (snd (splitext f))) (elems exts)); [reflexivity|].
    cbn [orb]. destruct (Matcher.contains_extension c'); [tauto | discriminate].
Qed.

Lemma X11_witness :
  Matcher.file_matches_criteria Samples.msg_anywhere
    (Matcher.normalize (Matcher.extensions Samples.msg_anywhere))
    "report.msg.1" = true
  <->
  (Matcher.include_all_files Samples.msg_anywhere = true
   \/ In "report.msg.1" (elems (Matcher.exact_match Samples.msg_anywhere))
   \/ exists e,
       In e (elems (Matcher.normalize (Matcher.extensions Samples.msg_anywhere)))
       /\ occurs_in e (lower "report.msg.1")).
Proof.
  apply (proj1 (X11_contains_extension_widens_the_match
                  Samples.msg_anywhere "report.msg.1" eq_refl)).
Defined.

(** ** More on the pattern file *)

Lemma parse_fields (content : string) (p : Parser.patterns) :
  Parser.parse_patterns_file (Some content) = Some p ->
  let ls := Parser.pattern_lines (Parser.readlines content) in
  Parser.extensions p = map lower (filter Parser.is_extension_line ls)
  /\ Parser.directories p = map drop_last (filter Parser.is_directory_line ls)
  /\ Parser.exact p = filter Parser.is_exact_line ls
  /\ Parser.contains p = map drop_first (filter Parser.is_contains_line ls).
Proof.
  cbv zeta. unfold Parser.parse_patterns_file, Parser.parse_lines.
  rewrite parse_lines_from. intros H. inversion H; subst p; clear H. cbn.
  repeat split.
Qed.

(** X12. The extensions that [parse_patterns_file] returns are already in
    the form the matcher normalizes to, a dot first and lower case: passing
    them on as [extensions] or [exclude_extensions], normalization changes
    nothing. *)
Theorem X12_parsed_extensions_are_normalized :
  forall (content : string) (p : Parser.patterns),
    Parser.parse_patterns_file (Some content) = Some p ->
    Forall (fun e => startswith e "." = true /\ lower e = e)
           (Parser.extensions p)
    /\ Matcher.normalize (Some (Parser.extensions p))
       = Some (Parser.extensions p).
Proof.
  intros content p Hp. destruct (parse_fields _ _ Hp) as [He _].
  assert (Hall : Forall (fun e => startswith e "." = true /\ lower e = e)
                        (Parser.extensions p)).
  { rewrite He. apply Forall_forall. intros e Hin.
    apply in_map_iff in Hin. destruct Hin as [l [<- Hl]].
    apply filter_In in Hl. destruct Hl as [_ Hl].
    unfold Parser.is_extension_line in Hl.
    apply startswith_char in Hl. destruct Hl as [t ->]. split.
    - apply startswith_char. now exists (lower t).
    - apply lower_idem. }
  split; [assumption|].
  unfold Matcher.normalize.
  destruct (Parser.extensions p) as [|e es] eqn:E; [reflexivity|].
  cbn [truthy elems]. f_equal.
  rewrite <- (map_id (e :: es)) at 2. apply map_ext_in. intros x Hx.
  rewrite Forall_forall in Hall. destruct (Hall x Hx) as [Hdot Hlow].
  unfold Matcher.normalize_ext. now rewrite Hdot.
Qed.

Lemma X12_witness :
  Forall (fun e => startswith e "." = true /\ lower e = e) [".bak"]
  /\ Matcher.normalize (Some [".bak"]) = Some [".bak"].
Proof.
  apply (X12_parsed_extensions_are_normalized
           Parser.sample_file
           (Parser.mk_patterns [".bak"] ["logs"] ["notes.txt"] ["draft"])).
  reflexivity.
Defined.

Lemma readlines_nonempty (s : string) :
  s <> EmptyString -> Parser.readlines s <> [].
Proof.
  destruct s as [|c s]; [congruence|]. intros _. simpl.
  destruct (Ascii.eqb c Parser.LF); [discriminate|].
  destruct (Ascii.eqb c Parser.CR); [discriminate|].
  destruct (Parser.readlines s); discriminate.
Qed.

Lemma readlines_cons (c : ascii) (rest : string) :
  Parser.readlines (String c rest)
  = if Ascii.eqb c Parser.LF
    then String Parser.LF EmptyString :: Parser.readlines rest
    else if Ascii.eqb c Parser.CR then
      String Parser.LF EmptyString
        :: match rest with
           | String d rest' =>
               if Ascii.eqb d Parser.LF then Parser.readlines rest'
               else Parser.readlines rest
           | EmptyString => []
           end
    else match Parser.readlines rest with
         | [] => [String c EmptyString]
         | l :: ls => String c l :: ls
         end.
Proof. reflexivity. Qed.

Lemma ends_with_lf_tail (c d : ascii) (r : string) :
  endswith_char (String c (String d r)) Parser.LF = true ->
  endswith_char (String d r) Parser.LF = true.
Proof. intros H. exact H. Qed.

(** A lone carriage return ends a line, as a line feed does, and a
    carriage return followed by a line feed ends one line, not two. *)
Example readlines_universal_newlines :
  Parser.readlines
    (".bak # old" ++ String Parser.CR "logs/"
       ++ String Parser.CR (String Parser.LF "x"))%string
  = [(".bak # old" ++ String Parser.LF "")%string;
     ("logs/" ++ String Parser.LF "")%string; "x"]
  /\ Parser.directories
       (Parser.parse_lines
          (Parser.readlines
             (".bak # old" ++ String Parser.CR "logs/"
                ++ String Parser.LF "")%string))
     = ["logs"].
Proof. split; reflexivity. Qed.

(** Cutting a text after a line feed cuts its lines: the carriage returns
    of the first part have their line feed, if any, in the first part. *)
Lemma readlines_app_bounded (n : nat) :
  forall a b : string,
    String.length a <= n ->
    a = EmptyString \/ endswith_char a Parser.LF = true ->
    Parser.readlines (a ++ b) = Parser.readlines a ++ Parser.readlines b.
Proof.
  induction n as [|n IH]; intros a b Hlen H.
  - destruct a; [reflexivity | simpl in Hlen; lia].
  - destruct a as [|c rest]; [reflexivity|].
    destruct H as [H|H]; [discriminate|].
    simpl in Hlen.
    change (String c rest ++ b)%string with (String c (rest ++ b)).
    rewrite !readlines_cons.
    destruct (Ascii.eqb c Parser.LF) eqn:Ec.
    + cbn [app]. f_equal. apply IH; [lia|].
      destruct rest as [|d r]; [now left | right; exact H].
    + destruct rest as [|d r].
      { simpl in H. congruence. }
      apply ends_with_lf_tail in H.
      destruct (Ascii.eqb c Parser.CR).
      * cbn [app]. f_equal.
        change (String d r ++ b)%string with (String d (r ++ b)).
        destruct (Ascii.eqb d Parser.LF) eqn:Ed; rewrite ?Ed.
        -- apply IH; [simpl in Hlen; lia|].
           destruct r as [|e r]; [now left | right; exact H].
        -- change (String d (r ++ b)) with (String d r ++ b)%string.
           apply IH; [lia | now right].
      * assert (Hrec : Parser.readlines (String d r ++ b)
                       = Parser.readlines (String d r) ++ Parser.readlines b)
          by (apply IH; [lia | now right]).
        assert (Hne : Parser.readlines (String d r) <> [])
          by (apply readlines_nonempty; discriminate).
        rewrite Hrec.
        destruct (Parser.readlines (String d r)) as [|l ls]; [congruence|].
        reflexivity.
Qed.

Lemma readlines_app (a b : string) :
  a = EmptyString \/ endswith_char a Parser.LF = true ->
  Parser.readlines (a ++ b) = Parser.readlines a ++ Parser.readlines b.
Proof. apply (readlines_app_bounded (String.length a)). lia. Qed.

(** X13. Pattern files concatenate: when the first of two files is empty or
    ends with a newline, parsing the two put together gives, key by key, the
    patterns of the first followed by those of the second. *)
Theorem X13_pattern_files_concatenate :
  forall (a b : string) (pa pb : Parser.patterns),
    a = EmptyString \/ endswith_char a Parser.LF = true ->
    Parser.parse_patterns_file (Some a) = Some pa ->
    Parser.parse_patterns_file (Some b) = Some pb ->
    Parser.parse_patterns_file (Some (a ++ b)%string)
    = Some (Parser.mk_patterns
              (Parser.extensions pa ++ Parser.extensions pb)
              (Parser.directories pa ++ Parser.directories pb)
              (Parser.exact pa ++ Parser.exact pb)
              (Parser.contains pa ++ Parser.contains pb)).
Proof.
  intros a b pa pb Ha Hpa Hpb.
  destruct (parse_fields _ _ Hpb) as [Eb [Db [Xb Kb]]].
  unfold Parser.parse_patterns_file, Parser.parse_lines in *.
  inversion Hpa as [Hpa']. clear Hpa.
  rewrite (readlines_app _ _ Ha), fold_left_app, Hpa'.
  rewrite parse_lines_from. now rewrite Eb, Db, Xb, Kb.
Qed.

Lemma X13_witness :
  Parser.parse_patterns_file
    (Some (Parser.sample_file ++ Parser.sample_file)%string)
  = Some (Parser.mk_patterns
            ([".bak"] ++ [".bak"]) (["logs"] ++ ["logs"])
            (["notes.txt"] ++ ["notes.txt"]) (["draft"] ++ ["draft"])).
Proof.
  apply (X13_pattern_files_concatenate
           Parser.sample_file Parser.sample_file
           (Parser.mk_patterns [".bak"] ["logs"] ["notes.txt"] ["draft"])
           (Parser.mk_patterns [".bak"] ["logs"] ["notes.txt"] ["draft"]));
    [right|..]; reflexivity.
Defined.

Lemma has_char_app (c : ascii) (u v : string) :
  has_char c (u ++ v)%string = has_char c u || has_char c v.
Proof.
  induction u as [|d u IH]; simpl; [reflexivity|].
  now rewrite IH, orb_assoc.
Qed.

Lemma clean_no_hash (line : string) :
  has_char "#" (Parser.clean line) = false.
Proof.
  unfold Parser.clean.
  destruct (split1_head_spec "#" line) as [H _].
  destruct (strip_spec (split1_head "#" line)) as [_ [_ [pre [post [_ [_ E]]]]]].
  rewrite E, !has_char_app in H.
  apply orb_false_iff in H. destruct H as [_ H].
  apply orb_false_iff in H. now destruct H.
Qed.

Lemma clean_trimmed (line : string) :
  is_space_opt (first_char (Parser.clean line)) = false
  /\ is_space_opt (last_char (Parser.clean line)) = false.
Proof.
  unfold Parser.clean.
  destruct (strip_spec (split1_head "#" line)) as [H1 [H2 _]]. now split.
Qed.

Lemma in_pattern_lines (l : string) (lines : list string) :
  In l (Parser.pattern_lines lines) ->
  is_empty l = false /\ exists line, l = Parser.clean line.
Proof.
  unfold Parser.pattern_lines. intros H. apply filter_In in H.
  destruct H as [H E]. apply negb_true_iff in E. split; [assumption|].
  apply in_map_iff in H. destruct H as [line [<- _]]. now exists line.
Qed.

Lemma has_hash_lower (s : string) : has_char "#" (lower s) = has_char "#" s.
Proof.
  induction s as [|d s IH]; simpl; [reflexivity|]. rewrite IH. f_equal.
  destruct d as [[] [] [] [] [] [] [] []]; reflexivity.
Qed.

Lemma has_char_drop_last (c : ascii) (s : string) :
  has_char c s = false -> has_char c (drop_last s) = false.
Proof.
  induction s as [|d s IH]; [reflexivity|].
  destruct s as [|e s]; [reflexivity|].
  intros H. cbn [has_char] in H. apply orb_false_iff in H.
  destruct H as [Hd Hs]. cbn [drop_last has_char]. rewrite Hd. cbn [orb].
  now apply IH.
Qed.

Lemma has_char_drop_first (c : ascii) (s : string) :
  has_char c s = false -> has_char c (drop_first s) = false.
Proof.
  destruct s as [|d s]; [reflexivity|]. simpl. intros H.
  apply orb_false_iff in H. now destruct H.
Qed.

(** X14. What [parse_patterns_file] stores: no pattern of any kind contains
    a [#] (a comment cannot be escaped), and an exact name is never empty,
    has no white space at either end, does not start with a dot or an
    asterisk and does not end with a slash. *)
Theorem X14_stored_patterns_are_clean :
  forall (content : string) (p : Parser.patterns),
    Parser.parse_patterns_file (Some content) = Some p ->
    Forall (fun s => has_char "#" s = false)
           (Parser.extensions p ++ Parser.directories p
            ++ Parser.exact p ++ Parser.contains p)
    /\ Forall (fun s => s <> EmptyString
                        /\ startswith s "." = false
                        /\ startswith s "*" = false
                        /\ endswith_char s "/" = false
                        /\ is_space_opt (first_char s) = false
                        /\ is_space_opt (last_char s) = false)
              (Parser.exact p).
Proof.
  intros content p Hp. destruct (parse_fields _ _ Hp) as [He [Hd [Hx Hk]]].
  rewrite He, Hd, Hx, Hk. split.
  - rewrite !Forall_app. repeat split; apply Forall_forall; intros s Hs.
    + apply in_map_iff in Hs. destruct Hs as [l [<- Hl]].
      apply filter_In in Hl. destruct Hl as [Hl _].
      apply in_pattern_lines in Hl. destruct Hl as [_ [line ->]].
      rewrite has_hash_lower. apply clean_no_hash.
    + apply in_map_iff in Hs. destruct Hs as [l [<- Hl]].
      apply filter_In in Hl. destruct Hl as [Hl _].
      apply in_pattern_lines in Hl. destruct Hl as [_ [line ->]].
      apply has_char_drop_last, clean_no_hash.
    + apply filter_In in Hs. destruct Hs as [Hl _].
      apply in_pattern_lines in Hl. destruct Hl as [_ [line ->]].
      apply clean_no_hash.
    + apply in_map_iff in Hs. destruct Hs as [l [<- Hl]].
      apply filter_In in Hl. destruct Hl as [Hl _].
      apply in_pattern_lines in Hl. destruct Hl as [_ [line ->]].
      apply has_char_drop_first, clean_no_hash.
  - apply Forall_forall. intros s Hs. apply filter_In in Hs.
    destruct Hs as [Hl Hs]. apply in_pattern_lines in Hl.
    destruct Hl as [Hne [line ->]].
    unfold Parser.is_exact_line in Hs.
    apply andb_true_iff in Hs. destruct Hs as [Hs H3].
    apply andb_true_iff in Hs. destruct Hs as [H1 H2].
    apply negb_true_iff in H1, H2, H3.
    destruct (clean_trimmed line) as [T1 T2].
    repeat split; try assumption.
    intros E. rewrite E in Hne. discriminate.
Qed.

Lemma X14_witness :
  Forall (fun s => has_char "#" s = false)
         ([".bak"] ++ ["logs"] ++ ["notes.txt"] ++ ["draft"])
  /\ Forall (fun s => s <> EmptyString
                      /\ startswith s "." = false
                      /\ startswith s "*" = false
                      /\ endswith_char s "/" = false
                      /\ is_space_opt (first_char s) = false
                      /\ is_space_opt (last_char s) = false)
            ["notes.txt"].
Proof.
  apply (X14_stored_patterns_are_clean
           Parser.sample_file
           (Parser.mk_patterns [".bak"] ["logs"] ["notes.txt"] ["draft"])).
  reflexivity.
Defined.

(** ** What [main] hands to the matcher *)

Ltac split_truthy :=
  repeat match goal with
    | |- context [truthy ?o] => is_var o; destruct (truthy o); cbn
    | |- context [if ?b then _ else _] => is_var b; destruct b; cbn
    | |- context [?b && _] => is_var b; destruct b; cbn
    | |- context [?b || _] => is_var b; destruct b; cbn
    end.

Lemma resolve_keeps_inclusion (fp : Parser.patterns) (a : Cli.Args) :
  Cli.has_inclusion_criteria (Cli.resolve fp (Cli.initial_locals a)) = true ->
  Matcher.has_inclusion_criteria
    (Cli.to_config (Cli.resolve fp (Cli.initial_locals a))) = true.
Proof.
  unfold Cli.resolve, Cli.resolve_exclude, Cli.resolve_excludeFiles,
    Cli.resolve_excludeDirs, Cli.resolve_normal, Cli.when,
    Matcher.has_inclusion_criteria.
  destruct fp as [[|e es] [|d ds] [|x xs] [|k ks]]; destruct a; cbn;
    split_truthy; try reflexivity; try (intros H; exact H).
Qed.

Lemma resolve_keeps_exclusion (fp : Parser.patterns) (a : Cli.Args) :
  Cli.has_exclusion_criteria (Cli.resolve fp (Cli.initial_locals a)) = true ->
  Matcher.has_exclusion_criteria
    (Cli.to_config (Cli.resolve fp (Cli.initial_locals a))) = true.
Proof.
  unfold Cli.resolve, Cli.resolve_exclude, Cli.resolve_excludeFiles,
    Cli.resolve_excludeDirs, Cli.resolve_normal, Cli.when,
    Matcher.has_exclusion_criteria.
  destruct fp as [[|e es] [|d ds] [|x xs] [|k ks]]; destruct a; cbn;
    split_truthy; try reflexivity; try (intros H; exact H).
Qed.

Lemma validated_config (l : Cli.locals) (c : Matcher.config) :
  match Cli.validate l with
  | Cli.ParserError m => Cli.ParserError m
  | Cli.Return n => Cli.Return n
  | Cli.Continue l0 => Cli.Continue (Cli.to_config l0)
  end = Cli.Continue c ->
  (Cli.has_inclusion_criteria l = true ->
   Matcher.has_inclusion_criteria (Cli.to_config l) = true) ->
  (Cli.has_exclusion_criteria l = true ->
   Matcher.has_exclusion_criteria (Cli.to_config l) = true) ->
  Matcher.criteria_valid c = true
  /\ (Matcher.include_dirs c = true -> truthy (Matcher.target_dirs c) = true)
  /\ (Matcher.contains_extension c = true ->
      truthy (Matcher.extensions c) = true).
Proof.
  unfold Cli.validate.
  destruct (negb (Cli.include_all_files l) && _ && _ && _) eqn:E1;
    [discriminate|].
  destruct (Cli.exclude_all_but (Cli.args l) && _) eqn:E2; [discriminate|].
  destruct (Cli.include_dirs (Cli.args l) && _) eqn:E3; [discriminate|].
  destruct (Cli.contains_extension (Cli.args l) && _) eqn:E4; [discriminate|].
  intros H Hi He. inversion H; subst c; clear H.
  split; [|split].
  - unfold Matcher.criteria_valid.
    assert (Hiaf : Cli.include_all_files l = true ->
                   Matcher.has_inclusion_criteria (Cli.to_config l) = true).
    { intros Hf. unfold Matcher.has_inclusion_criteria. cbn. rewrite Hf.
      now rewrite !orb_true_r. }
    change (Matcher.exclude_all_but (Cli.to_config l))
      with (Cli.exclude_all_but (Cli.args l)).
    destruct (Cli.include_all_files l), (Cli.exclude_all_but (Cli.args l)),
      (Cli.has_inclusion_criteria l), (Cli.has_exclusion_criteria l);
      cbn in *; try discriminate;
      rewrite ?Hi, ?He, ?Hiaf by reflexivity; cbn; rewrite ?andb_false_r;
      reflexivity.
  - cbn. intros Hd. rewrite Hd in E3. cbn in E3.
    now apply negb_false_iff in E3.
  - cbn. intros Hc. rewrite Hc in E4. cbn in E4.
    now apply negb_false_iff in E4.
Qed.

(** X15. Whenever [main] gets as far as calling [find_matching_items], the
    arguments it passes satisfy the criteria check of that function, so its
    two early returns cannot fire; moreover [include_dirs] comes with
    target directories, [contains_extension] with extensions, at most one
    pattern-exclusion flag is set, and a copy or move has a destination. *)
Theorem X15_main_passes_a_valid_configuration :
  forall (a : Cli.Args) (pfile : option string) (c : Matcher.config),
    Cli.main_config a pfile = Cli.Continue c ->
    Matcher.criteria_valid c = true
    /\ (Matcher.include_dirs c = true -> truthy (Matcher.target_dirs c) = true)
    /\ (Matcher.contains_extension c = true ->
        truthy (Matcher.extensions c) = true)
    /\ Cli.pattern_exclusion_flags a <= 1
    /\ (Cli.operation a = "copy" \/ Cli.operation a = "move" ->
        Cli.truthy_str (Cli.dest_dir a) = true).
Proof.
  intros a pfile c. unfold Cli.main_config.
  destruct ((String.eqb (Cli.operation a) "copy"
             || String.eqb (Cli.operation a) "move")
            && negb (Cli.truthy_str (Cli.dest_dir a))) eqn:Ed; [discriminate|].
  destruct (1 <? Cli.pattern_exclusion_flags a) eqn:Ef; [discriminate|].
  intros H.
  assert (Hc : Matcher.criteria_valid c = true
               /\ (Matcher.include_dirs c = true ->
                   truthy (Matcher.target_dirs c) = true)
               /\ (Matcher.contains_extension c = true ->
                   truthy (Matcher.extensions c) = true)).
  { destruct (Cli.truthy_str (Cli.patterns_file a)).
    - destruct pfile as [content|]; [|discriminate].
      cbn [Parser.parse_patterns_file] in H.
      apply (validated_config _ _ H).
      + apply resolve_keeps_inclusion.
      + apply resolve_keeps_exclusion.
    - apply (validated_config _ _ H).
      + unfold Matcher.has_inclusion_criteria. destruct a; cbn.
        split_truthy; try reflexivity; intros E; exact E.
      + unfold Matcher.has_exclusion_criteria. destruct a; cbn.
        split_truthy; try reflexivity; intros E; exact E. }
  destruct Hc as [H1 [H2 H3]]. repeat split; try assumption.
  - apply Nat.ltb_ge in Ef. exact Ef.
  - intros Hop.
    assert (Ho : String.eqb (Cli.operation a) "copy"
                 || String.eqb (Cli.operation a) "move" = true).
    { destruct Hop as [-> | ->]; reflexivity. }
    rewrite Ho in Ed. cbn in Ed. now apply negb_false_iff in Ed.
Qed.

Lemma X15_witness :
  Matcher.criteria_valid Samples.excluded_all_but = true
  /\ (Matcher.include_dirs Samples.excluded_all_but = true ->
      truthy (Matcher.target_dirs Samples.excluded_all_but) = true)
  /\ (Matcher.contains_extension Samples.excluded_all_but = true ->
      truthy (Matcher.extensions Samples.excluded_all_but) = true)
  /\ Cli.pattern_exclusion_flags (Samples.args_exclude true) <= 1
  /\ (Cli.operation (Samples.args_exclude true) = "copy"
      \/ Cli.operation (Samples.args_exclude true) = "move" ->
      Cli.truthy_str (Cli.dest_dir (Samples.args_exclude true)) = true).
Proof.
  apply (X15_main_passes_a_valid_configuration
           (Samples.args_exclude true) (Some ".bak") Samples.excluded_all_but).
  reflexivity.
Defined.

Lemma resolve_excludeFiles_config (fp : Parser.patterns) (a : Cli.Args) :
  Cli.to_config (Cli.resolve_excludeFiles fp (Cli.initial_locals a))
  = Matcher.mk_config
      (Cli.extensions a)
      (Cli.include_dirs a || Cli.nonempty (Parser.directories fp))
      (Cli.prepend (Parser.directories fp) (Cli.target_dirs a))
      (negb (Cli.no_recursive a)) (Cli.contains_extension a)
      (Cli.exact_match a)
      (Cli.prepend (Parser.extensions fp) (Cli.exclude_extensions a))
      (Cli.prepend (Parser.exact fp) (Cli.exclude_exact a))
      (Cli.prepend (Parser.contains fp) (Cli.exclude_contains a))
      None (Cli.exclude_all_but a) false false.
Proof.
  destruct fp as [[|e es] [|d ds] [|x xs] [|k ks]]; destruct a;
    cbn; rewrite ?orb_false_r, ?orb_true_r; reflexivity.
Qed.

Lemma resolve_excludeDirs_config (fp : Parser.patterns) (a : Cli.Args) :
  Cli.to_config (Cli.resolve_excludeDirs fp (Cli.initial_locals a))
  = Matcher.mk_config
      (Cli.prepend (Parser.extensions fp) (Cli.extensions a))
      (Cli.include_dirs a) (Cli.target_dirs a)
      (negb (Cli.no_recursive a)) (Cli.contains_extension a)
      (Cli.prepend (Parser.exact fp) (Cli.exact_match a))
      (Cli.exclude_extensions a) (Cli.exclude_exact a)
      (Cli.exclude_contains a)
      (Cli.prepend (Parser.directories fp) None)
      (Cli.exclude_all_but a) true true.
Proof.
  destruct fp as [[|e es] [|d ds] [|x xs] [|k ks]]; destruct a;
    cbn; rewrite ?app_nil_r; reflexivity.
Qed.

(** X16. With [patterns_excludeFiles], the extensions, exact names and
    contains patterns of the pattern file become exclusions, ahead of those
    of the command line, and its directories become target directories with
    [include_dirs] set; the inclusion lists of the command line are left as
    they are, no directory name is excluded and nothing is included
    wholesale. *)
Theorem X16_exclude_files_mode_resolution :
  forall (a : Cli.Args) (content : string) (c : Matcher.config),
    Cli.truthy_str (Cli.patterns_file a) = true ->
    Cli.patterns_exclude a = false ->
    Cli.patterns_excludeFiles a = true ->
    Cli.main_config a (Some content) = Cli.Continue c ->
    let fp := Parser.parse_lines (Parser.readlines content) in
    elems (Matcher.exclude_extensions c)
    = Parser.extensions fp ++ elems (Cli.exclude_extensions a)
    /\ elems (Matcher.exclude_exact c)
       = Parser.exact fp ++ elems (Cli.exclude_exact a)
    /\ elems (Matcher.exclude_contains c)
       = Parser.contains fp ++ elems (Cli.exclude_contains a)
    /\ elems (Matcher.target_dirs c)
       = Parser.directories fp ++ elems (Cli.target_dirs a)
    /\ (Parser.directories fp <> [] -> Matcher.include_dirs c = true)
    /\ Matcher.extensions c = Cli.extensions a
    /\ Matcher.exact_match c = Cli.exact_match a
    /\ Matcher.exclude_dirs c = None
    /\ Matcher.include_all_files c = false
    /\ Matcher.include_all_dirs c = false.
Proof.
  intros a content c Hp H1 H2 Hmain fp.
  destruct (main_config_continue _ _ _ Hp Hmain) as [content' [Hc Hcfg]].
  inversion Hc; subst content'. fold fp in Hcfg.
  unfold Cli.resolve in Hcfg. cbn [Cli.initial_locals Cli.args] in Hcfg.
  rewrite H1, H2, resolve_excludeFiles_config in Hcfg.
  rewrite Hcfg. cbn. rewrite !elems_prepend. repeat split.
  intros Hd. destruct (Parser.directories fp); [congruence|].
  cbn. apply orb_true_r.
Qed.

Lemma X16_witness :
  let c := Matcher.mk_config None true (Some ["logs"]) true false None
             (Some [".bak"]) None None None false false false in
  let fp := Parser.parse_lines
              (Parser.readlines (".bak" ++ String Parser.LF "logs/")%string) in
  elems (Matcher.exclude_extensions c) = Parser.extensions fp ++ []
  /\ elems (Matcher.target_dirs c) = Parser.directories fp ++ []
  /\ Matcher.include_dirs c = true.
Proof.
  pose proof (X16_exclude_files_mode_resolution
                (Cli.mk_Args "delete" None None false None false None
                   (Some "p") false true false false None None None
                   false false)
                (".bak" ++ String Parser.LF "logs/")%string
                (Matcher.mk_config None true (Some ["logs"]) true false None
                   (Some [".bak"]) None None None false false false)
                eq_refl eq_refl eq_refl eq_refl) as H.
  cbv zeta in H. destruct H as [H1 [_ [_ [H4 [H5 _]]]]].
  cbv zeta. split; [exact H1|]. split; [exact H4|].
  apply H5. discriminate.
Defined.

(** X17. With [patterns_excludeDirs], the directories of the pattern file
    become [exclude_dirs], its extensions and exact names go ahead of the
    inclusion lists of the command line, its contains patterns are dropped,
    and [include_all_files] and [include_all_dirs] are set.  Since every
    file then passes the inclusion test, the file patterns restrict
    nothing: unless [exclude_all_but] is set, the files returned are exactly
    those that match no exclusion of the command line. *)
Theorem X17_exclude_dirs_mode_resolution :
  forall (a : Cli.Args) (content : string) (c : Matcher.config)
         (source_dir : string) (entries : list (string * Matcher.node)),
    Cli.truthy_str (Cli.patterns_file a) = true ->
    Cli.patterns_exclude a = false ->
    Cli.patterns_excludeFiles a = false ->
    Cli.patterns_excludeDirs a = true ->
    Cli.main_config a (Some content) = Cli.Continue c ->
    let fp := Parser.parse_lines (Parser.readlines content) in
    (elems (Matcher.extensions c)
     = Parser.extensions fp ++ elems (Cli.extensions a)
     /\ elems (Matcher.exact_match c)
        = Parser.exact fp ++ elems (Cli.exact_match a)
     /\ elems (Matcher.exclude_dirs c) = Parser.directories fp
     /\ Matcher.exclude_extensions c = Cli.exclude_extensions a
     /\ Matcher.exclude_exact c = Cli.exclude_exact a
     /\ Matcher.exclude_contains c = Cli.exclude_contains a
     /\ Matcher.include_all_files c = true
     /\ Matcher.include_all_dirs c = true)
    /\ (Cli.exclude_all_but a = false ->
        forall p,
          In p (fst (Matcher.find_matching_items source_dir entries c)) <->
          exists root es f,
            Matcher.listed c source_dir entries root es
            /\ In (f, Matcher.File) es
            /\ p = join root f
            /\ Matcher.file_matches_exclusion
                 c (Matcher.normalize (Cli.exclude_extensions a)) f = false).
Proof.
  intros a content c source_dir entries Hp H1 H2 H3 Hmain fp.
  destruct (main_config_continue _ _ _ Hp Hmain) as [content' [Hc Hcfg]].
  inversion Hc; subst content'. fold fp in Hcfg.
  unfold Cli.resolve in Hcfg. cbn [Cli.initial_locals Cli.args] in Hcfg.
  rewrite H1, H2, H3, resolve_excludeDirs_config in Hcfg.
  split.
  - rewrite Hcfg. cbn. rewrite !elems_prepend. repeat split.
    apply app_nil_r.
  - intros Hx p.
    assert (Hall : Matcher.include_all_files c = true) by (now rewrite Hcfg).
    assert (Hnot : Matcher.exclude_all_but c = false) by (now rewrite Hcfg).
    assert (Hxe : Matcher.exclude_extensions c = Cli.exclude_extensions a)
      by (now rewrite Hcfg).
    assert (Hv : Matcher.criteria_valid c = true).
    { apply valid_of_inclusion. unfold Matcher.has_inclusion_criteria.
      rewrite Hall. now rewrite !orb_true_r. }
    rewrite (find_files _ _ _ _ Hv).
    unfold Matcher.file_selected, Matcher.file_matches_criteria.
    rewrite Hall, Hnot, Hxe. cbn [orb andb].
    split; intros [root [es [f [Hl [Hf [Hq Hs]]]]]];
      exists root, es, f; repeat split; try assumption;
      now apply negb_true_iff.
Qed.

Lemma X17_witness :
  Matcher.include_all_files
    (Matcher.mk_config (Some [".bak"]) false None true false None
       None None None (Some ["logs"]) false true true) = true
  /\ Matcher.exclude_contains
       (Matcher.mk_config (Some [".bak"]) false None true false None
          None None None (Some ["logs"]) false true true) = None.
Proof.
  pose proof (X17_exclude_dirs_mode_resolution
                (Cli.mk_Args "delete" None None false None false None
                   (Some "p") false false true false None None None
                   false false)
                (".bak" ++ String Parser.LF
                   ("logs/" ++ String Parser.LF "*draft"))%string
                (Matcher.mk_config (Some [".bak"]) false None true false None
                   None None None (Some ["logs"]) false true true)
                "." Samples.tree
                eq_refl eq_refl eq_refl eq_refl eq_refl) as H.
  cbv zeta in H. destruct H as [[_ [_ [_ [_ [_ [H6 [H7 _]]]]]]] _].
  split; [exact H7 | exact H6].
Defined.

(** ** More on the bulk executor *)

Section ExecutorMore.
Variable FS : Type.
Variable os : Executor.os_api FS.
Variables (operation source_dir : string) (dest_dir : option string).
Variables is_dirs dry_run : bool.
Variable logger : option Executor.Logger.

Let loop :=
  Executor.process_loop FS os operation source_dir dest_dir is_dirs dry_run
                        logger.

(** The loop from given values of the count and of the error list is the
    loop from zero and the empty list, shifted. *)
Lemma process_loop_acc items fs count errors :
  loop items fs count errors
  = match loop items fs 0 [] with
    | (fs', Executor.Ok (n, es)) =>
        (fs', Executor.Ok (count + n, errors ++ es))
    | (fs', Executor.Raise e) => (fs', Executor.Raise e)
    end.
Proof.
  unfold loop. revert fs count errors.
  induction items as [|item items IH]; intros fs count errors.
  - cbn. now rewrite Nat.add_0_r, app_nil_r.
  - cbn [Executor.process_loop].
    destruct (Executor.try_item FS os operation source_dir dest_dir is_dirs
                                dry_run logger item fs) as [fs' [u|e]].
    + rewrite (IH fs' (count + 1) errors), (IH fs' (0 + 1) []).
      destruct (Executor.process_loop FS os operation source_dir dest_dir
                  is_dirs dry_run logger items fs' 0 [])
        as [fs2 [[n es]|m]]; [|reflexivity].
      cbn [app]. f_equal. f_equal. f_equal. lia.
    + destruct (Executor.log_call FS logger "debug" fs') as [fs'' [u|e']];
        [|reflexivity].
      rewrite (IH fs'' count (errors ++ [(item, e)])),
              (IH fs'' 0 ([] ++ [(item, e)])).
      destruct (Executor.process_loop FS os operation source_dir dest_dir
                  is_dirs dry_run logger items fs'' 0 [])
        as [fs2 [[n es]|m]]; [|reflexivity].
      cbn [app Nat.add]. f_equal. f_equal. f_equal.
      now rewrite <- app_assoc.
Qed.

Lemma process_loop_app items1 items2 fs count errors :
  loop (items1 ++ items2) fs count errors
  = match loop items1 fs count errors with
    | (fs1, Executor.Ok (n1, e1)) => loop items2 fs1 n1 e1
    | (fs1, Executor.Raise e) => (fs1, Executor.Raise e)
    end.
Proof.
  unfold loop. revert fs count errors.
  induction items1 as [|item items1 IH]; intros fs count errors.
  - reflexivity.
  - cbn [app Executor.process_loop].
    destruct (Executor.try_item FS os operation source_dir dest_dir is_dirs
                                dry_run logger item fs) as [fs' [u|e]].
    + apply IH.
    + destruct (Executor.log_call FS logger "debug" fs') as [fs'' [u|e']];
        [apply IH | reflexivity].
Qed.
End ExecutorMore.

(** X18. A batch may be cut anywhere: running [process_items] on a list is
    the same as running it on a first part and then, in the file system the
    first run left, on the rest; the counts add up and the error lists
    follow one another, and an exception that ends the first run ends the
    whole.  With a logger both runs do return. *)
Theorem X18_process_items_in_two_batches :
  forall (FS : Type) (os : Executor.os_api FS) (operation : string)
         (items1 items2 : list string) (source_dir : string)
         (dest_dir : option string) (is_dirs dry_run : bool) (fs : FS),
    (forall logger,
        let run items fs :=
          Executor.process_items FS os operation items source_dir dest_dir
                                 is_dirs dry_run logger fs in
        run (items1 ++ items2) fs
        = match run items1 fs with
          | (fs1, Executor.Raise e) => (fs1, Executor.Raise e)
          | (fs1, Executor.Ok (n1, e1)) =>
              match run items2 fs1 with
              | (fs2, Executor.Raise e) => (fs2, Executor.Raise e)
              | (fs2, Executor.Ok (n2, e2)) =>
                  (fs2, Executor.Ok (n1 + n2, e1 ++ e2))
              end
          end)
    /\ (forall lg,
           let run items fs :=
             Executor.process_items FS os operation items source_dir dest_dir
                                    is_dirs dry_run (Some lg) fs in
           exists fs1 n1 e1 fs2 n2 e2,
             run items1 fs = (fs1, Executor.Ok (n1, e1))
             /\ run items2 fs1 = (fs2, Executor.Ok (n2, e2))
             /\ run (items1 ++ items2) fs
                = (fs2, Executor.Ok (n1 + n2, e1 ++ e2))).
Proof.
  intros FS os operation items1 items2 source_dir dest_dir is_dirs dry_run fs.
  assert (Hgen : forall logger,
             Executor.process_items FS os operation (items1 ++ items2)
               source_dir dest_dir is_dirs dry_run logger fs
             = match Executor.process_items FS os operation items1 source_dir
                       dest_dir is_dirs dry_run logger fs with
               | (fs1, Executor.Raise e) => (fs1, Executor.Raise e)
               | (fs1, Executor.Ok (n1, e1)) =>
                   match Executor.process_items FS os operation items2
                           source_dir dest_dir is_dirs dry_run logger fs1 with
                   | (fs2, Executor.Raise e) => (fs2, Executor.Raise e)
                   | (fs2, Executor.Ok (n2, e2)) =>
                       (fs2, Executor.Ok (n1 + n2, e1 ++ e2))
                   end
               end).
  { intros logger. unfold Executor.process_items.
    rewrite process_loop_app.
    destruct (Executor.process_loop FS os operation source_dir dest_dir
                is_dirs dry_run logger items1 fs 0 [])
      as [fs1 [[n1 e1]|m]]; [|reflexivity].
    apply process_loop_acc. }
  split; [exact Hgen|].
  intros lg run. unfold run. rewrite Hgen.
  pose proof (process_loop_logged FS os operation source_dir dest_dir is_dirs
                dry_run lg items1 fs 0 []) as H1.
  unfold Executor.process_items.
  destruct (Executor.process_loop FS os operation source_dir dest_dir
              is_dirs dry_run (Some lg) items1 fs 0 [])
    as [fs1 [[n1 e1]|m]]; [|discriminate H1].
  pose proof (process_loop_logged FS os operation source_dir dest_dir is_dirs
                dry_run lg items2 fs1 0 []) as H2.
  destruct (Executor.process_loop FS os operation source_dir dest_dir
              is_dirs dry_run (Some lg) items2 fs1 0 [])
    as [fs2 [[n2 e2]|m]] eqn:E2; [|discriminate H2].
  exists fs1, n1, e1, fs2, n2, e2. repeat split. exact E2.
Qed.

(** X19. An operation other than [delete], [copy] and [move] does nothing
    and still counts: outside a dry run, when the relative path of every
    item can be computed, the file system is left as it was, every item is
    counted as processed and no error is recorded, with or without a
    logger. *)
Theorem X19_unknown_operation_counts_every_item :
  forall (FS : Type) (os : Executor.os_api FS) (operation : string)
         (items : list string) (source_dir : string)
         (dest_dir : option string) (is_dirs : bool)
         (logger : option Executor.Logger) (fs : FS),
    operation <> "delete" -> operation <> "copy" -> operation <> "move" ->
    (forall item, In item items ->
                  exists rel, Executor.relpath FS os item source_dir fs
                              = Executor.Ok rel) ->
    Executor.process_items FS os operation items source_dir dest_dir
                           is_dirs false logger fs
    = (fs, Executor.Ok (length items, [])).
Proof.
  intros FS os operation items source_dir dest_dir is_dirs logger fs
         Hd Hc Hm Hrel.
  assert (Hone : forall item,
             In item items ->
             Executor.try_item FS os operation source_dir dest_dir is_dirs
                               false logger item fs = (fs, Executor.Ok tt)).
  { intros item Hin. destruct (Hrel item Hin) as [rel Hr].
    unfold Executor.try_item, Executor.bind, Executor.reading, Executor.ret.
    rewrite Hr.
    apply String.eqb_neq in Hd, Hc, Hm. now rewrite Hd, Hc, Hm. }
  unfold Executor.process_items.
  assert (Hgen : forall count,
             Executor.process_loop FS os operation source_dir dest_dir
               is_dirs false logger items fs count []
             = (fs, Executor.Ok (count + length items, []))).
  { clear Hrel. induction items as [|item items IH]; intros count.
    - cbn. now rewrite Nat.add_0_r.
    - cbn [Executor.process_loop]. rewrite (Hone item (or_introl eq_refl)).
      rewrite IH.
      + cbn [length]. f_equal. f_equal. f_equal. lia.
      + intros i Hi. apply Hone. now right. }
  apply (Hgen 0).
Qed.

Lemma X19_witness :
  Executor.process_items Executor.toy_fs Executor.toy_os "rename"
    ["a"; "b"] "." None false false None [("a", true); ("b", false)]
  = ([("a", true); ("b", false)], Executor.Ok (2, [])).
Proof.
  apply (X19_unknown_operation_counts_every_item
           Executor.toy_fs Executor.toy_os "rename" ["a"; "b"] "." None false
           None [("a", true); ("b", false)]); try discriminate.
  intros item Hin. exists item.
  destruct Hin as [<- | [<- | []]]; reflexivity.
Defined.

(** X20. A copy or a move without destination directory ([dest_dir] left
    at [None]), called with a logger, touches nothing and fails for every
    item, dry run or not: the file system is left as it was, the count is
    zero and the error list has one entry per item, in order. *)
Theorem X20_copy_or_move_without_destination :
  forall (FS : Type) (os : Executor.os_api FS) (operation : string)
         (items : list string) (source_dir : string)
         (is_dirs dry_run : bool) (lg : Executor.Logger) (fs : FS),
    operation = "copy" \/ operation = "move" ->
    exists errors,
      Executor.process_items FS os operation items source_dir None
                             is_dirs dry_run (Some lg) fs
      = (fs, Executor.Ok (0, errors))
      /\ map fst errors = items.
Proof.
  intros FS os operation items source_dir is_dirs dry_run lg fs Hop.
  assert (Hone : forall item,
             exists e,
               Executor.try_item FS os operation source_dir None is_dirs
                                 dry_run (Some lg) item fs
               = (fs, Executor.Raise e)).
  { intros item.
    unfold Executor.try_item, Executor.bind, Executor.reading,
      Executor.pure_res, Executor.ret.
    destruct (Executor.relpath FS os item source_dir fs) as [rel|e];
      [|now exists e].
    destruct Hop as [-> | ->]; destruct dry_run; cbn; eexists; reflexivity. }
  assert (Hgen : forall errors0,
             exists errors,
               Executor.process_loop FS os operation source_dir None is_dirs
                 dry_run (Some lg) items fs 0 errors0
               = (fs, Executor.Ok (0, errors))
               /\ map fst errors = map fst errors0 ++ items).
  { induction items as [|item items IH]; intros errors0.
    - exists errors0. cbn. now rewrite app_nil_r.
    - cbn [Executor.process_loop]. destruct (Hone item) as [e He].
      rewrite He. cbn [Executor.log_call].
      destruct (IH (errors0 ++ [(item, e)])) as [errors [H1 H2]].
      exists errors. split; [exact H1|].
      rewrite H2, map_app. cbn. now rewrite <- app_assoc. }
  destruct (Hgen []) as [errors [H1 H2]]. exists errors. split; assumption.
Qed.

Lemma X20_witness :
  exists errors,
    Executor.process_items Executor.toy_fs Executor.toy_os "move"
      ["a"; "b"] "." None false false (Some Executor.console_logger)
      [("a", true); ("b", false)]
    = ([("a", true); ("b", false)], Executor.Ok (0, errors))
    /\ map fst errors = ["a"; "b"].
Proof.
  apply (X20_copy_or_move_without_destination
           Executor.toy_fs Executor.toy_os "move" ["a"; "b"] "." false false
           Executor.console_logger [("a", true); ("b", false)]).
  now right.
Defined.

(** X24. Called without a logger ([logger] left at [None]),
    [process_items] does not survive its first item when the run is a dry
    run or the operation is [delete], [copy] or [move]: the item is
    attempted (outside a dry run its file may be removed, copied or
    moved), the attempt ends in an exception at the latest at its logger
    call, and the logger call of the handler raises out of the loop.  The
    function returns no count and the remaining items are not tried. *)
Theorem X24_without_logger_the_first_item_ends_the_batch :
  forall (FS : Type) (os : Executor.os_api FS) (operation : string)
         (item : string) (rest : list string) (source_dir : string)
         (dest_dir : option string) (is_dirs dry_run : bool) (fs : FS),
    dry_run = true \/ operation = "delete" \/ operation = "copy"
    \/ operation = "move" ->
    Executor.process_items FS os operation (item :: rest) source_dir dest_dir
                           is_dirs dry_run None fs
    = (fst (Executor.try_item FS os operation source_dir dest_dir is_dirs
                              dry_run None item fs),
       Executor.Raise "'NoneType' object has no attribute 'debug'").
Proof.
  intros FS os operation item rest source_dir dest_dir is_dirs dry_run fs Hop.
  assert (Hraise : exists fs' e,
             Executor.try_item FS os operation source_dir dest_dir is_dirs
                               dry_run None item fs
             = (fs', Executor.Raise e)).
  { unfold Executor.try_item, Executor.bind, Executor.reading,
      Executor.pure_res, Executor.ret, Executor.ensure_dir, Executor.log_call.
    destruct (Executor.relpath FS os item source_dir fs) as [rel|e];
      [|now exists fs, e].
    destruct dry_run.
    - destruct (String.eqb operation "delete"); [eexists; eexists; reflexivity|].
      destruct (Executor.join_dest dest_dir rel);
        eexists; eexists; reflexivity.
    - destruct Hop as [Hop | [-> | [-> | ->]]]; [discriminate| | |]; cbn.
      + destruct is_dirs.
        * destruct (Executor.rmtree FS os item fs) as [fs' [u|e]];
            eexists; eexists; reflexivity.
        * destruct (Executor.remove FS os item fs) as [fs' [u|e]];
            eexists; eexists; reflexivity.
      + destruct (Executor.join_dest dest_dir rel) as [dest|e];
          [|eexists; eexists; reflexivity].
        destruct (negb (Executor.path_exists FS os (dirname dest) fs)).
        * destruct (Executor.makedirs FS os (dirname dest) fs)
            as [fs1 [u|e]]; [|eexists; eexists; reflexivity].
          destruct is_dirs.
          -- destruct (Executor.copytree FS os item dest fs1) as [fs2 [v|e]];
               eexists; eexists; reflexivity.
          -- destruct (Executor.copy2 FS os item dest fs1) as [fs2 [v|e]];
               eexists; eexists; reflexivity.
        * destruct is_dirs.
          -- destruct (Executor.copytree FS os item dest fs) as [fs2 [v|e]];
               eexists; eexists; reflexivity.
          -- destruct (Executor.copy2 FS os item dest fs) as [fs2 [v|e]];
               eexists; eexists; reflexivity.
      + destruct (Executor.join_dest dest_dir rel) as [dest|e];
          [|eexists; eexists; reflexivity].
        destruct (negb (Executor.path_exists FS os (dirname dest) fs)).
        * destruct (Executor.makedirs FS os (dirname dest) fs)
            as [fs1 [u|e]]; [|eexists; eexists; reflexivity].
          destruct (Executor.move FS os item dest fs1) as [fs2 [v|e]];
            eexists; eexists; reflexivity.
        * destruct (Executor.move FS os item dest fs) as [fs2 [v|e]];
            eexists; eexists; reflexivity. }
  destruct Hraise as [fs' [e He]].
  unfold Executor.process_items. cbn [Executor.process_loop].
  rewrite He. reflexivity.
Qed.

Lemma X24_witness :
  Executor.process_items Executor.toy_fs Executor.toy_os "delete"
    ["a"; "b"] "." None false false None [("a", true); ("b", true)]
  = (fst (Executor.try_item Executor.toy_fs Executor.toy_os "delete" "." None
            false false None "a" [("a", true); ("b", true)]),
     Executor.Raise "'NoneType' object has no attribute 'debug'").
Proof.
  apply (X24_without_logger_the_first_item_ends_the_batch
           Executor.toy_fs Executor.toy_os "delete" "a" ["b"] "." None
           false false [("a", true); ("b", true)]).
  right. left. reflexivity.
Defined.

(** ** The whole program *)

Section ProgramFacts.
Variable FS : Type.
Variable os : Executor.os_api FS.
Variable view : Program.fs_view FS.

Lemma process_items_total operation items source_dir dest_dir is_dirs
      dry_run lg fs :
  exists n errs,
    snd (Executor.process_items FS os operation items source_dir dest_dir
           is_dirs dry_run (Some lg) fs) = Executor.Ok (n, errs)
    /\ n + length errs = length items.
Proof.
  unfold Executor.process_items. rewrite process_loop_logged.
  eexists. eexists. split; [reflexivity|].
  cbn [app Nat.add]. rewrite partition_length.
  rewrite <- (attempts_items FS os operation source_dir dest_dir is_dirs
                             dry_run lg items fs) at 2.
  now rewrite length_map.
Qed.

Lemma dry_run_process_items operation items source_dir dest_dir is_dirs
      logger fs :
  fst (Executor.process_items FS os operation items source_dir dest_dir
                              is_dirs true logger fs) = fs.
Proof. unfold Executor.process_items. apply dry_process_loop_fs. Qed.

Lemma finish_report r answers files dirs fs fs' e n errs :
  Program.finish FS os r answers files dirs fs = (fs', e, Some (n, errs)) ->
  e = Program.Returned (if length errs =? 0 then 0 else 1)
  /\ n + length errs = length files + length dirs.
Proof.
  unfold Program.finish, Program.logger.
  destruct (length files + length dirs =? 0); [discriminate|].
  destruct (if Program.dry_run r then Some true
            else if negb (Program.no_confirm r)
                 then option_map fst (Program.ask answers)
                 else Some true) as [[|]|]; try discriminate.
  destruct (process_items_total
              (Cli.operation (Program.args r)) files (Program.source_dir r)
              (Cli.dest_dir (Program.args r)) false (Program.dry_run r)
              Executor.console_logger fs) as [nf [ef [Hf Hlf]]].
  destruct (Executor.process_items FS os (Cli.operation (Program.args r)) files
              (Program.source_dir r) (Cli.dest_dir (Program.args r)) false
              (Program.dry_run r) (Some Executor.console_logger) fs)
    as [fs1 rf].
  cbn [snd] in Hf. subst rf.
  destruct (process_items_total
              (Cli.operation (Program.args r)) dirs (Program.source_dir r)
              (Cli.dest_dir (Program.args r)) true (Program.dry_run r)
              Executor.console_logger fs1) as [nd [ed [Hd Hld]]].
  destruct (Executor.process_items FS os (Cli.operation (Program.args r)) dirs
              (Program.source_dir r) (Cli.dest_dir (Program.args r)) true
              (Program.dry_run r) (Some Executor.console_logger) fs1)
    as [fs2 rd].
  cbn [snd] in Hd. subst rd.
  intros H. inversion H; subst. split; [reflexivity|].
  rewrite length_app. lia.
Qed.

(** In a dry run neither the destination directory nor the backup is
    made. *)
Lemma dry_prepare_dest r answers fs :
  Program.dry_run r = true ->
  Program.prepare_dest FS os r answers fs = (fs, inr answers).
Proof.
  intros Hdry. unfold Program.prepare_dest. rewrite Hdry.
  destruct (Cli.dest_dir (Program.args r)); [|reflexivity].
  now rewrite andb_false_r.
Qed.

Lemma dry_prepare_backup r answers now fs :
  Program.dry_run r = true ->
  Program.prepare_backup FS os r answers now fs = (fs, inr answers).
Proof.
  intros Hdry. unfold Program.prepare_backup. rewrite Hdry.
  now rewrite andb_false_r.
Qed.
End ProgramFacts.



(** X21. A dry run changes nothing: with [--dry-run], whatever the other
    options, the answers typed and the behaviour of the operating system,
    [main] leaves the file system exactly as it found it (no destination
    directory is created, no backup is made, no item is touched). *)
Theorem X21_dry_run_of_main_changes_nothing :
  forall (FS : Type) (os : Executor.os_api FS) (view : Program.fs_view FS)
         (r : Program.Run) (answers : list string) (now : string) (fs : FS),
    Program.dry_run r = true ->
    fst (fst (Program.main FS os view r answers now fs)) = fs.
Proof.
  intros FS os view r answers now fs Hdry. unfold Program.main.
  destruct (Cli.main_config _ _) as [m|n|c]; try reflexivity.
  destruct (negb (Program.isdir FS view (Program.source_dir r) fs));
    [reflexivity|].
  rewrite (dry_prepare_dest FS os r answers fs Hdry).
  rewrite (dry_prepare_backup FS os r answers now fs Hdry).
  destruct (Matcher.find_matching_items _ _ c) as [files dirs].
  unfold Program.finish. rewrite Hdry.
  destruct (length files + length dirs =? 0); [reflexivity|].
  pose proof (dry_run_process_items FS os
                (Cli.operation (Program.args r)) files (Program.source_dir r)
                (Cli.dest_dir (Program.args r)) false Program.logger fs)
    as Hf.
  destruct (Executor.process_items FS os (Cli.operation (Program.args r)) files
              (Program.source_dir r) (Cli.dest_dir (Program.args r)) false
              true Program.logger fs) as [fs1 [[nf ef]|m]];
    cbn [fst] in Hf; subst fs1; [|reflexivity].
  pose proof (dry_run_process_items FS os
                (Cli.operation (Program.args r)) dirs (Program.source_dir r)
                (Cli.dest_dir (Program.args r)) true Program.logger fs)
    as Hd.
  destruct (Executor.process_items FS os (Cli.operation (Program.args r)) dirs
              (Program.source_dir r) (Cli.dest_dir (Program.args r)) true
              true Program.logger fs) as [fs2 [[nd ed]|m]];
    cbn [fst] in Hd; now subst fs2.
Qed.

Lemma X21_witness :
  fst (fst (Program.main Executor.toy_fs Executor.toy_os Program.toy_view
              (Program.delete_tmp true) [] "20240101_000000"
              [("./a.tmp", true)]))
  = [("./a.tmp", true)].
Proof.
  apply (X21_dry_run_of_main_changes_nothing
           Executor.toy_fs Executor.toy_os Program.toy_view
           (Program.delete_tmp true) [] "20240101_000000"
           [("./a.tmp", true)]).
  reflexivity.
Defined.

(** X22. When [main] carries the operation out, its exit status is 0 if no
    item failed and 1 otherwise, and the items it reports as processed
    together with the errors are as many as the files and directories that
    were matched. *)
Theorem X22_exit_status_reflects_the_errors :
  forall (FS : Type) (os : Executor.os_api FS) (view : Program.fs_view FS),
    (forall r answers files dirs fs fs' e n errs,
        Program.finish FS os r answers files dirs fs = (fs', e, Some (n, errs)) ->
        e = Program.Returned (if length errs =? 0 then 0 else 1)
        /\ n + length errs = length files + length dirs)
    /\ (forall r answers now fs fs' e n errs,
           Program.main FS os view r answers now fs = (fs', e, Some (n, errs)) ->
           (e = Program.Returned 0 <-> errs = [])
           /\ (e = Program.Returned 1 <-> errs <> [])).
Proof.
  intros FS os view. split.
  - intros r answers files dirs fs fs' e n errs.
    apply finish_report.
  - intros r answers now fs fs' e n errs. unfold Program.main.
    destruct (Cli.main_config _ _) as [m|k|c]; try discriminate.
    destruct (negb (Program.isdir FS view (Program.source_dir r) fs));
      [discriminate|].
    destruct (Program.prepare_dest FS os r answers fs) as [fs1 [x|answers1]];
      [discriminate|].
    destruct (Program.prepare_backup FS os r answers1 now fs1)
      as [fs2 [x|answers2]]; [discriminate|].
    destruct (Matcher.find_matching_items _ _ c) as [files dirs].
    intros H. apply finish_report in H. destruct H as [-> _].
    destruct errs as [|x errs]; cbn;
      split; split; intros H; try reflexivity; try discriminate;
      try (exfalso; now apply H).
Qed.

Lemma X22_witness :
  (Program.Returned 1 = Program.Returned 0
   <-> [("./b.TMP", "[Errno 2] No such file or directory");
        ("./sub/x.tmp", "[Errno 2] No such file or directory")] = [])
  /\ (Program.Returned 1 = Program.Returned 1
      <-> [("./b.TMP", "[Errno 2] No such file or directory");
           ("./sub/x.tmp", "[Errno 2] No such file or directory")] <> []).
Proof.
  apply (proj2 (X22_exit_status_reflects_the_errors
                  Executor.toy_fs Executor.toy_os Program.toy_view)
               (Program.mk_Run (Program.args (Program.delete_tmp false))
                               "." false false true)
               [] "20240101_000000" [("./a.tmp", true)] [] _ 1).
  reflexivity.
Defined.

(** X23. Declining the confirmation leaves everything as it was: outside a
    dry run, with confirmation asked, no backup requested and no
    destination directory to create, an answer other than [y] (in either
    case) makes [main] return without changing the file system and without
    carrying the operation out. *)
Theorem X23_declined_confirmation_changes_nothing :
  forall (FS : Type) (os : Executor.os_api FS) (view : Program.fs_view FS)
         (r : Program.Run) (answer : string) (rest : list string)
         (now : string) (fs : FS),
    Program.dry_run r = false ->
    Program.no_confirm r = false ->
    Program.backup r = false ->
    (forall dest, Cli.dest_dir (Program.args r) = Some dest ->
                  Executor.path_exists FS os dest fs = true) ->
    String.eqb (lower answer) "y" = false ->
    fst (fst (Program.main FS os view r (answer :: rest) now fs)) = fs
    /\ snd (Program.main FS os view r (answer :: rest) now fs) = None.
Proof.
  intros FS os view r answer rest now fs Hdry Hconf Hbak Hdest Hans.
  unfold Program.main.
  destruct (Cli.main_config _ _) as [m|n|c]; try (split; reflexivity).
  destruct (negb (Program.isdir FS view (Program.source_dir r) fs));
    [split; reflexivity|].
  assert (Hd : Program.prepare_dest FS os r (answer :: rest) fs
               = (fs, inr (answer :: rest))).
  { unfold Program.prepare_dest.
    destruct (Cli.dest_dir (Program.args r)) as [dest|] eqn:E; [|reflexivity].
    rewrite (Hdest dest eq_refl). cbn. now rewrite andb_false_r. }
  rewrite Hd.
  assert (Hb : Program.prepare_backup FS os r (answer :: rest) now fs
               = (fs, inr (answer :: rest))).
  { unfold Program.prepare_backup. now rewrite Hbak. }
  rewrite Hb.
  destruct (Matcher.find_matching_items _ _ c) as [files dirs].
  unfold Program.finish. rewrite Hdry, Hconf. cbn. rewrite Hans.
  destruct (length files + length dirs =? 0); split; reflexivity.
Qed.

Lemma X23_witness :
  fst (fst (Program.main Executor.toy_fs Executor.toy_os Program.toy_view
              (Program.delete_tmp false) ["n"] "20240101_000000"
              [("./a.tmp", true)]))
  = [("./a.tmp", true)]
  /\ snd (Program.main Executor.toy_fs Executor.toy_os Program.toy_view
            (Program.delete_tmp false) ["n"] "20240101_000000"
            [("./a.tmp", true)]) = None.
Proof.
  apply (X23_declined_confirmation_changes_nothing
           Executor.toy_fs Executor.toy_os Program.toy_view
           (Program.delete_tmp false) "n" [] "20240101_000000"
           [("./a.tmp", true)]); try reflexivity.
  intros dest H. discriminate H.
Defined.




(** X6. In normal mode with [patterns_override], each kind of pattern that
    the file does give replaces the list of the command line (extensions,
    exact names, target directories, the latter with [include_dirs] set); a
    kind the file does not give leaves the list of the command line as it
    was. *)
Theorem X6_override_replaces_the_given_kinds_only :
  forall (a : Cli.Args) (content : string) (c : Matcher.config),
    Cli.truthy_str (Cli.patterns_file a) = true ->
    Cli.patterns_exclude a = false ->
    Cli.patterns_excludeFiles a = false ->
    Cli.patterns_excludeDirs a = false ->
    Cli.patterns_override a = true ->
    Cli.main_config a (Some content) = Cli.Continue c ->
    let fp := Parser.parse_lines (Parser.readlines content) in
    Matcher.extensions c
    = (if Cli.nonempty (Parser.extensions fp)
       then Some (Parser.extensions fp) else Cli.extensions a)
    /\ Matcher.exact_match c
       = (if Cli.nonempty (Parser.exact fp)
          then Some (Parser.exact fp) else Cli.exact_match a)
    /\ Matcher.target_dirs c
       = (if Cli.nonempty (Parser.directories fp)
          then Some (Parser.directories fp) else Cli.target_dirs a)
    /\ Matcher.include_dirs c
       = Cli.include_dirs a || Cli.nonempty (Parser.directories fp).
Proof.
  intros a content c Hp H1 H2 H3 Ho Hmain fp.
  destruct (main_config_continue _ _ _ Hp Hmain) as [content' [Hc Hcfg]].
  inversion Hc; subst content'. fold fp in Hcfg.
  unfold Cli.resolve in Hcfg. cbn [Cli.initial_locals Cli.args] in Hcfg.
  rewrite H1, H2, H3 in Hcfg. rewrite Hcfg. clear Hcfg Hmain Hc.
  unfold Cli.resolve_normal, Cli.when.
  destruct fp as [[|e es] [|d ds] [|x xs] [|k ks]]; destruct a;
    cbn in *; subst; cbn; rewrite ?app_nil_r, ?orb_false_r, ?orb_true_r;
    repeat split.
Qed.

Lemma X6_witness :
  Matcher.extensions
    (Matcher.mk_config (Some [".bak"]) false None true false None
       None None None None false false false)
  = (if Cli.nonempty
          (Parser.extensions (Parser.parse_lines (Parser.readlines ".bak")))
     then Some (Parser.extensions
                  (Parser.parse_lines (Parser.readlines ".bak")))
     else Some ["tmp"]).
Proof.
  apply (X6_override_replaces_the_given_kinds_only
           (Cli.mk_Args "delete" None (Some ["tmp"]) false None false None
              (Some "p") false false false true None None None false false)
           ".bak"
           (Matcher.mk_config (Some [".bak"]) false None true false None
              None None None None false false false)
           eq_refl eq_refl eq_refl eq_refl eq_refl eq_refl).
Defined.
